(** * Coursework scripts: energy dashboard, gradebook, calorie tracker

    A shallow embedding of the three scripts the specification talks about:

    - [Energy]    : [Assignment-5/energy_dashboard.py], the ingestion and
                    aggregation pipeline ([ingest_data], [BuildingManager]);
    - [Reporting] : the plotting and export stage of the same file
                    ([generate_dashboard_plots], [export_results], [main]);
    - [Tracker]   : [unit 1  daily calorie taker/tracker.py];
    - [Gradebook] : [gradebook.py/gradebook.py], the script as it runs;
    - [Marksheet] : the functions of [gradebook.py] (lines 11-199).

    Conventions of the embedding.

    - A pandas [DataFrame] is a list of rows in table order.  Only the three
      columns the code names ([Timestamp], [Building], [kWh]) and the column
      it adds ([Hour]) are represented; other columns of an input file are
      carried along by pandas untouched and never read.
    - A timestamp is an integer number of nanoseconds since the epoch, as in a
      [datetime64[ns]] index.  A [kWh] reading is an exact rational: the
      rounding of binary floating point is outside the model.
    - [DataFrame] objects live in a store and are handled through references,
      so that [.copy()] and the in-place column assignment
      [df_with_hour['Hour'] = ...] keep their meaning.
    - The parsers of the library, [pd.to_datetime(..., errors='coerce')] and
      [pd.to_numeric(..., errors='coerce')], are parameters. *)

From stdpp Require Import base numbers list strings gmap sorting pretty.
From Stdlib Require Import Ascii QArith Qcanon.

Set Default Proof Using "Type".
Open Scope Z_scope.

(** ** Sorting

    Python's [sorted] is stable.  [DataFrame.sort_values] uses numpy's
    quicksort by default, which promises no order among equal keys; the stable
    insertion sort below is one admissible behaviour, and no statement of this
    file depends on the order it gives to rows with equal keys. *)

Section Sorting.
Context {A : Type} (leb : A → A → bool).

Fixpoint insert_sorted (x : A) (l : list A) : list A :=
  match l with
  | [] => [x]
  | y :: l' => if leb x y then x :: l else y :: insert_sorted x l'
  end.

Definition isort (l : list A) : list A := foldr insert_sorted [] l.
End Sorting.

(** ** The store of objects and the log *)

Inductive Level := INFO | WARNING | ERROR.

(** A missing value ([NaN]) is [None]; a present field carries its text. *)
Definition cell := option string.

Module Energy.

(** One row of a frame.  [V] is the type of the [kWh] column: [cell] before
    [pd.to_numeric], [Qc] after it.  [Hour] is the column added to the copy in
    [calculate_time_trends]; it is absent ([None]) everywhere else. *)
Record Row (V : Type) := mkRow {
  Timestamp : Z;
  Building : cell;
  kWh : V;
  Hour : option Z
}.
Arguments mkRow {V} _ _ _ _.
Arguments Timestamp {V} _.
Arguments Building {V} _.
Arguments kWh {V} _.
Arguments Hour {V} _.

Abbreviation DataFrame := (list (Row Qc)).

(** Messages of the module's logger, one constructor per format string. *)
Inductive Message :=
| DataDirMissing                       (* "Data directory does not exist: %s" *)
| NoCsvFiles                           (* "No CSV files found in data directory: %s" *)
| MissingColumn (col file : string)    (* "Missing '<col>' column in %s; skipping." *)
| Ingested (file : string) (n : nat)   (* "Ingested %s with %d rows." *)
| FileNotFound (file : string)         (* "File not found: %s" *)
| ErrorReading (file : string)         (* "Error reading file: %s" *)
| NoValidData                          (* "No valid data ingested." *)
| EmptySummary                         (* "DataFrame is empty; cannot compute summary statistics." *)
| SummaryDone (n : nat)                (* "Calculated summary statistics for %d buildings." *)
| EmptyTrends                          (* "DataFrame is empty; cannot compute time trends." *)
| TrendsDone (days : nat).             (* "Computed daily totals (%d days) and weekly averages." *)

Abbreviation ref := nat.

Record World := mkWorld {
  heap : gmap ref DataFrame;
  log : list (Level * Message)
}.

(** Computations that read and write the store and append to the log. *)
Definition M (A : Type) : Type := World → A * World.

#[export] Instance M_ret : MRet M := λ A a w, (a, w).
#[export] Instance M_bind : MBind M := λ A B k m w, let '(a, w') := m w in k a w'.

Definition logger (lv : Level) (msg : Message) : M unit :=
  λ w, (tt, mkWorld (heap w) (log w ++ [(lv, msg)])).

(** A new object: its reference is one the store does not use yet. *)
Definition new (d : DataFrame) : M ref :=
  λ w, let l := fresh (dom (heap w)) in (l, mkWorld (<[l := d]> (heap w)) (log w)).

(** The frame behind a reference. *)
Definition deref (l : ref) : M DataFrame := λ w, (heap w !!! l, w).

(** [df.copy()] *)
Definition copy (l : ref) : M ref := d ← deref l; new d.

(** In-place update of the object behind [l]. *)
Definition modify (l : ref) (f : DataFrame → DataFrame) : M unit :=
  λ w, (tt, mkWorld (<[l := f (heap w !!! l)]> (heap w)) (log w)).

(** ** Input files *)

(** A row as [pd.read_csv] delivers it. *)
Record RawRow := mkRaw {
  raw_Timestamp : cell;
  raw_Building : cell;
  raw_kWh : cell
}.

(** The frame [pd.read_csv] returns: its header and its rows.  The fields of a
    row are meaningful only for the columns the header has. *)
Record CsvTable := mkCsv {
  columns : list string;
  rows : list RawRow
}.

Inductive Exn := FileNotFoundError | OtherError.

(** What [pd.read_csv(csv_file, on_bad_lines='skip')] does on a file. *)
Inductive ReadResult :=
| Raises (e : Exn)
| Returns (t : CsvTable).

(** What is at [data_dir]: nothing, or entries with their names. *)
Inductive Path :=
| NoSuchPath
| Directory (entries : list (string * ReadResult)).

(** What the test [data_dir.exists()] of line 36 does; it stands outside every
    [try].  [Path.exists] calls [stat]: it answers [False] when [stat] fails
    because nothing is there (ENOENT, ENOTDIR, EBADF, ELOOP) and passes every
    other [OSError] on, for instance for a name that is too long or under a
    directory that cannot be searched. *)
Inductive Location :=
| Answers (data_dir : Path)      (* the test answers, and [data_dir] is what is there *)
| StatFails.                     (* the test raises [OSError] *)

(** How a call ends. *)
Inductive Call (A : Type) :=
| Returned (a : A)
| RaisedOSError.
Arguments Returned {A} _.
Arguments RaisedOSError {A}.

(** [name] matches the pattern [*.csv]. *)
Definition is_csv (name : string) : bool :=
  bool_decide (String.substring (String.length name - 4) 4 name = ".csv"%string
               ∧ (4 ≤ String.length name)%nat).

(** [sorted(data_dir.glob("*.csv"))] *)
Definition glob_csv (entries : list (string * ReadResult)) : list (string * ReadResult) :=
  filter (λ e, is_csv e.1 = true) entries.

Definition name_leb (e1 e2 : string * ReadResult) : bool := String.leb e1.1 e2.1.

Definition sorted_csv_files (entries : list (string * ReadResult)) :=
  isort name_leb (glob_csv entries).

Section Ingest.
(** [pd.to_datetime(column, errors='coerce')]: one result per field, [None]
    for [NaT].  It takes the whole column because pandas guesses the format
    from it. *)
Variable to_datetime : list cell → list (option Z).
(** [pd.to_numeric(column, errors='coerce')] at one field, [None] for [NaN]. *)
Variable to_numeric : cell → option Qc.

(** Lines 59-60: replace the [Timestamp] column by its parsed form, then
    [dropna(subset=['Timestamp'])]. *)
Definition parse_timestamps (t : CsvTable) : list (Row cell) :=
  omap (λ p : option Z * RawRow,
          ts ← p.1; Some (mkRow ts (raw_Building p.2) (raw_kWh p.2) None))
       (zip (to_datetime (raw_Timestamp <$> rows t)) (rows t)).

Definition ts_leb (r1 r2 : Row cell) : bool := bool_decide (Timestamp r1 ≤ Timestamp r2).

(** Line 61: [df.sort_values('Timestamp')] *)
Definition sort_values_Timestamp (d : list (Row cell)) : list (Row cell) :=
  isort ts_leb d.

(** The body of the loop over [csv_files], lines 45-69. *)
Definition ingest_file (all_rows : list (list (Row cell))) (f : string * ReadResult)
  : M (list (list (Row cell))) :=
  match f.2 with
  | Raises FileNotFoundError => logger ERROR (FileNotFound f.1);; mret all_rows
  | Raises OtherError => logger ERROR (ErrorReading f.1);; mret all_rows
  | Returns df =>
      if negb (bool_decide ("Timestamp"%string ∈ columns df)) then
        logger WARNING (MissingColumn "Timestamp" f.1);; mret all_rows
      else if negb (bool_decide ("Building"%string ∈ columns df)) then
        logger WARNING (MissingColumn "Building" f.1);; mret all_rows
      else if negb (bool_decide ("kWh"%string ∈ columns df)) then
        logger WARNING (MissingColumn "kWh" f.1);; mret all_rows
      else
        let df := sort_values_Timestamp (parse_timestamps df) in
        logger INFO (Ingested f.1 (length df));; mret (all_rows ++ [df])
  end.

Fixpoint ingest_loop (all_rows : list (list (Row cell)))
    (csv_files : list (string * ReadResult)) : M (list (list (Row cell))) :=
  match csv_files with
  | [] => mret all_rows
  | f :: rest => all_rows ← ingest_file all_rows f; ingest_loop all_rows rest
  end.

(** Lines 79-80: [pd.to_numeric] on the [kWh] column, then
    [dropna(subset=['kWh'])]. *)
Definition numeric_kWh (d : list (Row cell)) : DataFrame :=
  omap (λ r, v ← to_numeric (kWh r); Some (mkRow (Timestamp r) (Building r) v (Hour r))) d.

(** [ingest_data(data_dir)] where the test of line 36 answers: the function
    from that answer on.  [pd.DataFrame()] is the frame without rows. *)
Definition ingest_data (data_dir : Path) : M ref :=
  match data_dir with
  | NoSuchPath => logger ERROR DataDirMissing;; new []
  | Directory entries =>
      let csv_files := sorted_csv_files entries in
      (if csv_files is [] then logger WARNING NoCsvFiles else mret tt) ;;
      all_rows ← ingest_loop [] csv_files;
      if all_rows is [] then
        logger WARNING NoValidData;; new []
      else
        let df_combined := concat all_rows in
        new (numeric_kWh df_combined)
  end.

(** A call [ingest_data(data_dir)] at any location.  Where the test of line 36
    raises, the error leaves the function at once: nothing is logged and no
    table is made. *)
Definition call_ingest_data (l : Location) : M (Call ref) :=
  match l with
  | Answers data_dir => df_combined ← ingest_data data_dir; mret (Returned df_combined)
  | StatFails => mret RaisedOSError
  end.
End Ingest.

(** ** Aggregation: the pandas operations the class uses *)

(** [Series.sum], [Series.mean], [Series.min], [Series.max]: the last three
    are [NaN] on a series without values. *)
Definition series_sum (vs : list Qc) : Qc := foldr Qcplus (Q2Qc 0) vs.

Definition series_mean (vs : list Qc) : option Qc :=
  match vs with
  | [] => None
  | _ => Some (series_sum vs / Q2Qc (inject_Z (Z.of_nat (length vs))))%Qc
  end.

Definition qmin (a b : Qc) : Qc := if bool_decide (b < a)%Qc then b else a.
Definition qmax (a b : Qc) : Qc := if bool_decide (a < b)%Qc then b else a.

Definition series_min (vs : list Qc) : option Qc :=
  match vs with
  | [] => None
  | v :: vs' => Some (foldl qmin v vs')
  end.

Definition series_max (vs : list Qc) : option Qc :=
  match vs with
  | [] => None
  | v :: vs' => Some (foldl qmax v vs')
  end.

(** [df.groupby('Building')]: one group per building identifier, in sorted
    order of the identifiers, each with its rows in table order.  Rows whose
    [Building] is missing belong to no group ([dropna=True] is the default). *)
Definition group_keys {V} (d : list (Row V)) : list string :=
  isort String.leb (remove_dups (omap Building d)).

Definition group_rows {V} (k : string) (d : list (Row V)) : list (Row V) :=
  filter (λ r, Building r = Some k) d.

Definition groupby_Building {V} (d : list (Row V)) : list (string * list (Row V)) :=
  (λ k, (k, group_rows k d)) <$> group_keys d.

(** One row of [summary_stats]: the four named aggregations of line 107-112. *)
Record Stats := mkStats {
  mean_kWh : option Qc;
  min_kWh : option Qc;
  max_kWh : option Qc;
  total_kWh : Qc
}.

Definition agg (vs : list Qc) : Stats :=
  mkStats (series_mean vs) (series_min vs) (series_max vs) (series_sum vs).

(** [sort_values('total_kWh', ascending=False)] *)
Definition total_geb (a b : string * Stats) : bool :=
  bool_decide (total_kWh b.2 ≤ total_kWh a.2)%Qc.

Definition ns_per_hour : Z := 3600000000000.
Definition ns_per_day : Z := 24 * ns_per_hour.

(** [DatetimeIndex.hour] *)
Definition hour (t : Z) : Z := (t `div` ns_per_hour) `mod` 24.

(** The calendar day of a timestamp, counted from 1970-01-01. *)
Definition day (t : Z) : Z := t `div` ns_per_day.

(** [.resample('D').sum()]: one bucket per calendar day from the first to the
    last day of the index, empty days included, labelled by its midnight. *)
Definition resample_D_sum (d : DataFrame) : list (Z * Qc) :=
  match Timestamp <$> d with
  | [] => []
  | t :: ts =>
      let lo := day (foldr Z.min t ts) in
      let hi := day (foldr Z.max t ts) in
      (λ dy, (dy * ns_per_day,
              series_sum (kWh <$> filter (λ r, day (Timestamp r) = dy) d)))
        <$> seqZ lo (hi - lo + 1)
  end.

(** The Sunday on or after day [dy] (1970-01-01 was a Thursday): the label of
    the weekly bucket, which pandas anchors on Sunday and closes on the right. *)
Definition week_end (dy : Z) : Z := dy + (- (dy + 4)) `mod` 7.

(** [.resample('W').mean()] on one group: one bucket per week from the first
    to the last week of the group, [NaN] for a week without rows. *)
Definition resample_W_mean (g : DataFrame) : list (Z * option Qc) :=
  match Timestamp <$> g with
  | [] => []
  | t :: ts =>
      let lo := week_end (day (foldr Z.min t ts)) in
      let hi := week_end (day (foldr Z.max t ts)) in
      (λ i, let w := lo + 7 * i in
            (w * ns_per_day,
             series_mean (kWh <$> filter (λ r, week_end (day (Timestamp r)) = w) g)))
        <$> seqZ 0 ((hi - lo) `div` 7 + 1)
  end.

Fixpoint assoc {B} (k : Z) (l : list (Z * option B)) : option B :=
  match l with
  | [] => None
  | (k', v) :: l' => if bool_decide (k = k') then v else assoc k l'
  end.

(** [weekly.unstack(level=0)]: one row per week label, one column per
    building, [NaN] where a building has no bucket for the week. *)
Definition unstack (weekly : list (string * list (Z * option Qc)))
  : list (Z * list (string * option Qc)) :=
  let labels := isort Z.leb (remove_dups (mjoin ((λ p, fst <$> p.2) <$> weekly))) in
  (λ w, (w, (λ p, (p.1, assoc w p.2)) <$> weekly)) <$> labels.

(** [g['kWh'].idxmax()]: the index label of the first row holding the
    greatest value. *)
Definition first_max (r : Row Qc) (g : list (Row Qc)) : Row Qc :=
  foldl (λ best x, if bool_decide (kWh best < kWh x)%Qc then x else best) r g.

Definition idxmax (g : list (Row Qc)) : option Z :=
  match g with
  | [] => None
  | r :: g' => Some (Timestamp (first_max r g'))
  end.

(** [g.loc[label]]: the rows of [g] that carry the index label. *)
Definition loc (g : list (Row Qc)) (label : Z) : list (Row Qc) :=
  filter (λ r, Timestamp r = label) g.

(** One row of [peak_hours_by_building], after the renaming of line 142. *)
Record Peak := mkPeak {
  PeakHour : option Z;
  Peak_kWh : Qc
}.

(** The function applied to every group on line 140:
    [lambda g: g.loc[g['kWh'].idxmax()][['Hour', 'kWh']]]. *)
Definition peak_of_group (g : list (Row Qc)) : list Peak :=
  match idxmax g with
  | None => []
  | Some label => (λ r, mkPeak (Hour r) (kWh r)) <$> loc g label
  end.

(** ** [BuildingManager] *)

Record BuildingManager := mkManager {
  df : ref;
  summary_stats : option (list (string * Stats));
  daily_totals : option (list (Z * Qc));
  weekly_avg_by_building : option (list (Z * list (string * option Qc)));
  peak_hours_by_building : option (list (string * list Peak))
}.

Definition set_summary_stats v (self : BuildingManager) :=
  mkManager (df self) v (daily_totals self) (weekly_avg_by_building self)
            (peak_hours_by_building self).
Definition set_daily_totals v (self : BuildingManager) :=
  mkManager (df self) (summary_stats self) v (weekly_avg_by_building self)
            (peak_hours_by_building self).
Definition set_weekly_avg_by_building v (self : BuildingManager) :=
  mkManager (df self) (summary_stats self) (daily_totals self) v
            (peak_hours_by_building self).
Definition set_peak_hours_by_building v (self : BuildingManager) :=
  mkManager (df self) (summary_stats self) (daily_totals self)
            (weekly_avg_by_building self) v.

(** [BuildingManager.__init__] *)
Definition init (df_combined : ref) : M BuildingManager :=
  l ← copy df_combined;
  mret (mkManager l None None None None).

(** [BuildingManager.calculate_summary_statistics]; it returns the value it
    stores in [self.summary_stats]. *)
Definition calculate_summary_statistics (self : BuildingManager)
  : M (list (string * Stats) * BuildingManager) :=
  d ← deref (df self);
  if d is [] then
    logger WARNING EmptySummary;;
    let self := set_summary_stats (Some []) self in
    mret ([], self)
  else
    let grouped := (λ p, (p.1, kWh <$> p.2)) <$> groupby_Building d in
    let stats := isort total_geb ((λ p, (p.1, agg p.2)) <$> grouped) in
    let self := set_summary_stats (Some stats) self in
    logger INFO (SummaryDone (length stats));;
    mret (stats, self).

(** [df_with_hour['Hour'] = df_with_hour.index.hour] *)
Definition set_Hour (d : DataFrame) : DataFrame :=
  (λ r, mkRow (Timestamp r) (Building r) (kWh r) (Some (hour (Timestamp r)))) <$> d.

(** [BuildingManager.calculate_time_trends]; it returns
    [(self.daily_totals, self.weekly_avg_by_building)]. *)
Definition calculate_time_trends (self : BuildingManager)
  : M ((list (Z * Qc) * list (Z * list (string * option Qc))) * BuildingManager) :=
  d ← deref (df self);
  if d is [] then
    logger WARNING EmptyTrends;;
    let self := set_daily_totals (Some []) self in
    let self := set_weekly_avg_by_building (Some []) self in
    mret (([], []), self)
  else
    let daily := resample_D_sum d in
    let self := set_daily_totals (Some daily) self in
    let weekly := (λ p, (p.1, resample_W_mean p.2)) <$> groupby_Building d in
    let wide := unstack weekly in
    let self := set_weekly_avg_by_building (Some wide) self in
    logger INFO (TrendsDone (length daily));;
    df_with_hour ← copy (df self);
    modify df_with_hour set_Hour;;
    dh ← deref df_with_hour;
    let peaks := (λ p, (p.1, peak_of_group p.2)) <$> groupby_Building dh in
    let self := set_peak_hours_by_building (Some peaks) self in
    mret ((daily, wide), self).

Section Pipeline.
Variable to_datetime : list cell → list (option Z).
Variable to_numeric : cell → option Qc.

(** Lines 302-307 of [main]: ingestion, then both aggregations. *)
Definition pipeline (data_dir : Path) : M BuildingManager :=
  df ← ingest_data to_datetime to_numeric data_dir;
  manager ← init df;
  r ← calculate_summary_statistics manager;
  r ← calculate_time_trends r.2;
  mret r.2.
End Pipeline.

End Energy.

(** * The calorie tracker, [tracker.py]

    The script is one top-to-bottom procedure over standard input.  Printed
    lines are kept as events that carry the numbers before formatting. *)
Module Tracker.

Inductive Exn := ValueError | ZeroDivisionError | EOFError.

Inductive Result (A : Type) :=
| Ok (a : A)
| Raise (e : Exn).
Arguments Ok {A} _.
Arguments Raise {A} _.

Inductive Out :=
| Banner                                   (* lines 4-12 *)
| Blank
| Prompt (text : string)                   (* a fixed prompt of [input] *)
| MealPrompt (n : nat)                     (* "Enter meal <n> (name, calories): " *)
| TableHeader
| Rule
| TableRow (sno : nat) (meal : string) (cal : Qc)
| Total (total_cal : Qc)                   (* "Total Calories Consumed : ..." *)
| Average (avg_cal : Qc)                   (* "Average Calories per Meal : ..." *)
| Exceeded
| Within
| ReportSaved
| ReportNotSaved.

(** What lines 55-66 write to [calorie_log.txt]. *)
Record Report := mkReport {
  report_rows : list (nat * string * Qc);
  report_total : Qc;
  report_avg : Qc;
  report_limit : Qc;
  report_exceeded : bool
}.

Record State := mkState {
  stdin : list string;
  stdout : list Out;
  calorie_log : option Report
}.

Definition IO (A : Type) : Type := State → Result A * State.

#[export] Instance IO_ret : MRet IO := λ A a s, (Ok a, s).
#[export] Instance IO_bind : MBind IO := λ A B k m s,
  match m s with
  | (Ok a, s') => k a s'
  | (Raise e, s') => (Raise e, s')
  end.

Definition raise {A} (e : Exn) : IO A := λ s, (Raise e, s).

Definition print (o : Out) : IO unit :=
  λ s, (Ok tt, mkState (stdin s) (stdout s ++ [o]) (calorie_log s)).

(** [input(prompt)]: the prompt is written, then one line is read. *)
Definition input (prompt : Out) : IO string :=
  λ s, let out := stdout s ++ [prompt] in
       match stdin s with
       | [] => (Raise EOFError, mkState [] out (calorie_log s))
       | line :: rest => (Ok line, mkState rest out (calorie_log s))
       end.

Definition write_report (r : Report) : IO unit :=
  λ s, (Ok tt, mkState (stdin s) (stdout s) (Some r)).

(** [s.split(',')] *)
Fixpoint split_comma (s : string) : list string :=
  match s with
  | EmptyString => [EmptyString]
  | String c s' =>
      if Ascii.eqb c ","%char then EmptyString :: split_comma s'
      else match split_comma s' with
           | [] => [String c EmptyString]
           | w :: ws => String c w :: ws
           end
  end.

(** [sum(meal_calories)]: from [0], left to right. *)
Definition py_sum (l : list Qc) : Qc := foldl Qcplus (Q2Qc 0) l.

(** [a / b] on numbers. *)
Definition truediv (a b : Qc) : IO Qc :=
  if bool_decide (b = Q2Qc 0) then raise ZeroDivisionError else mret (a / b)%Qc.

(** [len(l)] as a number. *)
Definition len {A} (l : list A) : Qc := Q2Qc (inject_Z (Z.of_nat (length l))).

Section Script.
(** The built-ins [int] and [float] on a string ([None]: [ValueError]), and
    the string methods [strip], [upper], [lower]. *)
Variable int : string → option Z.
Variable float : string → option Qc.
Variables strip upper lower : string → string.

Definition convert {A} (o : option A) : IO A :=
  match o with
  | Some a => mret a
  | None => raise ValueError
  end.

(** The loop of lines 25-29 over [range(total_meals)]. *)
Fixpoint meal_loop (range : list nat) (meal_names : list string) (meal_calories : list Qc)
  : IO (list string * list Qc) :=
  match range with
  | [] => mret (meal_names, meal_calories)
  | i :: range' =>
      entry ← input (MealPrompt (i + 1));
      match split_comma (strip entry) with
      | [meal; cal] =>
          c ← convert (float (strip cal));
          meal_loop range' (meal_names ++ [upper (strip meal)]) (meal_calories ++ [c])
      | _ => raise ValueError
      end
  end.

(** Lines 4-29: the banner and the input phase. *)
Definition read_meals : IO (list string * list Qc * Qc) :=
  print Banner;;
  s ← input (Prompt "ENTER HOW MANY MEALS YOU WANT TO ADD: ");
  total_meals ← convert (int s);
  print Blank;;
  s ← input (Prompt "ENTER YOUR DAILY CALORIE LIMIT: ");
  limit ← convert (float s);
  print Blank;;
  r ← meal_loop (seq 0 (Z.to_nat total_meals)) [] [];
  mret (r.1, r.2, limit).

Definition table (meal_names : list string) (meal_calories : list Qc)
  : list (nat * string * Qc) :=
  imap (λ i p, (S i, p.1, p.2)) (zip meal_names meal_calories).

Fixpoint print_rows (t : list (nat * string * Qc)) : IO unit :=
  match t with
  | [] => mret tt
  | (i, m, c) :: t' => print (TableRow i m c);; print_rows t'
  end.

(** Lines 31-69: the table, the totals, the status and the report. *)
Definition report (meal_names : list string) (meal_calories : list Qc) (limit : Qc)
  : IO unit :=
  print TableHeader;; print Rule;;
  print_rows (table meal_names meal_calories);;
  print Rule;;
  let total_cal := py_sum meal_calories in
  avg_cal ← truediv total_cal (len meal_calories);
  print (Total total_cal);;
  print (Average avg_cal);;
  (if bool_decide (limit < total_cal)%Qc then print Exceeded else print Within);;
  save ← input (Prompt "Do you want to save your report (yes/no)? ");
  if bool_decide (lower (strip save) = "yes"%string) then
    write_report (mkReport (table meal_names meal_calories) total_cal avg_cal limit
                           (bool_decide (limit < total_cal)%Qc));;
    print ReportSaved
  else
    print ReportNotSaved.

Definition script : IO unit :=
  r ← read_meals;
  report r.1.1 r.1.2 r.2.
End Script.

End Tracker.

(** * The gradebook, [gradebook.py]

    The module body is executed top to bottom: the imports, the assignment of
    [PASS_MARK] and the [def] statements bind names in the module's
    namespace, and the last statement (lines 246-247) is the guard that calls
    [main].  The functions [main] calls are parameters. *)
Module Gradebook.

Inductive Exn :=
| NameError (name : string)
| EOFError.

Inductive Result (A : Type) :=
| Ok (a : A)
| Raise (e : Exn).
Arguments Ok {A} _.
Arguments Raise {A} _.

(** The values names are bound to, as far as the guard can tell them apart. *)
Inductive Value :=
| Str (s : string)
| NoneValue
| Number (q : Qc)
| Object.                       (* a module, a function, a dict, ... *)

#[export] Instance Value_eq_dec : EqDecision Value.
Proof. solve_decision. Defined.

(** The namespace of a module run as a script, before its first statement. *)
Definition initial_globals : list (string * Value) :=
  [("__name__", Str "__main__"); ("__doc__", NoneValue); ("__package__", NoneValue);
   ("__loader__", Object); ("__spec__", NoneValue); ("__annotations__", Object);
   ("__builtins__", Object); ("__file__", Str "gradebook.py");
   ("__cached__", NoneValue)]%string.

(** The names lines 6-245 bind, in order. *)
Definition module_bindings : list (string * Value) :=
  [("csv", Object); ("os", Object); ("PASS_MARK", Number (Q2Qc 40));
   ("get_manual_input", Object); ("load_csv_data", Object);
   ("append_student_record", Object); ("calculate_average", Object);
   ("find_max_score", Object); ("find_min_score", Object);
   ("assign_grades", Object); ("print_summary", Object); ("main", Object)]%string.

(** The names of the [builtins] module. *)
Definition builtins : list string :=
  ["abs"; "aiter"; "all"; "anext"; "any"; "ascii"; "bin"; "bool"; "breakpoint";
   "bytearray"; "bytes"; "callable"; "chr"; "classmethod"; "compile"; "complex";
   "copyright"; "credits"; "delattr"; "dict"; "dir"; "divmod"; "enumerate";
   "eval"; "exec"; "exit"; "filter"; "float"; "format"; "frozenset"; "getattr";
   "globals"; "hasattr"; "hash"; "help"; "hex"; "id"; "input"; "int";
   "isinstance"; "issubclass"; "iter"; "len"; "license"; "list"; "locals";
   "map"; "max"; "memoryview"; "min"; "next"; "object"; "oct"; "open"; "ord";
   "pow"; "print"; "property"; "quit"; "range"; "repr"; "reversed"; "round";
   "set"; "setattr"; "slice"; "sorted"; "staticmethod"; "str"; "sum"; "super";
   "tuple"; "type"; "vars"; "zip"; "__import__"; "__build_class__"; "__debug__";
   "__doc__"; "__loader__"; "__name__"; "__package__"; "__spec__";
   "Ellipsis"; "NotImplemented"; "False"; "None"; "True";
   "ArithmeticError"; "AssertionError"; "AttributeError"; "BaseException";
   "BaseExceptionGroup"; "BlockingIOError"; "BrokenPipeError"; "BufferError";
   "BytesWarning"; "ChildProcessError"; "ConnectionAbortedError";
   "ConnectionError"; "ConnectionRefusedError"; "ConnectionResetError";
   "DeprecationWarning"; "EOFError"; "EncodingWarning"; "EnvironmentError";
   "Exception"; "ExceptionGroup"; "FileExistsError"; "FileNotFoundError";
   "FloatingPointError"; "FutureWarning"; "GeneratorExit"; "IOError";
   "ImportError"; "ImportWarning"; "IndentationError"; "IndexError";
   "InterruptedError"; "IsADirectoryError"; "KeyError"; "KeyboardInterrupt";
   "LookupError"; "MemoryError"; "ModuleNotFoundError"; "NameError";
   "NotADirectoryError"; "NotImplementedError"; "OSError"; "OverflowError";
   "PendingDeprecationWarning"; "PermissionError"; "ProcessLookupError";
   "RecursionError"; "ReferenceError"; "ResourceWarning"; "RuntimeError";
   "RuntimeWarning"; "StopAsyncIteration"; "StopIteration"; "SyntaxError";
   "SyntaxWarning"; "SystemError"; "SystemExit"; "TabError"; "TimeoutError";
   "TypeError"; "UnboundLocalError"; "UnicodeDecodeError"; "UnicodeEncodeError";
   "UnicodeError"; "UnicodeTranslateError"; "UnicodeWarning"; "UserWarning";
   "ValueError"; "Warning"; "ZeroDivisionError"]%string.

Fixpoint lookup_binding (name : string) (ns : list (string * Value)) : option Value :=
  match ns with
  | [] => None
  | (n, v) :: ns' => if String.eqb name n then Some v else lookup_binding name ns'
  end.

(** Evaluation of a global name: the module's namespace (the latest binding
    first), then the built-ins, else [NameError]. *)
Definition load_name (globals : list (string * Value)) (name : string) : Result Value :=
  match lookup_binding name (rev globals) with
  | Some v => Ok v
  | None =>
      if bool_decide (name ∈ builtins) then Ok Object else Raise (NameError name)
  end.

(** A dict of marks, in insertion order. *)
Definition Marks := list (string * Qc).

Section Script.
(** The state of the files the helper functions read and write. *)
Variable Files : Type.

Record State := mkState {
  stdin : list string;
  stdout : list string;
  files : Files
}.

Definition IO (A : Type) : Type := State → Result A * State.

#[export] Instance IO_ret : MRet IO := λ A a s, (Ok a, s).
#[export] Instance IO_bind : MBind IO := λ A B k m s,
  match m s with
  | (Ok a, s') => k a s'
  | (Raise e, s') => (Raise e, s')
  end.

Definition print (line : string) : IO unit :=
  λ s, (Ok tt, mkState (stdin s) (stdout s ++ [line]) (files s)).

Definition input (prompt : string) : IO string :=
  λ s, let out := stdout s ++ [prompt] in
       match stdin s with
       | [] => (Raise EOFError, mkState [] out (files s))
       | line :: rest => (Ok line, mkState rest out (files s))
       end.

Variable strip : string → string.
(** The functions of lines 11-199 that [main] calls. *)
Variable Grades : Type.
Variable get_manual_input : IO Marks.
Variable load_csv_data : string → IO Marks.
Variable append_student_record : string → IO unit.
Variable assign_grades : Marks → Grades.
Variable print_summary : Marks → Grades → IO unit.

(** Lines 239-244, the end of one round of the menu. *)
Definition show (choice : string) (student_scores : Marks) : IO unit :=
  if student_scores is [] then
    if bool_decide (choice ∈ ["1"; "2"; "3"]%string) then print "No data loaded."
    else mret tt
  else
    print_summary student_scores (assign_grades student_scores).

(** One round of [while True] (lines 204-244); [true] when the loop goes on.
    A [continue] is a round that ends early with [true]. *)
Definition round : IO bool :=
  print (String "010" "1. Manual Entry");;
  print "2. Load from CSV";;
  print "3. Add Student to CSV";;
  print "4. Exit";;
  line ← input "Select an option (1-4): ";
  let choice := strip line in
  if bool_decide (choice = "1"%string) then
    student_scores ← get_manual_input;
    show choice student_scores;; mret true
  else if bool_decide (choice = "2"%string) then
    line ← input "Enter CSV filename: ";
    let filename := strip line in
    if bool_decide (filename = ""%string) then
      print "Filename cannot be empty.";; mret true
    else
      student_scores ← load_csv_data filename;
      show choice student_scores;; mret true
  else if bool_decide (choice = "3"%string) then
    line ← input "Enter CSV filename: ";
    let filename := strip line in
    if bool_decide (filename = ""%string) then
      print "Filename cannot be empty.";; mret true
    else
      append_student_record filename;;
      student_scores ← load_csv_data filename;
      show choice student_scores;; mret true
  else if bool_decide (choice = "4"%string) then
    print "Goodbye!";; mret false
  else
    print "Invalid choice. Try again.";; mret true.

(** A run either ends or is still in the menu when the observation stops. *)
Inductive Run :=
| Ended (r : Result unit)
| Running.

(** [while True]: the rounds of the menu, observed for [n] rounds. *)
Fixpoint menu (n : nat) (s : State) : Run * State :=
  match n with
  | O => (Running, s)
  | S n' =>
      match round s with
      | (Ok true, s') => menu n' s'
      | (Ok false, s') => (Ended (Ok tt), s')
      | (Raise e, s') => (Ended (Raise e), s')
      end
  end.

(** [main()] *)
Definition main (n : nat) (s : State) : Run * State :=
  match print (String "010" "=== GRADEBOOK ANALYZER ===") s with
  | (Ok _, s') => menu n s'
  | (Raise e, s') => (Ended (Raise e), s')
  end.

(** Lines 246-247: [if _name_ == "_main_": main()], in the namespace the
    statements before it have built. *)
Definition guard (n : nat) (s : State) : Run * State :=
  match load_name (initial_globals ++ module_bindings) "_name_" with
  | Raise e => (Ended (Raise e), s)
  | Ok v => if bool_decide (v = Str "_main_") then main n s else (Ended (Ok tt), s)
  end.

(** The script: nothing before the guard reads input or prints. *)
Definition script (n : nat) (s : State) : Run * State := guard n s.
End Script.

End Gradebook.

(** * Sample parsers and inputs

    Stand-ins for the parsers of the libraries on a small format, used where
    the development is run on concrete inputs: a number is a non-empty string
    of decimal digits, and a timestamp is a number of hours since the epoch. *)
Module Sample.

Definition digit (c : ascii) : option Z :=
  let n := Z.of_N (N_of_ascii c) - 48 in
  if bool_decide (0 ≤ n ≤ 9) then Some n else None.

Fixpoint digits (acc : Z) (s : string) : option Z :=
  match s with
  | EmptyString => Some acc
  | String c s' => d ← digit c; digits (10 * acc + d) s'
  end.

Definition number (s : string) : option Z :=
  if s is EmptyString then None else digits 0 s.

Definition to_numeric (c : cell) : option Qc :=
  s ← c; n ← number s; Some (Q2Qc (inject_Z n)).

Definition to_datetime (column : list cell) : list (option Z) :=
  (λ c : cell, s ← c; h ← number s; Some (h * Energy.ns_per_hour)) <$> column.

Definition float (s : string) : option Qc := to_numeric (Some s).

(** A file with one clean row, one row with a bad timestamp and one row with
    a value that is not a number. *)
Definition library_csv : Energy.CsvTable :=
  Energy.mkCsv ["Timestamp"; "Building"; "kWh"]%string
    [Energy.mkRaw (Some "1") (Some "A") (Some "10");
     Energy.mkRaw (Some "yesterday") (Some "A") (Some "20");
     Energy.mkRaw (Some "2") (Some "A") (Some "n/a")]%string.

(** A file without the [Building] column. *)
Definition hostel_csv : Energy.CsvTable :=
  Energy.mkCsv ["Timestamp"; "kWh"]%string
    [Energy.mkRaw (Some "3") None (Some "7")]%string.

Definition data_dir : Energy.Path :=
  Energy.Directory [("hostel.csv", Energy.Returns hostel_csv);
                    ("library.csv", Energy.Returns library_csv);
                    ("engineering.csv", Energy.Raises Energy.OtherError)]%string.

(** A file in which building A has two readings with the same timestamp. *)
Definition repeated_csv : Energy.CsvTable :=
  Energy.mkCsv ["Timestamp"; "Building"; "kWh"]%string
    [Energy.mkRaw (Some "5") (Some "A") (Some "10");
     Energy.mkRaw (Some "5") (Some "A") (Some "5")]%string.

Definition empty_world : Energy.World := Energy.mkWorld ∅ [].

(** A table with building A (values 10, 20) and building B (value 5). *)
Definition two_buildings : Energy.DataFrame :=
  [Energy.mkRow 0 (Some "A"%string) (Q2Qc 10) None;
   Energy.mkRow Energy.ns_per_hour (Some "A"%string) (Q2Qc 20) None;
   Energy.mkRow 0 (Some "B"%string) (Q2Qc 5) None].

End Sample.

(** * Vocabulary of the statements *)

Module Observe.
Import Energy.

(** The frame [ingest_data] returns when it runs in the world [w]. *)
Definition ingested (to_datetime : list cell → list (option Z)) (to_numeric : cell → option Qc)
    (data_dir : Path) (w : World) : DataFrame :=
  let r := ingest_data to_datetime to_numeric data_dir w in heap r.2 !!! r.1.

(** What [ingest_data] appends to the log when it runs in the world [w]. *)
Definition ingest_log (to_datetime : list cell → list (option Z)) (to_numeric : cell → option Qc)
    (data_dir : Path) (w : World) : list (Level * Message) :=
  drop (length (log w)) (log (ingest_data to_datetime to_numeric data_dir w).2).

(** The columns lines 48-56 ask for, in the order they are checked. *)
Definition required_columns : list string := ["Timestamp"; "Building"; "kWh"]%string.

(** The header has the three columns lines 48-56 ask for. *)
Definition has_required_columns (t : CsvTable) : Prop :=
  "Timestamp"%string ∈ columns t ∧ "Building"%string ∈ columns t ∧ "kWh"%string ∈ columns t.

#[export] Instance has_required_columns_dec t : Decision (has_required_columns t).
Proof. unfold has_required_columns. apply _. Defined.

(** The frame a file adds to [all_rows], if it adds one. *)
Definition file_frame (to_datetime : list cell → list (option Z)) (f : string * ReadResult)
  : option (list (Row cell)) :=
  match f.2 with
  | Returns t =>
      if decide (has_required_columns t)
      then Some (sort_values_Timestamp (parse_timestamps to_datetime t))
      else None
  | Raises _ => None
  end.

(** The record the loop of [ingest_data] logs for a file. *)
Inductive logs_for (to_datetime : list cell → list (option Z))
  : string * ReadResult → Level * Message → Prop :=
| logs_not_found name :
    logs_for to_datetime (name, Raises FileNotFoundError) (ERROR, FileNotFound name)
| logs_error name :
    logs_for to_datetime (name, Raises OtherError) (ERROR, ErrorReading name)
| logs_missing name t c :
    c ∈ required_columns → c ∉ columns t →
    logs_for to_datetime (name, Returns t) (WARNING, MissingColumn c name)
| logs_ingested name t :
    has_required_columns t →
    logs_for to_datetime (name, Returns t)
      (INFO, Ingested name (length (parse_timestamps to_datetime t))).

(** The values of the [kWh] column for one building, in table order. *)
Definition values_of (k : string) (d : DataFrame) : list Qc :=
  kWh <$> filter (λ r, Building r = Some k) d.

(** The table [calculate_summary_statistics] builds from the frame [d]. *)
Definition summary_of (d : DataFrame) : list (string * Stats) :=
  isort total_geb
    ((λ p, (p.1, agg p.2)) <$> ((λ p, (p.1, kWh <$> p.2)) <$> groupby_Building d)).

(** The wide weekly table [calculate_time_trends] builds from the frame [d]. *)
Definition weekly_of (d : DataFrame) : list (Z * list (string * option Qc)) :=
  unstack ((λ p, (p.1, resample_W_mean p.2)) <$> groupby_Building d).

(** The peak table [calculate_time_trends] builds from the frame [d]. *)
Definition peaks_of (d : DataFrame) : list (string * list Peak) :=
  (λ p, (p.1, peak_of_group p.2)) <$> groupby_Building (set_Hour d).

(** [m] is the first row of [g] that holds the greatest value of [g]. *)
Definition first_greatest (g : DataFrame) (m : Row Qc) : Prop :=
  ∃ i, g !! i = Some m
       ∧ (∀ x, x ∈ g → (kWh x ≤ kWh m)%Qc)
       ∧ (∀ j x, (j < i)%nat → g !! j = Some x → (kWh x < kWh m)%Qc).

(** The number of values of a series, as a number. *)
Definition count (vs : list Qc) : Qc := Q2Qc (inject_Z (Z.of_nat (length vs))).

(** The four results of the aggregation stage held by a manager. *)
Definition results (m : BuildingManager) :=
  (summary_stats m, daily_totals m, weekly_avg_by_building m, peak_hours_by_building m).

End Observe.

(** * The reporting stage of the energy dashboard

    [BuildingManager.generate_dashboard_plots] and
    [BuildingManager.export_results].  What they draw, write and print is
    kept as data: a figure is the content of its four panels, the summary file
    is the table written to it, and a printed line carries its numbers before
    formatting.  Writing under [output_path] can fail; the code does not catch
    that. *)
Module Reporting.
Import Energy.

Inductive Exn := OSError.

Inductive Result (A : Type) :=
| Ok (a : A)
| Raise (e : Exn).
Arguments Ok {A} _.
Arguments Raise {A} _.

(** The lines of the executive summary, on the console (lines 244-254, where
    each line under the title starts with a dash) and in the fourth panel
    (lines 206-214).  The two places word the last two lines differently. *)
Inductive Line :=
| ExecutiveSummary                          (* "Executive Summary" *)
| TotalConsumption (total : Qc)             (* "Total campus consumption: ... kWh" *)
| HighestBuilding (b : string) (value : option Qc)
                                            (* "Highest-consuming building: b (... kWh)" *)
| PeakLoadTime (description : string)       (* "Peak load time: ..." *)
| MainTrend (description : string)          (* "Main trend: ..." *)
| NoDataAvailable                           (* "- No data available for summary." *)
| EnsureColumns                             (* "- Ensure CSVs contain Timestamp, Building, kWh." *)
| ReRun                                     (* "- Re-run after adding valid data." *)
| PlaceholdersNote.                         (* "- Dashboard will show placeholders if data is missing." *)

(** One panel of the figure: a plot of data, or a text put in its place. *)
Inductive Panel (A : Type) :=
| Plotted (data : A)
| Text (message : string).
Arguments Plotted {A} _.
Arguments Text {A} _.

Record Dashboard := mkDashboard {
  daily_trend : Panel (list (Z * Qc));                 (* ax1, line *)
  weekly_bars : Panel (list (string * option Qc));     (* ax2, bars *)
  peak_scatter : Panel (list (string * list Peak));    (* ax3, scatter *)
  executive : Panel (list Line)                        (* ax4, text *)
}.

Inductive ReportMessage :=
| SavedDashboard                   (* "Saved dashboard plot to %s" *)
| ExportedSummary.                 (* "Exported building summary to %s" *)

(** The world of the reporting stage: the store and the log of the earlier
    stages, the two output files under [output_path], the console, the
    records this stage logs, and whether files can be written there. *)
Record Env := mkEnv {
  world : World;
  writable : bool;
  dashboard_png : option Dashboard;
  building_summary_csv : option (list (string * Stats));
  console : list Line;
  report_log : list ReportMessage
}.

Definition R (A : Type) : Type := Env → Result A * Env.

#[export] Instance R_ret : MRet R := λ A a e, (Ok a, e).
#[export] Instance R_bind : MBind R := λ A B k m e,
  match m e with
  | (Ok a, e') => k a e'
  | (Raise x, e') => (Raise x, e')
  end.

(** A computation of the earlier stages, run on the store and the log. *)
Definition lift {A} (m : M A) : R A :=
  λ e, let '(a, w) := m (world e) in
       (Ok a, mkEnv w (writable e) (dashboard_png e) (building_summary_csv e)
                    (console e) (report_log e)).

(** [print], once per line of [ls]. *)
Definition print (ls : list Line) : R unit :=
  λ e, (Ok tt, mkEnv (world e) (writable e) (dashboard_png e) (building_summary_csv e)
                     (console e ++ ls) (report_log e)).

Definition info (m : ReportMessage) : R unit :=
  λ e, (Ok tt, mkEnv (world e) (writable e) (dashboard_png e) (building_summary_csv e)
                     (console e) (report_log e ++ [m])).

(** [fig.savefig(output_file, dpi=150)] *)
Definition savefig (fig : Dashboard) : R unit :=
  λ e, if writable e then
         (Ok tt, mkEnv (world e) (writable e) (Some fig) (building_summary_csv e)
                       (console e) (report_log e))
       else (Raise OSError, e).

(** [self.summary_stats.to_csv(output_csv)] *)
Definition to_csv (stats : list (string * Stats)) : R unit :=
  λ e, if writable e then
         (Ok tt, mkEnv (world e) (writable e) (dashboard_png e) (Some stats)
                       (console e) (report_log e))
       else (Raise OSError, e).

(** [self.summary_stats['total_kWh'].sum()] *)
Definition total_consumption (stats : list (string * Stats)) : Qc :=
  series_sum ((λ p, total_kWh p.2) <$> stats).

(** [self.summary_stats['total_kWh'].idxmax()] on a table with rows
    [p :: rest]: the label of the first row with the greatest total. *)
Definition idxmax_total (p : string * Stats) (rest : list (string * Stats)) : string :=
  (foldl (λ best x, if bool_decide (total_kWh best.2 < total_kWh x.2)%Qc then x else best)
         p rest).1.

(** [self.summary_stats.loc[label, 'total_kWh']]: the total of the row that
    carries [label]. *)
Fixpoint loc_total (label : string) (stats : list (string * Stats)) : option Qc :=
  match stats with
  | [] => None
  | (b, s) :: rest => if String.eqb label b then Some (total_kWh s) else loc_total label rest
  end.

(** The first two lines of a summary over a table with rows [p :: rest]. *)
Definition headline (p : string * Stats) (rest : list (string * Stats)) : list Line :=
  let b := idxmax_total p rest in
  [TotalConsumption (total_consumption (p :: rest));
   HighestBuilding b (loc_total b (p :: rest))].

(** The value of column [b] in one row of the wide weekly table. *)
Fixpoint weekly_value (b : string) (row : list (string * option Qc)) : option Qc :=
  match row with
  | [] => None
  | (b', v) :: row' => if String.eqb b b' then v else weekly_value b row'
  end.

(** [DataFrame.mean(axis=0)] on the wide weekly table: per building, the mean
    of the weeks that have a value ([NaN] if none has). *)
Definition column_means (wide : list (Z * list (string * option Qc)))
  : list (string * option Qc) :=
  match wide with
  | [] => []
  | (_, row) :: _ =>
      (λ b : string,
         (b, series_mean (omap (λ r : Z * list (string * option Qc), weekly_value b r.2) wide)))
        <$> row.*1
  end.

(** [sort_values(ascending=False)] on a series that can hold [NaN]: greatest
    first, [NaN] last. *)
Definition mean_geb (a b : string * option Qc) : bool :=
  match a.2, b.2 with
  | Some x, Some y => bool_decide (y ≤ x)%Qc
  | Some _, None => true
  | None, Some _ => false
  | None, None => true
  end.

(** [DataFrame.empty] of the wide weekly table: no week or no building. *)
Definition wide_empty (wide : list (Z * list (string * option Qc))) : bool :=
  match wide with
  | [] => true
  | (_, []) :: _ => true
  | _ => false
  end.

(** [BuildingManager.generate_dashboard_plots] *)
Definition generate_dashboard_plots (self : BuildingManager) : R BuildingManager :=
  self ← (if bool_decide (daily_totals self = None ∨ weekly_avg_by_building self = None)
          then r ← lift (calculate_time_trends self); mret r.2
          else mret self);
  let ax1 := match daily_totals self with
             | Some (p :: ps) => Plotted (p :: ps)
             | _ => Text "No Daily Data"
             end in
  let ax2 := match weekly_avg_by_building self with
             | Some wide =>
                 if wide_empty wide then Text "No Weekly Data"
                 else Plotted (isort mean_geb (column_means wide))
             | None => Text "No Weekly Data"
             end in
  let ax3 := match peak_hours_by_building self with
             | Some (p :: ps) => Plotted (p :: ps)
             | _ => Text "No Peak Data"
             end in
  let ax4 := match summary_stats self with
             | Some (p :: ps) =>
                 Plotted (headline p ps
                            ++ [PeakLoadTime "Varies by building (see scatter)";
                                MainTrend "Campus shows daily variability with weekly patterns."])
             | _ => Text "No summary available."
             end in
  savefig (mkDashboard ax1 ax2 ax3 ax4);;
  info SavedDashboard;;
  mret self.

(** [BuildingManager.export_results] *)
Definition export_results (self : BuildingManager) : R BuildingManager :=
  self ← (if summary_stats self is None
          then r ← lift (calculate_summary_statistics self); mret r.2
          else mret self);
  (match summary_stats self with
   | Some stats => to_csv stats;; info ExportedSummary
   | None => mret tt
   end);;
  (match summary_stats self with
   | Some (p :: ps) =>
       print ([ExecutiveSummary] ++ headline p ps
                ++ [PeakLoadTime "Peak hour varies by building; see dashboard scatter.";
                    MainTrend "Daily totals fluctuate; weekly averages highlight building usage."])
   | _ =>
       print [ExecutiveSummary; NoDataAvailable; EnsureColumns; ReRun; PlaceholdersNote]
   end);;
  mret self.

(** Lines 302-313 of [main], from the data directory on. *)
Definition run (to_datetime : list cell → list (option Z)) (to_numeric : cell → option Qc)
    (data_dir : Path) : R BuildingManager :=
  manager ← lift (pipeline to_datetime to_numeric data_dir);
  manager ← generate_dashboard_plots manager;
  export_results manager.

End Reporting.

(** * The functions of the gradebook, [gradebook.py] lines 11-199

    A mark is a Python float.  Rounding is left out, but the values on which
    comparisons behave specially are kept: [float] accepts the texts of the
    infinities and of [nan], and every comparison with [nan] is false. *)
Module Marksheet.
Import Gradebook.

Inductive pyfloat :=
| Finite (q : Qc)
| PosInf
| NegInf
| NaN.

#[export] Instance pyfloat_eq_dec : EqDecision pyfloat.
Proof. solve_decision. Defined.

(** [a < b] *)
Definition flt (a b : pyfloat) : bool :=
  match a, b with
  | NaN, _ | _, NaN => false
  | Finite x, Finite y => bool_decide (x < y)%Qc
  | NegInf, NegInf => false
  | NegInf, _ => true
  | Finite _, PosInf => true
  | _, _ => false
  end.

(** [a <= b] *)
Definition fle (a b : pyfloat) : bool :=
  match a, b with
  | NaN, _ | _, NaN => false
  | Finite x, Finite y => bool_decide (x ≤ y)%Qc
  | NegInf, _ => true
  | _, PosInf => true
  | _, _ => false
  end.

(** [a > b], [a >= b], [a == b] *)
Definition fgt (a b : pyfloat) : bool := flt b a.
Definition fge (a b : pyfloat) : bool := fle b a.
Definition feq (a b : pyfloat) : bool :=
  match a, b with
  | NaN, _ | _, NaN => false
  | _, _ => bool_decide (a = b)
  end.

(** [a + b] *)
Definition fadd (a b : pyfloat) : pyfloat :=
  match a, b with
  | NaN, _ | _, NaN => NaN
  | Finite x, Finite y => Finite (x + y)
  | PosInf, NegInf | NegInf, PosInf => NaN
  | PosInf, _ | _, PosInf => PosInf
  | NegInf, _ | _, NegInf => NegInf
  end.

(** [a / n] for a count [n] that is not zero *)
Definition fdiv_count (a : pyfloat) (n : nat) : pyfloat :=
  match a with
  | Finite x => Finite (x / Q2Qc (inject_Z (Z.of_nat n)))
  | _ => a
  end.

(** An integer constant of the source as a float. *)
Definition of_int (n : Z) : pyfloat := Finite (Q2Qc (inject_Z n)).

Definition PASS_MARK : pyfloat := of_int 40.

(** A dict in insertion order.  [d[k] = v] replaces the value of a key that
    is present, in place, and appends a key that is not. *)
Fixpoint dict_set {V} (k : string) (v : V) (d : list (string * V)) : list (string * V) :=
  match d with
  | [] => [(k, v)]
  | (k', v') :: d' =>
      if String.eqb k k' then (k', v) :: d' else (k', v') :: dict_set k v d'
  end.

(** [d.get(k)] *)
Fixpoint dict_get {V} (k : string) (d : list (string * V)) : option V :=
  match d with
  | [] => None
  | (k', v) :: d' => if String.eqb k k' then Some v else dict_get k d'
  end.

Abbreviation Marks := (list (string * pyfloat)).

(** A file as [csv.reader] sees it: its rows, each a list of fields; or a file
    that is there but cannot be read (opening or decoding raises, with the
    text of the error).  A file holds whole rows: it ends with a line end. *)
Inductive File :=
| Rows (rows : list (list string))
| Unreadable (error : string).

(** The files, and the paths that cannot be opened for appending, each with
    the text of the error it raises. *)
Record Files := mkFiles {
  disk : gmap string File;
  denied : gmap string string
}.

Section Functions.
(** The built-in [float] on a string ([None]: [ValueError]), the string
    methods [strip] and [lower], and the texts of a float: [str], and the
    formats [:.2f] and [:6.1f]. *)
Variable float : string → option pyfloat.
Variables strip lower : string → string.
Variables str format_2f format_6_1f : pyfloat → string.
(** The text of the dict of grade counts. *)
Variable str_dict : list (string * nat) → string.

Abbreviation IO := (Gradebook.IO Files).
Abbreviation print := (Gradebook.print Files).
Abbreviation input := (Gradebook.input Files).

(** [score < 0 or score > 100] *)
Definition out_of_range (score : pyfloat) : bool :=
  flt score (of_int 0) || fgt score (of_int 100).

(** The loop of [get_manual_input] (lines 16-31) over the lines of standard
    input; it returns the marks or [EOFError], the lines left and the
    output. *)
Fixpoint manual_loop (lines : list string) (marks : Marks) (out : list string)
  : Result Marks * list string * list string :=
  match lines with
  | [] => (Raise EOFError, [], out ++ ["Enter Student Name: "])
  | line :: rest =>
      let out := out ++ ["Enter Student Name: "] in
      let name := strip line in
      if bool_decide (lower name = "done") then (Ok marks, rest, out)
      else if bool_decide (name = "") then
        manual_loop rest marks (out ++ ["Name cannot be empty."])
      else
        let out := out ++ ["Enter marks for " +:+ name +:+ ": "] in
        match rest with
        | [] => (Raise EOFError, [], out)
        | line' :: rest' =>
            match float (strip line') with
            | Some score =>
                if out_of_range score then
                  manual_loop rest' marks (out ++ ["Marks must be between 0 and 100."])
                else manual_loop rest' (dict_set name score marks) out
            | None =>
                manual_loop rest' marks (out ++ ["Invalid input. Please enter a number."])
            end
        end
  end.

(** [get_manual_input()] *)
Definition get_manual_input : IO Marks :=
  λ s, let '(r, lines, out) :=
         manual_loop (stdin Files s) []
           (stdout Files s ++ [String "010" "--- Manual Data Entry ---";
                               "Type 'done' as name to finish."]) in
       (r, mkState Files lines out (files Files s)).

(** Lines 49-57: the first row is a header when it has two fields and the
    second is not a number. *)
Definition start_index (rows : list (list string)) : nat :=
  match rows with
  | first :: _ =>
      match first with
      | _ :: second :: _ => if float second is Some _ then 0 else 1
      | _ => 0
      end
  | [] => 0
  end.

(** The body of the loop of lines 59-70. *)
Definition load_row (marks : Marks) (row : list string) : Marks :=
  match row with
  | name :: score :: _ =>
      let name := strip name in
      if bool_decide (name = "") then marks
      else match float (strip score) with
           | Some score => dict_set name score marks
           | None => marks
           end
  | _ => marks
  end.

Definition load_rows (rows : list (list string)) : Marks :=
  foldl load_row [] (drop (start_index rows) rows).

(** [load_csv_data(filename)] *)
Definition load_csv_data (filename : string) : IO Marks :=
  λ s, match disk (files Files s) !! filename with
       | None =>
           (print ("Error: File '" +:+ filename +:+ "' not found.");; mret []) s
       | Some (Unreadable error) =>
           (print ("An error occurred while reading '" +:+ filename +:+ "': " +:+ error);;
            mret []) s
       | Some (Rows []) => (Ok [], s)
       | Some (Rows rows) =>
           let marks := load_rows rows in
           (print ("Loaded " +:+ pretty (length marks) +:+ " students from "
                     +:+ filename +:+ ".");;
            mret marks) s
       end.

(** Lines 94-103: the rows are appended, after a header when the file was
    not there. *)
Definition append_row (filename name : string) (score : pyfloat) : IO unit :=
  λ s, let fs := files Files s in
       match denied fs !! filename with
       | Some error =>
           print ("Could not write to '" +:+ filename +:+ "': " +:+ error) s
       | None =>
           let new :=
             match disk fs !! filename with
             | None => Rows [["Name"; "Marks"]; [name; str score]]
             | Some (Rows rows) => Rows (rows ++ [[name; str score]])
             | Some (Unreadable error) => Unreadable error
             end in
           print ("Added " +:+ name +:+ " to " +:+ filename +:+ ".")
             (mkState Files (stdin Files s) (stdout Files s)
                (mkFiles (<[filename := new]> (disk fs)) (denied fs)))
       end.

(** [append_student_record(filename)] *)
Definition append_student_record (filename : string) : IO unit :=
  line ← input "Enter new student name: ";
  let name := strip line in
  if bool_decide (name = "") then print "Name cannot be empty."
  else
    line ← input "Enter marks (0-100): ";
    match float (strip line) with
    | Some score =>
        if out_of_range score then print "Marks must be between 0 and 100."
        else append_row filename name score
    | None => print "Invalid marks."
    end.

(** [calculate_average(marks_dict)] *)
Definition calculate_average (marks_dict : Marks) : pyfloat :=
  match marks_dict with
  | [] => of_int 0
  | _ => fdiv_count (foldl fadd (of_int 0) marks_dict.*2) (length marks_dict)
  end.

(** The loop of [find_max_score] (lines 121-128): the greatest score so far
    and the students who have it. *)
Definition max_step (acc : option pyfloat * list string) (item : string * pyfloat)
  : option pyfloat * list string :=
  match acc.1 with
  | None => (Some item.2, [item.1])
  | Some max_score =>
      if fgt item.2 max_score then (Some item.2, [item.1])
      else if feq item.2 max_score then (acc.1, acc.2 ++ [item.1])
      else acc
  end.

Definition max_scan (student_scores : Marks) : option pyfloat * list string :=
  foldl max_step (None, []) student_scores.

(** The loop of [find_min_score] (lines 137-144). *)
Definition min_step (acc : option pyfloat * list string) (item : string * pyfloat)
  : option pyfloat * list string :=
  match acc.1 with
  | None => (Some item.2, [item.1])
  | Some min_score =>
      if flt item.2 min_score then (Some item.2, [item.1])
      else if feq item.2 min_score then (acc.1, acc.2 ++ [item.1])
      else acc
  end.

Definition min_scan (student_scores : Marks) : option pyfloat * list string :=
  foldl min_step (None, []) student_scores.

(** [", ".join(names)] *)
Definition join_names (names : list string) : string := String.concat ", " names.

(** [find_max_score(student_scores)] *)
Definition find_max_score (student_scores : Marks) : IO unit :=
  match max_scan student_scores with
  | (Some max_score, max_students) =>
      print ("HIGHEST SCORE: " +:+ str max_score +:+ " by " +:+ join_names max_students)
  | (None, _) => print "No student data to find max."
  end.

(** [find_min_score(student_scores)] *)
Definition find_min_score (student_scores : Marks) : IO unit :=
  match min_scan student_scores with
  | (Some min_score, min_students) =>
      print ("LOWEST SCORE:  " +:+ str min_score +:+ " by " +:+ join_names min_students)
  | (None, _) => print "No student data to find min."
  end.

(** Lines 153-162. *)
Definition grade_of (score : pyfloat) : string :=
  if fge score (of_int 90) then "A"
  else if fge score (of_int 80) then "B"
  else if fge score (of_int 70) then "C"
  else if fge score (of_int 60) then "D"
  else "F".

(** The body of the loop of [assign_grades] (lines 152-164). *)
Definition grade_step (acc : list (string * string) * list (string * nat))
    (item : string * pyfloat) : list (string * string) * list (string * nat) :=
  let grade := grade_of item.2 in
  (dict_set item.1 grade acc.1,
   dict_set grade (default 0%nat (dict_get grade acc.2) + 1)%nat acc.2).

(** [assign_grades(student_scores)]: the grades and the distribution. *)
Definition assign_grades (student_scores : Marks)
  : list (string * string) * list (string * nat) :=
  foldl grade_step ([], [("A", 0); ("B", 0); ("C", 0); ("D", 0); ("F", 0)]%nat)
        student_scores.

(** Lines 173-174. *)
Definition passed (student_scores : Marks) : list string :=
  (filter (λ p : string * pyfloat, fge p.2 PASS_MARK = true) student_scores).*1.
Definition failed (student_scores : Marks) : list string :=
  (filter (λ p : string * pyfloat, flt p.2 PASS_MARK = true) student_scores).*1.

Definition rule (c : ascii) : string := String.string_of_list_ascii (replicate 50 c).

(** The alignments [:<n] and [:>n] of a format. *)
Variables ljust rjust : nat → string → string.

(** The loop of lines 195-197. *)
Fixpoint print_table (items : Marks) (grades : list (string * string)) : IO unit :=
  match items with
  | [] => mret tt
  | (name, score) :: items' =>
      print (ljust 25 name +:+ " | " +:+ format_6_1f score +:+ " | "
               +:+ rjust 5 (default "N/A" (dict_get name grades)));;
      print_table items' grades
  end.

(** [print_summary(student_scores, grades)] *)
Definition print_summary (student_scores : Marks) (grades : list (string * string))
  : IO unit :=
  if student_scores is [] then print "No student data to show."
  else
    print (String "010" "--- Class Statistics ---");;
    print ("Average Score: " +:+ format_2f (calculate_average student_scores));;
    find_max_score student_scores;;
    find_min_score student_scores;;
    print ("Grade Counts:  " +:+ str_dict (assign_grades student_scores).2);;
    print ("Passed: " +:+ pretty (length (passed student_scores)) +:+ " students");;
    print ("Failed: " +:+ pretty (length (failed student_scores)) +:+ " students");;
    print (String "010" (rule "="));;
    print (ljust 25 "Name" +:+ " | " +:+ rjust 6 "Marks" +:+ " | " +:+ rjust 5 "Grade");;
    print (rule "-");;
    print_table student_scores grades;;
    print (rule "=").
End Functions.

End Marksheet.

(** * Vocabulary of the statements on the tracker and the gradebook *)

(** The number of commas of a string. *)
Module TrackerObserve.
(** The number of commas of a string. *)
Fixpoint commas (s : string) : nat :=
  match s with
  | EmptyString => 0
  | String c s' => if Ascii.eqb c ","%char then S (commas s') else commas s'
  end.
End TrackerObserve.

Module MarksheetObserve.
Import Marksheet.

(** The rank of a grade, [F] lowest. *)
Definition rank (grade : string) : nat :=
  if String.eqb grade "A" then 4
  else if String.eqb grade "B" then 3
  else if String.eqb grade "C" then 2
  else if String.eqb grade "D" then 1
  else 0.

(** A mark is a number between 0 and 100. *)
Definition in_range (score : pyfloat) : Prop :=
  fle (of_int 0) score = true ∧ fle score (of_int 100) = true.

(** What the loop of [get_manual_input] keeps true of the marks it holds,
    given the lines it may have read. *)
Definition checked (strip lower : string → string) (lines : list string)
    (marks : Marks) : Prop :=
  NoDup marks.*1
  ∧ ∀ name score, (name, score) ∈ marks →
      name ≠ ""%string ∧ lower name ≠ "done"%string
      ∧ (score = NaN ∨ in_range score)
      ∧ ∃ line, line ∈ lines ∧ name = strip line.

(** The letters of the grades, best first, and the number of students of a
    table that get a given grade. *)
Definition letters : list string := ["A"; "B"; "C"; "D"; "F"]%string.

Definition graded (grade : string) (student_scores : Marks) : nat :=
  length (filter (λ p : string * pyfloat, grade_of p.2 = grade) student_scores).

(** The students of a table whose mark is a given one, in the table's order. *)
Definition holders (score : pyfloat) (student_scores : Marks) : list string :=
  (filter (λ p : string * pyfloat, p.2 = score) student_scores).*1.

End MarksheetObserve.

(** Sample data for the reporting stage, the tracker and the gradebook. *)
Module Fixture.
Import Marksheet.

(** A world that holds the table [Sample.two_buildings] at address 0, with
    an output path that can be written. *)
Definition env : Reporting.Env :=
  Reporting.mkEnv (Energy.mkWorld {[ 0%nat := Sample.two_buildings ]} []) true
    None None [] [].

Definition new_manager : Energy.BuildingManager := Energy.mkManager 0%nat None None None None.

(** [strip], [upper] and [lower] on texts they leave alone. *)
Definition unchanged (s : string) : string := s.

(** [float] on the texts of [nan] and of the natural numbers. *)
Definition float (s : string) : option pyfloat :=
  if String.eqb s "nan" then Some NaN else n ← Sample.number s; Some (of_int n).

(** A text for a mark that is a whole number. *)
Definition str (x : pyfloat) : string :=
  match x with
  | Finite q => pretty (Qnum (this q))
  | PosInf => "inf"
  | NegInf => "-inf"
  | NaN => "nan"
  end.

Definition marks : Marks :=
  [("asha", of_int 85); ("ravi", of_int 35); ("meena", of_int 85)]%string.

(** [marks.csv] with a header and one record; nothing is write-protected. *)
Definition one_file : Files :=
  mkFiles {[ "marks.csv"%string := Rows [["Name"; "Marks"]; ["asha"; "85"]]%string ]} ∅.

Definition typing (lines : list string) : Gradebook.State Files :=
  Gradebook.mkState Files lines [] one_file.

End Fixture.

(** * Facts about sorting *)

Section SortingFacts.
Context {A : Type} (leb : A → A → bool).

Lemma insert_sorted_Permutation x l : insert_sorted leb x l ≡ₚ x :: l.
Proof.
  induction l as [|y l IH]; simpl; [done|].
  destruct (leb x y); [done|]. rewrite IH. apply Permutation_swap.
Qed.

Lemma isort_Permutation l : isort leb l ≡ₚ l.
Proof.
  induction l as [|x l IH]; simpl; [done|].
  rewrite insert_sorted_Permutation. by rewrite IH.
Qed.

Lemma elem_of_isort x l : x ∈ isort leb l ↔ x ∈ l.
Proof. by rewrite isort_Permutation. Qed.

Lemma length_isort l : length (isort leb l) = length l.
Proof. by rewrite isort_Permutation. Qed.

Hypothesis leb_total : ∀ x y, leb x y = true ∨ leb y x = true.
Hypothesis leb_trans : ∀ x y z, leb x y = true → leb y z = true → leb x z = true.

Lemma insert_sorted_StronglySorted x l :
  StronglySorted (λ a b, leb a b = true) l →
  StronglySorted (λ a b, leb a b = true) (insert_sorted leb x l).
Proof using leb_total leb_trans.
  induction 1 as [|y l Hs IH Hy]; simpl.
  - repeat constructor.
  - destruct (leb x y) eqn:E.
    + constructor; [by constructor|].
      constructor; [done|].
      eapply Forall_impl; [exact Hy|]. intros z Hz. by eapply leb_trans.
    + constructor; [done|].
      rewrite insert_sorted_Permutation. constructor; [|done].
      destruct (leb_total x y); congruence.
Qed.

Lemma isort_StronglySorted l : StronglySorted (λ a b, leb a b = true) (isort leb l).
Proof using leb_total leb_trans.
  induction l; simpl; [constructor|]. by apply insert_sorted_StronglySorted.
Qed.

(** Sorting and selecting commute: dropping elements does not disturb the
    order of the others. *)
Lemma filter_insert_sorted (P : A → Prop) `{!∀ x, Decision (P x)} x l :
  StronglySorted (λ a b, leb a b = true) l →
  filter P (insert_sorted leb x l) =
    if decide (P x) then insert_sorted leb x (filter P l) else filter P l.
Proof using leb_trans.
  induction 1 as [|y l Hs IH Hy]; simpl.
  - rewrite filter_cons, filter_nil. by destruct (decide (P x)).
  - destruct (leb x y) eqn:E.
    + rewrite !filter_cons. destruct (decide (P x)) as [Hx|Hx]; [|done].
      destruct (decide (P y)); simpl; [by rewrite E|].
      assert (Forall (λ z, leb x z = true) (filter P l)) as Hall.
      { apply Forall_forall. intros z [_ Hz]%list_elem_of_filter.
        rewrite Forall_forall in Hy. eapply leb_trans; [exact E|]. by apply Hy. }
      destruct (filter P l) as [|z l']; [done|]. simpl.
      by rewrite (Forall_inv Hall).
    + rewrite !filter_cons, IH.
      destruct (decide (P y)), (decide (P x)); simpl; by rewrite ?E.
Qed.

Lemma filter_isort (P : A → Prop) `{!∀ x, Decision (P x)} l :
  filter P (isort leb l) = isort leb (filter P l).
Proof using leb_total leb_trans.
  induction l as [|x l IH]; simpl; [done|].
  rewrite filter_insert_sorted by apply isort_StronglySorted.
  rewrite filter_cons. destruct (decide (P x)); simpl; by rewrite IH.
Qed.
End SortingFacts.

Lemma string_leb_trans s1 s2 s3 :
  String.leb s1 s2 = true → String.leb s2 s3 = true → String.leb s1 s3 = true.
Proof.
  unfold String.leb. revert s2 s3.
  induction s1 as [|a1 s1 IH]; intros [|a2 s2] [|a3 s3]; simpl; try done.
  unfold Ascii.compare.
  destruct (N.compare_spec (N_of_ascii a1) (N_of_ascii a2));
  destruct (N.compare_spec (N_of_ascii a2) (N_of_ascii a3));
  destruct (N.compare_spec (N_of_ascii a1) (N_of_ascii a3));
    try done; try lia.
  all: apply IH.
Qed.

Lemma Forall2_elem_of_left {A B} (P : A → B → Prop) l k x :
  Forall2 P l k → x ∈ l → ∃ y, y ∈ k ∧ P x y.
Proof.
  induction 1 as [|x' y' l k Hxy _ IH]; intros Hx; [by apply elem_of_nil in Hx|].
  apply elem_of_cons in Hx as [->|Hx].
  - exists y'. split; [left|done].
  - destruct (IH Hx) as (y & ? & ?). exists y. split; [by right|done].
Qed.

Lemma omap_filter_is_Some {A B} (f : A → option B) (l : list A) :
  omap f (filter (λ x, is_Some (f x)) l) = omap f l.
Proof.
  induction l as [|x l IH]; [done|].
  rewrite filter_cons. destruct (decide (is_Some (f x))) as [[y E]|E].
  - cbn. rewrite E. cbn. by f_equal.
  - cbn. destruct (f x); [|done]. by destruct E.
Qed.

(** * Facts about the store *)

Section StoreFacts.
Import Energy.

Lemma new_run d w :
  new d w = (fresh (dom (heap w)),
             mkWorld (<[fresh (dom (heap w)) := d]> (heap w)) (log w)).
Proof. done. Qed.

Lemma lookup_object (w : World) (l : ref) d :
  heap w !! l = Some d → heap w !!! l = d.
Proof. apply lookup_total_correct. Qed.

Lemma fresh_not_allocated (w : World) (l : ref) :
  l ∈ dom (heap w) → l ≠ fresh (dom (heap w)).
Proof. intros Hl ->. by apply (is_fresh (dom (heap w))). Qed.

Lemma lookup_after_new (w : World) d (l : ref) :
  l ∈ dom (heap w) → heap (new d w).2 !! l = heap w !! l.
Proof.
  intros Hl. simpl. rewrite lookup_insert_ne; [done|].
  intros E. by apply (fresh_not_allocated w l).
Qed.
End StoreFacts.

(** * Facts about ingestion *)

Section IngestFacts.
Import Energy Observe.
Variable to_datetime : list cell → list (option Z).
Variable to_numeric : cell → option Qc.

Lemma ingest_file_run acc f w :
  ∃ m, ingest_file to_datetime acc f w
       = (acc ++ option_list (file_frame to_datetime f),
          mkWorld (heap w) (log w ++ [m]))
       ∧ logs_for to_datetime f m.
Proof.
  destruct f as [name [[]|t]]; unfold ingest_file, file_frame; simpl.
  - eexists. split; [by rewrite app_nil_r|constructor].
  - eexists. split; [by rewrite app_nil_r|constructor].
  - destruct (decide (has_required_columns t)) as [(H1 & H2 & H3)|Hno].
    + rewrite !bool_decide_eq_true_2 by done. simpl.
      eexists. split; [reflexivity|].
      unfold sort_values_Timestamp. rewrite length_isort.
      by constructor.
    + destruct (decide ("Timestamp"%string ∈ columns t)) as [H1|H1];
        [rewrite (bool_decide_eq_true_2 _ H1)|rewrite (bool_decide_eq_false_2 _ H1)];
        simpl; [|eexists; split; [by rewrite app_nil_r|constructor; [unfold required_columns; set_solver|done]]].
      destruct (decide ("Building"%string ∈ columns t)) as [H2|H2];
        [rewrite (bool_decide_eq_true_2 _ H2)|rewrite (bool_decide_eq_false_2 _ H2)];
        simpl; [|eexists; split; [by rewrite app_nil_r|constructor; [unfold required_columns; set_solver|done]]].
      destruct (decide ("kWh"%string ∈ columns t)) as [H3|H3];
        [rewrite (bool_decide_eq_true_2 _ H3)|rewrite (bool_decide_eq_false_2 _ H3)];
        simpl; [|eexists; split; [by rewrite app_nil_r|constructor; [unfold required_columns; set_solver|done]]].
      by destruct Hno.
Qed.

Lemma ingest_loop_run files : ∀ acc w,
  ∃ ms, ingest_loop to_datetime acc files w
        = (acc ++ omap (file_frame to_datetime) files,
           mkWorld (heap w) (log w ++ ms))
        ∧ Forall2 (logs_for to_datetime) files ms.
Proof.
  induction files as [|f files IH]; intros acc w; simpl.
  - exists []. split; [|constructor]. rewrite !app_nil_r. by destruct w.
  - destruct (ingest_file_run acc f w) as (m & Hf & Hm).
    unfold mbind, M_bind at 1. rewrite Hf.
    destruct (IH (acc ++ option_list (file_frame to_datetime f))
                 (mkWorld (heap w) (log w ++ [m]))) as (ms & Hl & Hms).
    exists (m :: ms). split; [|by constructor].
    rewrite Hl. simpl. f_equal.
    + rewrite <-(assoc_L (++)). f_equal. by destruct (file_frame to_datetime f).
    + by rewrite <-(assoc_L (++)).
Qed.

Lemma ingest_data_run entries w :
  let fs := sorted_csv_files entries in
  ∃ ms, ingest_data to_datetime to_numeric (Directory entries) w
        = (fresh (dom (heap w)),
           mkWorld (<[fresh (dom (heap w)) :=
                        numeric_kWh to_numeric (concat (omap (file_frame to_datetime) fs))]>
                      (heap w))
                   (log w ++ (if fs is [] then [(WARNING, NoCsvFiles)] else []) ++ ms
                      ++ (if omap (file_frame to_datetime) fs is []
                          then [(WARNING, NoValidData)] else [])))
        ∧ Forall2 (logs_for to_datetime) fs ms.
Proof.
  intros fs. unfold ingest_data. fold fs.
  set (pre := if fs is [] then [(WARNING, NoCsvFiles)] else []).
  assert (((if fs is [] then logger WARNING NoCsvFiles else mret ()) w)
          = (tt, mkWorld (heap w) (log w ++ pre))) as Hpre.
  { unfold pre. destruct fs; simpl; [done|].
    unfold mret, M_ret. rewrite app_nil_r. by destruct w. }
  destruct (ingest_loop_run fs [] (mkWorld (heap w) (log w ++ pre))) as (ms & Hl & Hms).
  exists ms. split; [|done].
  unfold mbind, M_bind at 1. rewrite Hpre.
  unfold mbind, M_bind at 1. rewrite Hl. simpl.
  destruct (omap (file_frame to_datetime) fs) as [|fr frs] eqn:E; simpl.
  - unfold M_bind, logger, new. simpl. by rewrite <-!(assoc_L (++)).
  - unfold new. simpl. by rewrite app_nil_r, <-!(assoc_L (++)).
Qed.

Lemma ingested_Directory entries w :
  ingested to_datetime to_numeric (Directory entries) w
  = numeric_kWh to_numeric
      (concat (omap (file_frame to_datetime) (sorted_csv_files entries))).
Proof.
  unfold ingested. destruct (ingest_data_run entries w) as (ms & -> & _).
  simpl. by rewrite lookup_total_insert_eq.
Qed.

Lemma ingest_log_Directory entries w :
  let fs := sorted_csv_files entries in
  ∃ ms, ingest_log to_datetime to_numeric (Directory entries) w
        = (if fs is [] then [(WARNING, NoCsvFiles)] else []) ++ ms
           ++ (if omap (file_frame to_datetime) fs is []
               then [(WARNING, NoValidData)] else [])
        ∧ Forall2 (logs_for to_datetime) fs ms.
Proof.
  intros fs. unfold ingest_log.
  destruct (ingest_data_run entries w) as (ms & -> & Hms).
  exists ms. split; [|done]. simpl. by rewrite drop_app_length.
Qed.

Lemma name_leb_total e1 e2 : name_leb e1 e2 = true ∨ name_leb e2 e1 = true.
Proof. apply String.leb_total. Qed.

Lemma name_leb_trans e1 e2 e3 :
  name_leb e1 e2 = true → name_leb e2 e3 = true → name_leb e1 e3 = true.
Proof. apply string_leb_trans. Qed.

(** A file that adds no frame to [all_rows] leaves the result as it is
    without the file. *)
Lemma ingested_skip before f after w :
  file_frame to_datetime f = None →
  ingested to_datetime to_numeric (Directory (before ++ f :: after)) w
  = ingested to_datetime to_numeric (Directory (before ++ after)) w.
Proof.
  intros Hf. rewrite !ingested_Directory. do 2 f_equal.
  unfold sorted_csv_files.
  rewrite <-(omap_filter_is_Some _ (isort _ (glob_csv (before ++ f :: after)))).
  rewrite <-(omap_filter_is_Some _ (isort _ (glob_csv (before ++ after)))).
  rewrite !(filter_isort name_leb name_leb_total name_leb_trans). do 2 f_equal.
  unfold glob_csv. rewrite !filter_app, !filter_cons.
  destruct (decide (is_csv f.1 = true)); [|done].
  rewrite filter_cons. destruct (decide (is_Some (file_frame to_datetime f))) as [[? E]|]; [|done].
  congruence.
Qed.

Lemma logged_for_file entries w f :
  f ∈ entries → is_csv f.1 = true →
  ∃ m, m ∈ ingest_log to_datetime to_numeric (Directory entries) w
       ∧ logs_for to_datetime f m.
Proof.
  intros Hin Hcsv. destruct (ingest_log_Directory entries w) as (ms & -> & Hms).
  assert (f ∈ sorted_csv_files entries) as Hf.
  { unfold sorted_csv_files, glob_csv. rewrite elem_of_isort.
    by apply list_elem_of_filter. }
  destruct (Forall2_elem_of_left _ _ _ _ Hms Hf) as (m & Hm & Hlog).
  exists m. split; [|done]. set_solver.
Qed.

Lemma elem_of_parse_timestamps t r' :
  r' ∈ parse_timestamps to_datetime t ↔
  ∃ i r ts, rows t !! i = Some r
            ∧ to_datetime (raw_Timestamp <$> rows t) !! i = Some (Some ts)
            ∧ r' = mkRow ts (raw_Building r) (raw_kWh r) None.
Proof.
  unfold parse_timestamps. rewrite list_elem_of_omap. split.
  - intros ([o r] & Hin & Hr). simpl in Hr.
    destruct o as [ts|]; [|done]. simpl in Hr. injection Hr as <-.
    apply list_elem_of_lookup in Hin as [i Hi].
    apply lookup_zip_with_Some in Hi as (o' & r0 & E & Ho & Hr0).
    injection E as <- <-. by exists i, r, ts.
  - intros (i & r & ts & Hr & Hts & ->).
    exists (Some ts, r). split; [|done].
    apply list_elem_of_lookup. exists i.
    apply lookup_zip_with_Some. by exists (Some ts), r.
Qed.

Lemma elem_of_all_rows entries r' :
  r' ∈ concat (omap (file_frame to_datetime) (sorted_csv_files entries)) ↔
  ∃ name t i r ts,
    (name, Returns t) ∈ entries ∧ is_csv name = true ∧ has_required_columns t
    ∧ rows t !! i = Some r
    ∧ to_datetime (raw_Timestamp <$> rows t) !! i = Some (Some ts)
    ∧ r' = mkRow ts (raw_Building r) (raw_kWh r) None.
Proof.
  rewrite list_elem_of_In, in_concat. split.
  - intros (fr & Hfr%list_elem_of_In & Hr%list_elem_of_In).
    apply list_elem_of_omap in Hfr as ([name rr] & Hf & Hff).
    unfold sorted_csv_files, glob_csv in Hf.
    rewrite elem_of_isort in Hf. apply list_elem_of_filter in Hf as [Hcsv Hf].
    unfold file_frame in Hff. simpl in *.
    destruct rr as [|t]; [done|].
    destruct (decide (has_required_columns t)) as [Hreq|]; [|done].
    injection Hff as <-. unfold sort_values_Timestamp in Hr.
    rewrite elem_of_isort in Hr.
    apply elem_of_parse_timestamps in Hr as (i & r & ts & ? & ? & ?).
    by exists name, t, i, r, ts.
  - intros (name & t & i & r & ts & Hin & Hcsv & Hreq & Hr & Hts & ->).
    exists (sort_values_Timestamp (parse_timestamps to_datetime t)). split.
    + apply list_elem_of_In, list_elem_of_omap. exists (name, Returns t). split.
      * unfold sorted_csv_files, glob_csv. rewrite elem_of_isort.
        by apply list_elem_of_filter.
      * unfold file_frame. simpl. by rewrite decide_True.
    + apply list_elem_of_In. unfold sort_values_Timestamp. rewrite elem_of_isort.
      apply elem_of_parse_timestamps. by exists i, r, ts.
Qed.

(** C2. Every row of the combined table comes from a row of a file whose
    timestamp parsed and whose value is numeric, and every such row of a
    file that is ingested is in the combined table.  The frame obtained by
    concatenating the per-file tables still has the rows with a value that
    is not numeric (only the timestamp decides there); [pd.to_numeric] and
    the second [dropna] work on that frame. *)
Theorem ingest_keeps_exactly_the_clean_rows entries w :
  ∃ df_combined : list (Row cell),
    (∀ r', r' ∈ df_combined ↔
       ∃ name t i r ts,
         (name, Returns t) ∈ entries ∧ is_csv name = true ∧ has_required_columns t
         ∧ rows t !! i = Some r
         ∧ to_datetime (raw_Timestamp <$> rows t) !! i = Some (Some ts)
         ∧ r' = mkRow ts (raw_Building r) (raw_kWh r) None)
    ∧ ingested to_datetime to_numeric (Directory entries) w
      = numeric_kWh to_numeric df_combined
    ∧ (∀ c, c ∈ ingested to_datetime to_numeric (Directory entries) w ↔
         ∃ name t i r ts v,
           (name, Returns t) ∈ entries ∧ is_csv name = true ∧ has_required_columns t
           ∧ rows t !! i = Some r
           ∧ to_datetime (raw_Timestamp <$> rows t) !! i = Some (Some ts)
           ∧ to_numeric (raw_kWh r) = Some v
           ∧ c = mkRow ts (raw_Building r) v None).
Proof.
  exists (concat (omap (file_frame to_datetime) (sorted_csv_files entries))).
  split; [apply elem_of_all_rows|]. split; [apply ingested_Directory|].
  intros c. rewrite ingested_Directory. unfold numeric_kWh.
  rewrite list_elem_of_omap. split.
  - intros (r' & Hr' & Hc).
    apply elem_of_all_rows in Hr' as (name & t & i & r & ts & ? & ? & ? & ? & ? & ->).
    simpl in Hc. destruct (to_numeric (raw_kWh r)) as [v|] eqn:Hv; [|done].
    simpl in Hc. injection Hc as <-. by exists name, t, i, r, ts, v.
  - intros (name & t & i & r & ts & v & ? & ? & ? & ? & ? & Hv & ->).
    exists (mkRow ts (raw_Building r) (raw_kWh r) None). split.
    + apply elem_of_all_rows. by exists name, t, i, r, ts.
    + simpl. by rewrite Hv.
Qed.

(** The rows of the combined table of a directory: the clean rows of its
    files that match [*.csv], can be read and have the three columns. *)
Lemma elem_of_ingested entries w c :
  c ∈ ingested to_datetime to_numeric (Directory entries) w ↔
  ∃ name t i r ts v,
    (name, Returns t) ∈ entries ∧ is_csv name = true ∧ has_required_columns t
    ∧ rows t !! i = Some r
    ∧ to_datetime (raw_Timestamp <$> rows t) !! i = Some (Some ts)
    ∧ to_numeric (raw_kWh r) = Some v
    ∧ c = mkRow ts (raw_Building r) v None.
Proof.
  rewrite ingested_Directory. unfold numeric_kWh.
  rewrite list_elem_of_omap. split.
  - intros (r' & Hr' & Hc).
    apply elem_of_all_rows in Hr' as (name & t & i & r & ts & ? & ? & ? & ? & ? & ->).
    simpl in Hc. destruct (to_numeric (raw_kWh r)) as [v|] eqn:Hv; [|done].
    simpl in Hc. injection Hc as <-. by exists name, t, i, r, ts, v.
  - intros (name & t & i & r & ts & v & ? & ? & ? & ? & ? & Hv & ->).
    exists (mkRow ts (raw_Building r) (raw_kWh r) None). split.
    + apply elem_of_all_rows. by exists name, t, i, r, ts.
    + simpl. by rewrite Hv.
Qed.

Lemma call_ingest_data_returns data_dir w :
  ∃ df_combined w',
    call_ingest_data to_datetime to_numeric (Answers data_dir) w = (Returned df_combined, w')
    ∧ heap w' !! df_combined = Some (ingested to_datetime to_numeric data_dir w).
Proof.
  unfold call_ingest_data, ingested, mbind, M_bind.
  destruct data_dir as [|entries].
  - eexists _, _. split; [reflexivity|]. simpl.
    by rewrite lookup_insert_eq, lookup_total_insert_eq.
  - destruct (ingest_data_run entries w) as (ms & -> & _). eexists _, _.
    split; [reflexivity|]. simpl. by rewrite lookup_insert_eq, lookup_total_insert_eq.
Qed.

(** C3 as the specification words it fails where the test of line 36 cannot
    be carried out, for instance at a path whose name is too long for the
    file system: nothing is there, and yet the call raises instead of
    returning an empty table, and nothing is logged. *)
Lemma existence_test_can_raise :
  let r := call_ingest_data Sample.to_datetime Sample.to_numeric StatFails
             Sample.empty_world in
  r.1 = RaisedOSError
  ∧ ¬ (∃ df_combined, r.1 = Returned df_combined)
  ∧ r.2 = Sample.empty_world.
Proof. vm_compute. split; [done|]. split; [|done]. by intros [? ?]. Qed.

(** C3, amended. Where the test of line 36 answers, the call returns a table
    and does not raise; where the test itself fails, its error is raised.  A
    path at which nothing is found gives the empty table and one logged
    error; a directory without a file matching [*.csv] gives the empty table
    and logged warnings.  A file on which [pd.read_csv] raises is logged as
    an error and skipped, and the other files are still ingested: the table
    holds exactly their clean rows, and is the one they give without the
    failing file. *)
Theorem ingest_survives_bad_location :
  (∀ data_dir w, ∃ df_combined w',
     call_ingest_data to_datetime to_numeric (Answers data_dir) w
     = (Returned df_combined, w')
     ∧ heap w' !! df_combined = Some (ingested to_datetime to_numeric data_dir w))
  ∧ (∀ w, call_ingest_data to_datetime to_numeric StatFails w = (RaisedOSError, w))
  ∧ (∀ w, ingested to_datetime to_numeric NoSuchPath w = []
          ∧ ingest_log to_datetime to_numeric NoSuchPath w = [(ERROR, DataDirMissing)])
  ∧ (∀ entries w,
       glob_csv entries = [] →
       ingested to_datetime to_numeric (Directory entries) w = []
       ∧ ingest_log to_datetime to_numeric (Directory entries) w
         = [(WARNING, NoCsvFiles); (WARNING, NoValidData)])
  ∧ (∀ before name e after w,
       (∀ c, c ∈ ingested to_datetime to_numeric
                   (Directory (before ++ (name, Raises e) :: after)) w ↔
          ∃ name' t i r ts v,
            (name', Returns t) ∈ before ++ after ∧ is_csv name' = true
            ∧ has_required_columns t
            ∧ rows t !! i = Some r
            ∧ to_datetime (raw_Timestamp <$> rows t) !! i = Some (Some ts)
            ∧ to_numeric (raw_kWh r) = Some v
            ∧ c = mkRow ts (raw_Building r) v None)
       ∧ ingested to_datetime to_numeric (Directory (before ++ (name, Raises e) :: after)) w
         = ingested to_datetime to_numeric (Directory (before ++ after)) w
       ∧ (is_csv name = true →
          (ERROR, match e with
                  | FileNotFoundError => FileNotFound name
                  | OtherError => ErrorReading name
                  end)
          ∈ ingest_log to_datetime to_numeric
              (Directory (before ++ (name, Raises e) :: after)) w)).
Proof.
  split; [apply call_ingest_data_returns|]. split; [done|]. split; [|split].
  - intros w. unfold ingested, ingest_log. simpl.
    rewrite lookup_total_insert_eq. split; [done|]. by rewrite drop_app_length.
  - intros entries w Hglob. rewrite ingested_Directory.
    destruct (ingest_log_Directory entries w) as (ms & -> & Hms).
    unfold sorted_csv_files in *. rewrite Hglob in *. simpl in *.
    by apply Forall2_nil_inv_l in Hms as ->.
  - intros before name e after w.
    assert (ingested to_datetime to_numeric (Directory (before ++ (name, Raises e) :: after)) w
            = ingested to_datetime to_numeric (Directory (before ++ after)) w) as Hskip
      by (by apply ingested_skip).
    split; [|split; [exact Hskip|]].
    + intros c. rewrite Hskip. apply elem_of_ingested.
    + intros Hcsv.
      destruct (logged_for_file (before ++ (name, Raises e) :: after) w (name, Raises e))
        as (m & Hm & Hlog); [set_solver|done|].
      by inversion Hlog; subst.
Qed.

(** C4. A file whose header lacks one of [Timestamp], [Building], [kWh] is
    skipped with a warning that names a missing column.  The other files are
    still ingested and nothing of the skipped file is: the combined table
    holds exactly the clean rows of the other files, and is the one they
    give without the skipped file. *)
Theorem ingest_skips_file_without_columns before name t after w :
  ¬ has_required_columns t →
  (∀ c, c ∈ ingested to_datetime to_numeric
              (Directory (before ++ (name, Returns t) :: after)) w ↔
     ∃ name' t' i r ts v,
       (name', Returns t') ∈ before ++ after ∧ is_csv name' = true
       ∧ has_required_columns t'
       ∧ rows t' !! i = Some r
       ∧ to_datetime (raw_Timestamp <$> rows t') !! i = Some (Some ts)
       ∧ to_numeric (raw_kWh r) = Some v
       ∧ c = mkRow ts (raw_Building r) v None)
  ∧ ingested to_datetime to_numeric (Directory (before ++ (name, Returns t) :: after)) w
    = ingested to_datetime to_numeric (Directory (before ++ after)) w
  ∧ (is_csv name = true →
     ∃ c, c ∈ required_columns ∧ (c ∉ columns t)
          ∧ (WARNING, MissingColumn c name)
            ∈ ingest_log to_datetime to_numeric
                (Directory (before ++ (name, Returns t) :: after)) w).
Proof.
  intros Hno.
  assert (ingested to_datetime to_numeric (Directory (before ++ (name, Returns t) :: after)) w
          = ingested to_datetime to_numeric (Directory (before ++ after)) w) as Hskip.
  { apply ingested_skip. unfold file_frame. simpl. by rewrite decide_False. }
  split; [|split; [exact Hskip|]].
  - intros c. rewrite Hskip. apply elem_of_ingested.
  - intros Hcsv.
    destruct (logged_for_file (before ++ (name, Returns t) :: after) w (name, Returns t))
      as (m & Hm & Hlog); [set_solver|done|].
    inversion Hlog; subst; [|done]. eauto.
Qed.
End IngestFacts.

(** * Facts about aggregation *)

Lemma StronglySorted_impl {A} (R1 R2 : A → A → Prop) l :
  (∀ x y, R1 x y → R2 x y) → StronglySorted R1 l → StronglySorted R2 l.
Proof.
  intros HR. induction 1 as [|x l _ IH Hx]; constructor; [done|].
  eapply Forall_impl; [exact Hx|]. auto.
Qed.

Section SeriesFacts.
Import Energy Observe.
Open Scope Qc_scope.

Lemma foldl_qmin_spec vs : ∀ v,
  foldl qmin v vs ∈ v :: vs ∧ ∀ x, x ∈ v :: vs → foldl qmin v vs ≤ x.
Proof.
  induction vs as [|y vs IH]; intros v; simpl.
  - split; [left|]. intros x ->%list_elem_of_singleton. apply Qcle_refl.
  - destruct (IH (qmin v y)) as [Hin Hle]. split.
    + apply elem_of_cons in Hin as [->|Hin]; [|by do 2 right].
      unfold qmin. case_bool_decide; [right|]; left.
    + intros x Hx.
      assert (qmin v y ≤ v ∧ qmin v y ≤ y) as [Hv Hy].
      { unfold qmin. case_bool_decide as Hlt.
        - split; [by apply Qclt_le_weak|apply Qcle_refl].
        - split; [apply Qcle_refl|by apply Qcnot_lt_le]. }
      apply elem_of_cons in Hx as [->|Hx].
      { eapply Qcle_trans; [|exact Hv]. apply Hle. left. }
      apply elem_of_cons in Hx as [->|Hx].
      { eapply Qcle_trans; [|exact Hy]. apply Hle. left. }
      apply Hle. by right.
Qed.

Lemma foldl_qmax_spec vs : ∀ v,
  foldl qmax v vs ∈ v :: vs ∧ ∀ x, x ∈ v :: vs → x ≤ foldl qmax v vs.
Proof.
  induction vs as [|y vs IH]; intros v; simpl.
  - split; [left|]. intros x ->%list_elem_of_singleton. apply Qcle_refl.
  - destruct (IH (qmax v y)) as [Hin Hle]. split.
    + apply elem_of_cons in Hin as [->|Hin]; [|by do 2 right].
      unfold qmax. case_bool_decide; [right|]; left.
    + intros x Hx.
      assert (v ≤ qmax v y ∧ y ≤ qmax v y) as [Hv Hy].
      { unfold qmax. case_bool_decide as Hlt.
        - split; [by apply Qclt_le_weak|apply Qcle_refl].
        - split; [apply Qcle_refl|by apply Qcnot_lt_le]. }
      apply elem_of_cons in Hx as [->|Hx].
      { eapply Qcle_trans; [exact Hv|]. apply Hle. left. }
      apply elem_of_cons in Hx as [->|Hx].
      { eapply Qcle_trans; [exact Hy|]. apply Hle. left. }
      apply Hle. by right.
Qed.

Lemma series_min_spec vs :
  vs ≠ [] → ∃ lo, series_min vs = Some lo ∧ lo ∈ vs ∧ ∀ v, v ∈ vs → lo ≤ v.
Proof.
  destruct vs as [|v vs]; [done|]. intros _. eexists. split; [done|].
  apply foldl_qmin_spec.
Qed.

Lemma series_max_spec vs :
  vs ≠ [] → ∃ hi, series_max vs = Some hi ∧ hi ∈ vs ∧ ∀ v, v ∈ vs → v ≤ hi.
Proof.
  destruct vs as [|v vs]; [done|]. intros _. eexists. split; [done|].
  apply foldl_qmax_spec.
Qed.

Lemma series_mean_spec vs :
  vs ≠ [] → series_mean vs = Some (series_sum vs / count vs).
Proof. by destruct vs. Qed.

Lemma total_geb_total a b : total_geb a b = true ∨ total_geb b a = true.
Proof.
  unfold total_geb. destruct (Qc_le_total (total_kWh a.2) (total_kWh b.2)).
  - right. by apply bool_decide_eq_true.
  - left. by apply bool_decide_eq_true.
Qed.

Lemma total_geb_trans a b c :
  total_geb a b = true → total_geb b c = true → total_geb a c = true.
Proof.
  unfold total_geb. rewrite !bool_decide_eq_true. intros. by eapply Qcle_trans.
Qed.
End SeriesFacts.

Section GroupFacts.
Import Energy Observe.

Lemma elem_of_group_keys {V} (d : list (Row V)) k :
  k ∈ group_keys d ↔ ∃ r, r ∈ d ∧ Building r = Some k.
Proof.
  unfold group_keys. rewrite elem_of_isort, elem_of_remove_dups, list_elem_of_omap.
  done.
Qed.

Lemma NoDup_group_keys {V} (d : list (Row V)) : NoDup (group_keys d).
Proof.
  unfold group_keys. rewrite isort_Permutation. apply NoDup_remove_dups.
Qed.

Lemma group_keys_nil {V} : group_keys (@nil (Row V)) = [].
Proof. done. Qed.

Lemma summary_of_keys d : (summary_of d).*1 ≡ₚ group_keys d.
Proof.
  unfold summary_of. rewrite isort_Permutation.
  unfold groupby_Building. rewrite <-!list_fmap_compose.
  induction (group_keys d) as [|k ks IH]; [done|]. simpl. by f_equiv.
Qed.

Lemma elem_of_summary_of d k s :
  (k, s) ∈ summary_of d ↔ k ∈ group_keys d ∧ s = agg (values_of k d).
Proof.
  unfold summary_of. rewrite elem_of_isort.
  unfold groupby_Building. rewrite <-!list_fmap_compose, list_elem_of_fmap.
  simpl. unfold values_of, group_rows. split.
  - intros (k' & E & Hk'). simpl in E. by injection E as -> ->.
  - intros [Hk ->]. by exists k.
Qed.

Lemma values_of_nonempty d k : k ∈ group_keys d → values_of k d ≠ [].
Proof.
  intros (r & Hr & Hk)%elem_of_group_keys. unfold values_of.
  intros E. apply fmap_nil_inv in E.
  assert (r ∈ @nil (Row Qc)) as Hin
    by (rewrite <-E; by apply list_elem_of_filter).
  by apply not_elem_of_nil in Hin.
Qed.
End GroupFacts.

(** * Facts about [BuildingManager] *)

Section ManagerFacts.
Import Energy Observe.

Lemma init_run df_combined w :
  init df_combined w
  = (mkManager (fresh (dom (heap w))) None None None None,
     mkWorld (<[fresh (dom (heap w)) := heap w !!! df_combined]> (heap w)) (log w)).
Proof. done. Qed.

Lemma calculate_summary_statistics_run self w :
  let d := heap w !!! df self in
  calculate_summary_statistics self w
  = ((summary_of d, set_summary_stats (Some (summary_of d)) self),
     mkWorld (heap w)
       (log w ++ [if d is [] then (WARNING, EmptySummary)
                  else (INFO, SummaryDone (length (summary_of d)))])).
Proof.
  simpl. unfold calculate_summary_statistics, mbind, M_bind, deref.
  by destruct (heap w !!! df self).
Qed.

Lemma calculate_time_trends_run self w :
  let d := heap w !!! df self in
  calculate_time_trends self w
  = if d is [] then
      ((([], []), set_weekly_avg_by_building (Some []) (set_daily_totals (Some []) self)),
       mkWorld (heap w) (log w ++ [(WARNING, EmptyTrends)]))
    else
      (((resample_D_sum d, weekly_of d),
        set_peak_hours_by_building (Some (peaks_of d))
          (set_weekly_avg_by_building (Some (weekly_of d))
             (set_daily_totals (Some (resample_D_sum d)) self))),
       mkWorld (<[fresh (dom (heap w)) := set_Hour d]> (heap w))
         (log w ++ [(INFO, TrendsDone (length (resample_D_sum d)))])).
Proof.
  simpl. unfold calculate_time_trends, mbind, M_bind, deref.
  destruct (heap w !!! df self) as [|r d'] eqn:E; [done|].
  unfold logger, copy, modify, new, mbind, M_bind, deref, mret, M_ret. simpl.
  rewrite !lookup_total_insert_eq, insert_insert_eq. by rewrite E.
Qed.

(** C1. On a table with rows, [calculate_summary_statistics] stores and
    returns one row per building identifier of the table; the row of a
    building holds the sum, the mean (sum over count), the least and the
    greatest of that building's values; the rows come by descending sum.
    For A with values 10, 20 and B with value 5 the result is A: mean 15,
    min 10, max 20, sum 30, then B: mean 5, min 5, max 5, sum 5. *)
Theorem summary_statistics_by_building :
  (∀ self w d stats self' w',
     heap w !! df self = Some d → d ≠ [] →
     calculate_summary_statistics self w = ((stats, self'), w') →
     summary_stats self' = Some stats
     ∧ NoDup stats.*1
     ∧ (∀ k, k ∈ stats.*1 ↔ ∃ r, r ∈ d ∧ Building r = Some k)
     ∧ (∀ k s, (k, s) ∈ stats →
          let vs := values_of k d in
          total_kWh s = series_sum vs
          ∧ mean_kWh s = Some (series_sum vs / count vs)%Qc
          ∧ (∃ lo, min_kWh s = Some lo ∧ lo ∈ vs ∧ ∀ v, v ∈ vs → (lo ≤ v)%Qc)
          ∧ (∃ hi, max_kWh s = Some hi ∧ hi ∈ vs ∧ ∀ v, v ∈ vs → (v ≤ hi)%Qc))
     ∧ StronglySorted (λ a b, (total_kWh b.2 ≤ total_kWh a.2)%Qc) stats)
  ∧ (∀ self w t1 t2 t3,
       heap w !! df self
       = Some [mkRow t1 (Some "A"%string) (Q2Qc 10) None;
               mkRow t2 (Some "A"%string) (Q2Qc 20) None;
               mkRow t3 (Some "B"%string) (Q2Qc 5) None] →
       (calculate_summary_statistics self w).1.1
       = [("A"%string, mkStats (Some (Q2Qc 15)) (Some (Q2Qc 10)) (Some (Q2Qc 20)) (Q2Qc 30));
          ("B"%string, mkStats (Some (Q2Qc 5)) (Some (Q2Qc 5)) (Some (Q2Qc 5)) (Q2Qc 5))]).
Proof.
  split.
  - intros self w d stats self' w' Hd Hne Hrun.
    rewrite calculate_summary_statistics_run in Hrun.
    apply lookup_object in Hd. rewrite Hd in Hrun. simpl in Hrun.
    injection Hrun as <- <- <-. split; [done|].
    split; [rewrite summary_of_keys; apply NoDup_group_keys|].
    split; [intros k; rewrite summary_of_keys; apply elem_of_group_keys|].
    split.
    + intros k s [Hk ->]%elem_of_summary_of vs.
      pose proof (values_of_nonempty d k Hk) as Hvs. fold vs in Hvs. simpl.
      split; [done|]. split; [by apply series_mean_spec|].
      split; [by apply series_min_spec|by apply series_max_spec].
    + eapply StronglySorted_impl;
        [|apply (isort_StronglySorted total_geb total_geb_total total_geb_trans)].
      intros a b. unfold total_geb. by rewrite bool_decide_eq_true.
  - intros self w t1 t2 t3 Hd. rewrite calculate_summary_statistics_run.
    apply lookup_object in Hd. rewrite Hd. simpl.
    unfold summary_of. vm_compute isort.
    repeat (f_equal; try (apply Qc_is_canon; reflexivity)).
Qed.

(** C6 as the specification words it fails on the empty table of a new
    manager: the peak table is not an empty result afterwards, it is still
    unset. *)
Lemma empty_table_peak_stays_unset :
  let w0 := mkWorld {[ 0%nat := [] ]} [] in
  let m := init 0%nat w0 in
  let self' := (calculate_time_trends m.1 m.2).1.2 in
  ¬ (daily_totals self' = Some []
     ∧ weekly_avg_by_building self' = Some []
     ∧ peak_hours_by_building self' = Some []).
Proof. vm_compute. intros (_ & _ & H). discriminate H. Qed.

(** C6, amended. On an empty table one guard at the start of
    [calculate_time_trends] logs a warning, sets the daily totals and the
    weekly means to empty tables and returns them; nothing raises; the
    peak table is left as it was, which is unset on a new manager. *)
Theorem time_trends_on_empty_table :
  (∀ self w,
     heap w !! df self = Some [] →
     ∃ self' w',
       calculate_time_trends self w = ((([], []), self'), w')
       ∧ daily_totals self' = Some []
       ∧ weekly_avg_by_building self' = Some []
       ∧ peak_hours_by_building self' = peak_hours_by_building self
       ∧ summary_stats self' = summary_stats self
       ∧ heap w' = heap w
       ∧ log w' = log w ++ [(WARNING, EmptyTrends)])
  ∧ (∀ df_combined w,
       heap w !! df_combined = Some [] →
       let m := init df_combined w in
       peak_hours_by_building (calculate_time_trends m.1 m.2).1.2 = None).
Proof.
  split.
  - intros self w Hd. apply lookup_object in Hd.
    rewrite calculate_time_trends_run, Hd. by eexists _, _.
  - intros df_combined w Hd. apply lookup_object in Hd. simpl.
    rewrite calculate_time_trends_run. simpl.
    by rewrite lookup_total_insert_eq, Hd.
Qed.

(** C8. [__init__] stores a copy: a new object with the rows of the
    caller's table.  Neither aggregation changes an object that exists when
    it is called, so [self.df] and the caller's table hold the same rows
    afterwards, and [self.df] is still the same object. *)
Theorem aggregation_leaves_tables_unchanged :
  (∀ df_combined w d,
     heap w !! df_combined = Some d →
     let m := init df_combined w in
     df m.1 ≠ df_combined
     ∧ heap m.2 !! df m.1 = Some d
     ∧ ∀ l d', heap w !! l = Some d' → heap m.2 !! l = Some d')
  ∧ (∀ self w,
       let r := calculate_summary_statistics self w in
       df r.1.2 = df self
       ∧ ∀ l d', heap w !! l = Some d' → heap r.2 !! l = Some d')
  ∧ (∀ self w,
       let r := calculate_time_trends self w in
       df r.1.2 = df self
       ∧ ∀ l d', heap w !! l = Some d' → heap r.2 !! l = Some d').
Proof.
  assert (∀ (w : World) l (d' : DataFrame), heap w !! l = Some d' →
            l ≠ fresh (dom (heap w))) as Hfresh.
  { intros w l d' Hl. apply fresh_not_allocated, elem_of_dom. by eexists. }
  split; [|split].
  - intros df_combined w d Hd. rewrite init_run. simpl.
    split; [intros E; by apply (Hfresh _ _ _ Hd)|].
    split; [rewrite lookup_insert_eq; f_equal; by apply lookup_object|].
    intros l d' Hl. rewrite lookup_insert_ne; [done|].
    intros E. by apply (Hfresh _ _ _ Hl).
  - intros self w. rewrite calculate_summary_statistics_run. by simpl.
  - intros self w. rewrite calculate_time_trends_run.
    destruct (heap w !!! df self) as [|r d]; simpl; [done|].
    split; [done|]. intros l d' Hl. rewrite lookup_insert_ne; [done|].
    intros E. by apply (Hfresh _ _ _ Hl).
Qed.

Section Runs.
Variable to_datetime : list cell → list (option Z).
Variable to_numeric : cell → option Qc.

Lemma ingest_data_shape data_dir :
  ∃ d, ∀ w, ∃ lg,
    ingest_data to_datetime to_numeric data_dir w
    = (fresh (dom (heap w)), mkWorld (<[fresh (dom (heap w)) := d]> (heap w)) lg).
Proof.
  destruct data_dir as [|entries].
  - exists []. intros w. by eexists.
  - eexists. intros w.
    destruct (ingest_data_run to_datetime to_numeric entries w) as (ms & -> & _).
    by eexists.
Qed.

(** What the pipeline computes is a function of the input directory: the
    store and the log it starts from play no part. *)
Lemma pipeline_results_from_input data_dir :
  ∃ res, ∀ w, results (pipeline to_datetime to_numeric data_dir w).1 = res.
Proof.
  destruct (ingest_data_shape data_dir) as [d Hd].
  exists (if d is [] then (Some [], Some [], Some [], None)
          else (Some (summary_of d), Some (resample_D_sum d), Some (weekly_of d),
                Some (peaks_of d))).
  intros w. destruct (Hd w) as [lg Hw].
  unfold pipeline, mbind, M_bind at 1. rewrite Hw.
  unfold M_bind at 1. rewrite init_run. simpl.
  rewrite lookup_total_insert_eq.
  unfold M_bind at 1. rewrite calculate_summary_statistics_run. simpl.
  rewrite lookup_total_insert_eq.
  unfold M_bind. rewrite calculate_time_trends_run. simpl.
  rewrite lookup_total_insert_eq.
  by destruct d.
Qed.

(** C7. Two runs of the pipeline, the second in the world the first one
    leaves behind, over the same input directory give the same summary
    statistics and the same trends. *)
Theorem pipeline_twice_same_results data_dir w :
  let r1 := pipeline to_datetime to_numeric data_dir w in
  let r2 := pipeline to_datetime to_numeric data_dir r1.2 in
  results r1.1 = results r2.1.
Proof.
  simpl. destruct (pipeline_results_from_input data_dir) as [res Hres].
  by rewrite !Hres.
Qed.
End Runs.
End ManagerFacts.

(** * Facts about the peak table *)

Section PeakFacts.
Import Energy Observe.
Open Scope Qc_scope.

Lemma first_max_invariant (g : DataFrame) : ∀ p b,
  first_greatest p b → first_greatest (p ++ g) (first_max b g).
Proof.
  unfold first_max.
  induction g as [|x g IH]; intros p b Hb; simpl.
  - by rewrite app_nil_r.
  - replace (p ++ x :: g) with ((p ++ [x]) ++ g) by by rewrite <-(assoc_L (++)).
    apply IH. destruct Hb as (i & Hi & Hle & Hlt).
    case_bool_decide as Hx.
    + exists (length p). split; [by rewrite lookup_app_r, Nat.sub_diag|].
      split.
      * intros y [Hy|Hy%list_elem_of_singleton]%elem_of_app;
          [|subst y; apply Qcle_refl].
        apply Qclt_le_weak. eapply Qcle_lt_trans; [by apply Hle|done].
      * intros j y Hj Hy. rewrite lookup_app_l in Hy by done.
        eapply Qcle_lt_trans; [|exact Hx]. apply Hle.
        apply list_elem_of_lookup. by exists j.
    + exists i. split; [by apply lookup_app_l_Some|].
      split.
      * intros y [Hy|Hy%list_elem_of_singleton]%elem_of_app; [by apply Hle|].
        subst y. by apply Qcnot_lt_le.
      * intros j y Hj Hy. apply (Hlt j y Hj).
        rewrite lookup_app_l in Hy; [done|].
        apply lookup_lt_Some in Hi. lia.
Qed.

Lemma first_max_first_greatest r g : first_greatest (r :: g) (first_max r g).
Proof.
  apply (first_max_invariant g [r] r). exists 0%nat.
  split; [done|]. split.
  - intros x ->%list_elem_of_singleton. apply Qcle_refl.
  - intros j x Hj. lia.
Qed.

Lemma filter_none {A} (P : A → Prop) `{!∀ x, Decision (P x)} (l : list A) :
  (∀ x, x ∈ l → ¬ P x) → filter P l = [].
Proof.
  induction l as [|x l IH]; intros Hl; [done|].
  rewrite filter_cons, decide_False by (apply Hl; left).
  apply IH. intros y Hy. apply Hl. by right.
Qed.

Lemma loc_unique_label (g : DataFrame) m :
  NoDup (Timestamp <$> g) → m ∈ g → loc g (Timestamp m) = [m].
Proof.
  unfold loc. induction g as [|x g IH]; intros Hnd Hm; [by apply elem_of_nil in Hm|].
  rewrite fmap_cons in Hnd. apply NoDup_cons in Hnd as [Hx Hnd].
  rewrite filter_cons. apply elem_of_cons in Hm as [->|Hm].
  - rewrite decide_True by done. f_equal.
    apply filter_none. intros y Hy E. apply Hx.
    rewrite <-E. apply list_elem_of_fmap. by exists y.
  - rewrite decide_False; [by apply IH|].
    intros E. apply Hx. rewrite E. apply list_elem_of_fmap. by exists m.
Qed.

Lemma group_keys_set_Hour d : group_keys (set_Hour d) = group_keys d.
Proof.
  unfold group_keys. do 2 f_equal. induction d as [|r d IH]; [done|].
  csimpl. by rewrite IH.
Qed.

Lemma group_rows_set_Hour k d : group_rows k (set_Hour d) = set_Hour (group_rows k d).
Proof.
  unfold group_rows. induction d as [|r d IH]; [done|].
  csimpl. rewrite !filter_cons. simpl.
  destruct (decide (Building r = Some k)); csimpl; by rewrite IH.
Qed.

Lemma idxmax_first_greatest (g : DataFrame) :
  g ≠ [] → ∃ m, idxmax g = Some (Timestamp m) ∧ first_greatest g m.
Proof.
  destruct g as [|r g]; [done|]. intros _. exists (first_max r g).
  split; [done|]. apply first_max_first_greatest.
Qed.

Lemma peak_of_group_distinct_timestamps (g : DataFrame) :
  g ≠ [] → NoDup (Timestamp <$> g) →
  ∃ m, first_greatest g m
       ∧ peak_of_group (set_Hour g) = [mkPeak (Some (hour (Timestamp m))) (kWh m)].
Proof.
  intros Hne Hnd.
  destruct (idxmax_first_greatest (set_Hour g)) as (m' & Hidx & i & Hi & Hle & Hlt).
  { intros E. by apply fmap_nil_inv in E. }
  pose proof Hi as Hi'.
  unfold set_Hour in Hi'. apply list_lookup_fmap_Some in Hi' as (m & Em & Hm).
  exists m. split.
  - exists i. split; [done|]. split.
    + intros x Hx. rewrite Em in Hle.
      apply (Hle (mkRow (Timestamp x) (Building x) (kWh x) (Some (hour (Timestamp x))))).
      apply list_elem_of_fmap. by exists x.
    + intros j x Hj Hx. rewrite Em in Hlt.
      apply (Hlt j (mkRow (Timestamp x) (Building x) (kWh x) (Some (hour (Timestamp x)))) Hj).
      unfold set_Hour. by rewrite list_lookup_fmap, Hx.
  - unfold peak_of_group. rewrite Hidx, loc_unique_label.
    + by rewrite Em.
    + unfold set_Hour. rewrite <-list_fmap_compose.
      erewrite list_fmap_ext; [exact Hnd|]. done.
    + apply list_elem_of_lookup. by exists i.
Qed.

(** When the rows of a building carry distinct timestamps, the peak table
    holds for the building one row: the hour and the value of the first row
    of the building that holds its greatest value. *)
Lemma peak_hours_with_distinct_timestamps self w d k :
  heap w !! df self = Some d →
  (∃ r, r ∈ d ∧ Building r = Some k) →
  NoDup (Timestamp <$> group_rows k d) →
  ∃ m peaks,
    peak_hours_by_building (calculate_time_trends self w).1.2 = Some peaks
    ∧ first_greatest (group_rows k d) m
    ∧ ∀ ps, (k, ps) ∈ peaks ↔ ps = [mkPeak (Some (hour (Timestamp m))) (kWh m)].
Proof.
  intros Hd Hk Hnd. apply lookup_object in Hd.
  assert (d ≠ []) as Hne.
  { destruct Hk as (r & Hr & _). intros ->. by apply elem_of_nil in Hr. }
  apply elem_of_group_keys in Hk.
  assert (group_rows k d ≠ []) as Hg.
  { intros E. apply (values_of_nonempty d k Hk). unfold values_of.
    unfold group_rows in E. by rewrite E. }
  destruct (peak_of_group_distinct_timestamps _ Hg Hnd) as (m & Hm & Hpeak).
  exists m, (peaks_of d). split.
  { rewrite calculate_time_trends_run, Hd. by destruct d. }
  split; [done|]. intros ps. unfold peaks_of, groupby_Building.
  rewrite <-list_fmap_compose, list_elem_of_fmap, group_keys_set_Hour. simpl. split.
  - intros (k' & E & _). injection E as <- ->.
    by rewrite group_rows_set_Hour.
  - intros ->. exists k. by rewrite group_rows_set_Hour, Hpeak.
Qed.

(** C5, at an input where the code departs from it.  Building A has two
    rows with the same timestamp, with values 10 and 5.  The label-based
    selection [g.loc[g['kWh'].idxmax()]] returns both rows, so the peak
    table holds two rows for A, one of them with the value 5, which is not
    the greatest value of A.  The same happens from a CSV file that repeats
    a timestamp, through the whole pipeline. *)
Theorem peak_hours_repeated_timestamp :
  (let d := [mkRow 0 (Some "A"%string) (Q2Qc 10) None;
             mkRow 0 (Some "A"%string) (Q2Qc 5) None] in
   let w := mkWorld {[ 0%nat := d ]} [] in
   let self := mkManager 0%nat None None None None in
   peak_hours_by_building (calculate_time_trends self w).1.2
   = Some [("A"%string, [mkPeak (Some 0%Z) (Q2Qc 10); mkPeak (Some 0%Z) (Q2Qc 5)])])
  ∧ (let data_dir := Directory [("a.csv"%string, Returns Sample.repeated_csv)] in
     peak_hours_by_building
       (pipeline Sample.to_datetime Sample.to_numeric data_dir Sample.empty_world).1
     = Some [("A"%string, [mkPeak (Some 5%Z) (Q2Qc 10); mkPeak (Some 5%Z) (Q2Qc 5)])]).
Proof. split; vm_compute; reflexivity. Qed.
End PeakFacts.

(** * Facts about the calorie tracker *)

Section TrackerFacts.
Import Tracker.
Variable int : string → option Z.
Variable float : string → option Qc.
Variables strip upper lower : string → string.

Lemma len_nonzero {A} (l : list A) : l ≠ [] → len l ≠ Q2Qc 0.
Proof.
  destruct l as [|x l]; [done|]. intros _ E. unfold len in E.
  apply Q2Qc_eq_iff in E. unfold Qeq in E. simpl in E. lia.
Qed.

Lemma print_rows_run t s :
  print_rows t s
  = (Ok tt, mkState (stdin s)
              (stdout s ++ ((λ p : nat * string * Qc, TableRow p.1.1 p.1.2 p.2) <$> t))
              (calorie_log s)).
Proof.
  revert s. induction t as [|[[i m] c] t IH]; intros s; simpl.
  - rewrite app_nil_r. by destruct s.
  - unfold mbind, IO_bind, print at 1. simpl. rewrite IH. simpl.
    by rewrite <-(assoc_L (++)).
Qed.

Lemma meal_loop_length range : ∀ names cals s names' cals' s',
  meal_loop float strip upper range names cals s = (Ok (names', cals'), s') →
  length cals' = (length cals + length range)%nat.
Proof.
  induction range as [|i range IH]; intros names cals s names' cals' s' Hrun.
  - simpl in Hrun. injection Hrun as <- <- <-. simpl. lia.
  - simpl in Hrun. unfold mbind, IO_bind at 1, input in Hrun.
    destruct (stdin s) as [|line rest]; [done|].
    destruct (split_comma (strip line)) as [|meal [|cal [|? ?]]]; try done.
    unfold IO_bind at 1, convert in Hrun.
    destruct (float (strip cal)) as [c|]; [|done]. simpl in Hrun.
    apply IH in Hrun. rewrite length_app in Hrun. simpl in *. lia.
Qed.

(** C10. The average printed is the sum of the calorie values over their
    number whenever at least one meal was entered, and the division has no
    guard: with a number of meals of zero (or less) the script prints the
    empty table and stops with [ZeroDivisionError]. *)
Theorem average_is_total_over_count :
  (∀ s names cals limit s1,
     read_meals int float strip upper s = (Ok (names, cals, limit), s1) →
     cals ≠ [] →
     ∃ r s2, script int float strip upper lower s = (r, s2)
             ∧ r ≠ Raise ZeroDivisionError
             ∧ Average (py_sum cals / len cals)%Qc ∈ stdout s2)
  ∧ (∀ s l1 l2 rest n limit,
       stdin s = l1 :: l2 :: rest →
       int l1 = Some n → (n ≤ 0)%Z → float l2 = Some limit →
       script int float strip upper lower s
       = (Raise ZeroDivisionError,
          mkState rest
            (stdout s ++ [Banner; Prompt "ENTER HOW MANY MEALS YOU WANT TO ADD: "; Blank;
                          Prompt "ENTER YOUR DAILY CALORIE LIMIT: "; Blank;
                          TableHeader; Rule; Rule])
            (calorie_log s))).
Proof.
  split.
  - intros s names cals limit s1 Hread Hne.
    unfold script, mbind, IO_bind at 1. rewrite Hread. simpl.
    unfold report, mbind, IO_bind at 1, print at 1. simpl.
    unfold IO_bind at 1, print at 1. simpl.
    unfold IO_bind at 1. rewrite print_rows_run. simpl.
    unfold IO_bind at 1, print at 1. simpl.
    unfold IO_bind at 1, truediv.
    rewrite bool_decide_eq_false_2 by by apply len_nonzero.
    unfold mret, IO_ret at 1.
    unfold IO_bind at 1, print at 1. simpl.
    unfold IO_bind at 1, print at 1. simpl.
    unfold IO_bind at 1.
    set (avg := (py_sum cals / len cals)%Qc).
    match goal with
    | |- context [ (if ?b then print Exceeded else print Within) ?st ] =>
        assert (∃ o, (if b then print Exceeded else print Within) st
                     = (Ok tt, mkState (stdin st) (stdout st ++ [o]) (calorie_log st)))
          as [o ->] by (destruct b; by eexists)
    end.
    simpl. unfold IO_bind at 1, input. simpl.
    destruct (stdin s1) as [|line rest].
    { eexists _, _. split; [done|]. split; [done|]. simpl. set_solver. }
    case_bool_decide.
    + unfold IO_bind, write_report, print. simpl.
      eexists _, _. split; [done|]. split; [done|]. simpl. set_solver.
    + unfold print. simpl.
      eexists _, _. split; [done|]. split; [done|]. simpl. set_solver.
  - intros [sin sout lg] l1 l2 rest n limit Hin Hint Hle Hfloat. simpl in Hin. subst sin.
    unfold script, read_meals, mbind, IO_bind, print, input, convert. simpl.
    rewrite Hint. simpl. rewrite Hfloat. simpl.
    replace (Z.to_nat n) with 0%nat by lia. simpl.
    unfold report, mbind, IO_bind, print, truediv. simpl.
    by rewrite <-!(assoc_L (++)).
Qed.
End TrackerFacts.

(** * Facts about the gradebook *)

Section GradebookFacts.
Import Gradebook.
Context {Files Grades : Type}.
Variable strip : string → string.
Variable get_manual_input : IO Files Marks.
Variable load_csv_data : string → IO Files Marks.
Variable append_student_record : string → IO Files unit.
Variable assign_grades : Marks → Grades.
Variable print_summary : Marks → Grades → IO Files unit.

(** The name the guard reads is bound nowhere; the name the interpreter
    binds is [__name__]. *)
Lemma guard_name_unbound :
  load_name (initial_globals ++ module_bindings) "_name_" = Raise (NameError "_name_")
  ∧ load_name (initial_globals ++ module_bindings) "__name__" = Ok (Str "__main__").
Proof. split; vm_compute; reflexivity. Qed.

(** [main], were it called, shows the menu and leaves on option 4. *)
Lemma main_leaves_on_option_4 n s rest :
  strip "4" = "4"%string → stdin Files s = "4"%string :: rest →
  main Files strip Grades get_manual_input load_csv_data append_student_record
    assign_grades print_summary (S n) s
  = (Ended (Ok tt),
     mkState Files rest
       (stdout Files s ++ [String "010" "=== GRADEBOOK ANALYZER ===";
                           String "010" "1. Manual Entry"; "2. Load from CSV";
                           "3. Add Student to CSV"; "4. Exit";
                           "Select an option (1-4): "; "Goodbye!"]%string)
       (files Files s)).
Proof.
  intros Hstrip Hin. destruct s as [sin sout fs]. simpl in Hin. subst sin.
  unfold main, print. simpl.
  unfold round, mbind, IO_bind, print, input. simpl. rewrite Hstrip. simpl.
  by rewrite <-!(assoc_L (++)).
Qed.

(** C9, at every input.  Run as a script, the module stops at its last
    statement with [NameError]: the guard reads [_name_], which no statement
    binds.  [main] is not called, no menu is shown and no input is read. *)
Theorem script_stops_with_NameError n s :
  script Files strip Grades get_manual_input load_csv_data append_student_record
    assign_grades print_summary n s
  = (Ended (Raise (NameError "_name_")), s).
Proof.
  unfold script, guard.
  by rewrite (proj1 guard_name_unbound).
Qed.
End GradebookFacts.

(** * More on ingestion *)

Section IngestOrder.
Import Energy Observe.
Variable to_datetime : list cell → list (option Z).
Variable to_numeric : cell → option Qc.

Lemma sorted_Permutation_eq {A} (R : A → A → Prop) (l1 l2 : list A) :
  (∀ x y, x ∈ l1 → y ∈ l1 → R x y → R y x → x = y) →
  StronglySorted R l1 → StronglySorted R l2 → l1 ≡ₚ l2 → l1 = l2.
Proof.
  revert l2. induction l1 as [|x l1 IH]; intros l2 Hanti H1 H2 Hp.
  - by apply Permutation_nil_l in Hp.
  - destruct l2 as [|y l2]; [by apply Permutation_nil_r in Hp|].
    apply StronglySorted_inv in H1 as [H1 Hx]. apply StronglySorted_inv in H2 as [H2 Hy].
    rewrite Forall_forall in Hx, Hy.
    assert (x = y) as <-.
    { assert (x ∈ y :: l2) as Hxin by (rewrite <-Hp; left).
      assert (y ∈ x :: l1) as Hyin by (rewrite Hp; left).
      apply elem_of_cons in Hxin as [?|Hxin]; [done|].
      apply elem_of_cons in Hyin as [?|Hyin]; [done|].
      apply Hanti; [left|by right|by apply Hx|by apply Hy]. }
    f_equal. apply IH; [|done|done|by apply Permutation_cons_inv in Hp].
    intros a b Ha Hb. apply Hanti; by right.
Qed.

Lemma NoDup_fst_inj {A B} (l : list (A * B)) x y :
  NoDup l.*1 → x ∈ l → y ∈ l → x.1 = y.1 → x = y.
Proof.
  induction l as [|z l IH]; intros Hnd Hx Hy E; [by apply elem_of_nil in Hx|].
  rewrite fmap_cons in Hnd. apply NoDup_cons in Hnd as [Hz Hnd].
  apply elem_of_cons in Hx as [->|Hx]; apply elem_of_cons in Hy as [->|Hy].
  - done.
  - destruct Hz. rewrite E. apply list_elem_of_fmap. by exists y.
  - destruct Hz. rewrite <-E. apply list_elem_of_fmap. by exists x.
  - by apply IH.
Qed.

(** X1. The order in which the directory lists its entries plays no part: the
    files are taken in the order of their names. *)
Theorem ingest_ignores_listing_order entries entries' w w' :
  entries ≡ₚ entries' → NoDup entries.*1 →
  ingested to_datetime to_numeric (Directory entries) w
  = ingested to_datetime to_numeric (Directory entries') w'.
Proof.
  intros Hp Hnd. rewrite !ingested_Directory. do 3 f_equal.
  unfold sorted_csv_files.
  apply (sorted_Permutation_eq (λ a b, name_leb a b = true)).
  - intros x y Hx Hy Hxy Hyx.
    rewrite elem_of_isort in Hx, Hy. unfold glob_csv in Hx, Hy.
    apply list_elem_of_filter in Hx as [_ Hx]. apply list_elem_of_filter in Hy as [_ Hy].
    apply (NoDup_fst_inj entries); [done..|]. by apply String.leb_antisym.
  - apply isort_StronglySorted; [apply name_leb_total|apply name_leb_trans].
  - apply isort_StronglySorted; [apply name_leb_total|apply name_leb_trans].
  - rewrite !isort_Permutation. unfold glob_csv. by rewrite Hp.
Qed.

Lemma numeric_kWh_concat (blocks : list (list (Row cell))) :
  numeric_kWh to_numeric (concat blocks) = concat (numeric_kWh to_numeric <$> blocks).
Proof.
  induction blocks as [|b blocks IH]; [done|].
  simpl. unfold numeric_kWh in *. by rewrite omap_app, IH.
Qed.

Lemma numeric_kWh_sorted (b : list (Row cell)) :
  StronglySorted (λ r1 r2, Timestamp r1 ≤ Timestamp r2) b →
  StronglySorted (λ r1 r2 : Row Qc, Timestamp r1 ≤ Timestamp r2) (numeric_kWh to_numeric b).
Proof.
  induction 1 as [|r b _ IH Hr]; [constructor|].
  unfold numeric_kWh in *. csimpl.
  destruct (to_numeric (kWh r)) as [v|]; csimpl; [|done].
  constructor; [done|]. apply Forall_forall.
  intros c (r' & Hr' & Hc)%list_elem_of_omap.
  destruct (to_numeric (kWh r')); [|done]. simpl in Hc. injection Hc as <-. simpl.
  rewrite Forall_forall in Hr. by apply Hr.
Qed.

Lemma length_omap_is_Some {A B} (f : A → option B) (l : list A) :
  length (omap f l) = length (filter (λ x, is_Some (f x)) l).
Proof.
  induction l as [|x l IH]; [done|].
  rewrite filter_cons. csimpl.
  destruct (decide (is_Some (f x))) as [[y E]|E].
  - rewrite E. simpl. by rewrite IH.
  - destruct (f x); [by destruct E|done].
Qed.

Lemma ts_leb_total r1 r2 : ts_leb r1 r2 = true ∨ ts_leb r2 r1 = true.
Proof.
  unfold ts_leb. destruct (decide (Timestamp r1 ≤ Timestamp r2)).
  - left. by apply bool_decide_eq_true.
  - right. apply bool_decide_eq_true. lia.
Qed.

Lemma ts_leb_trans r1 r2 r3 :
  ts_leb r1 r2 = true → ts_leb r2 r3 = true → ts_leb r1 r3 = true.
Proof. unfold ts_leb. rewrite !bool_decide_eq_true. lia. Qed.

Lemma file_frame_sorted f b :
  file_frame to_datetime f = Some b →
  StronglySorted (λ r1 r2, Timestamp r1 ≤ Timestamp r2) b.
Proof.
  unfold file_frame. destruct f.2 as [|t]; [done|].
  destruct (decide (has_required_columns t)); [|done]. intros [= <-].
  eapply StronglySorted_impl;
    [|apply (isort_StronglySorted ts_leb ts_leb_total ts_leb_trans)].
  intros r1 r2. unfold ts_leb. by rewrite bool_decide_eq_true.
Qed.

End IngestOrder.

(** * More on the time trends *)

Section TrendInvariants.
Import Energy Observe.

Lemma foldr_min_le t ts x : x ∈ t :: ts → foldr Z.min t ts ≤ x.
Proof.
  induction ts as [|y ts IH]; simpl.
  - intros Hx%list_elem_of_singleton. lia.
  - intros [Hx|[Hx|Hx]%elem_of_cons]%elem_of_cons.
    + subst x. assert (foldr Z.min t ts ≤ t) by (apply IH; left). lia.
    + lia.
    + assert (foldr Z.min t ts ≤ x) by (apply IH; by right). lia.
Qed.

Lemma foldr_max_ge t ts x : x ∈ t :: ts → x ≤ foldr Z.max t ts.
Proof.
  induction ts as [|y ts IH]; simpl.
  - intros Hx%list_elem_of_singleton. lia.
  - intros [Hx|[Hx|Hx]%elem_of_cons]%elem_of_cons.
    + subst x. assert (t ≤ foldr Z.max t ts) by (apply IH; left). lia.
    + lia.
    + assert (x ≤ foldr Z.max t ts) by (apply IH; by right). lia.
Qed.

Lemma foldr_min_attained t ts :
  foldr Z.min t ts ∈ t :: ts.
Proof.
  induction ts as [|y ts IH]; simpl; [left|].
  destruct (Z.min_spec y (foldr Z.min t ts)) as [[_ ->]|[_ ->]].
  - right; left.
  - apply elem_of_cons in IH as [->|IH]; [left|by do 2 right].
Qed.

Lemma foldr_max_attained t ts :
  foldr Z.max t ts ∈ t :: ts.
Proof.
  induction ts as [|y ts IH]; simpl; [left|].
  destruct (Z.max_spec y (foldr Z.max t ts)) as [[_ ->]|[_ ->]].
  - apply elem_of_cons in IH as [->|IH]; [left|by do 2 right].
  - right; left.
Qed.

Lemma filter_none_of {A} (P : A → Prop) `{!∀ x, Decision (P x)} (l : list A) :
  (∀ x, x ∈ l → ¬ P x) → filter P l = [].
Proof.
  induction l as [|x l IH]; [done|]. intros Hl.
  rewrite filter_cons, decide_False; [|apply Hl; left].
  apply IH. intros y Hy. apply Hl. by right.
Qed.

Lemma day_mono a b : a ≤ b → day a ≤ day b.
Proof. intros. unfold day. by apply Z.div_le_mono. Qed.

Lemma resample_D_sum_days r d :
  let ts := Timestamp <$> d in
  let lo := day (foldr Z.min (Timestamp r) ts) in
  let hi := day (foldr Z.max (Timestamp r) ts) in
  resample_D_sum (r :: d)
  = (λ dy, (dy * ns_per_day,
            series_sum (kWh <$> filter (λ x, day (Timestamp x) = dy) (r :: d))))
      <$> seqZ lo (hi - lo + 1)
  ∧ ∀ x, x ∈ r :: d → day (Timestamp x) ∈ seqZ lo (hi - lo + 1).
Proof.
  intros ts lo hi. split; [done|]. intros x Hx.
  assert (Timestamp x ∈ Timestamp r :: ts) as Hin.
  { change (Timestamp x ∈ Timestamp <$> r :: d). apply list_elem_of_fmap. by exists x. }
  pose proof (day_mono _ _ (foldr_min_le _ _ _ Hin)).
  pose proof (day_mono _ _ (foldr_max_ge _ _ _ Hin)).
  apply elem_of_seqZ. unfold lo, hi. lia.
Qed.

(** X3. The daily table has one bucket for every calendar day from the day of
    the earliest row to the day of the latest one, in order and without
    gaps, whether the day has rows or not.  Every row falls in the bucket of
    its day, a bucket holds the sum of the rows of its day, and the bucket of
    a day without rows holds 0. *)
Theorem daily_buckets_cover_the_span self w d :
  heap w !! df self = Some d →
  let daily := (calculate_time_trends self w).1.1.1 in
  (∀ r, r ∈ d → day (Timestamp r) * ns_per_day ∈ daily.*1)
  ∧ (∀ i t1 t2, daily.*1 !! i = Some t1 → daily.*1 !! S i = Some t2 →
       t2 = t1 + ns_per_day)
  ∧ (∀ t v, (t, v) ∈ daily →
       ∃ dy first last,
         t = dy * ns_per_day ∧ first ∈ d ∧ last ∈ d
         ∧ day (Timestamp first) ≤ dy ≤ day (Timestamp last)
         ∧ v = series_sum (kWh <$> filter (λ r, day (Timestamp r) = dy) d)
         ∧ ((∀ r, r ∈ d → day (Timestamp r) ≠ dy) → v = 0%Qc)).
Proof.
  intros Hd. apply lookup_object in Hd.
  rewrite calculate_time_trends_run, Hd.
  destruct d as [|r d]; simpl.
  { split; [by intros r Hr%elem_of_nil|]. split; [by intros i t1 t2 Hi|].
    by intros t v Hin%elem_of_nil. }
  destruct (resample_D_sum_days r d) as [-> Hdays].
  pose proof (foldr_min_attained (Timestamp r) (Timestamp <$> d)) as Hlo.
  pose proof (foldr_max_attained (Timestamp r) (Timestamp <$> d)) as Hhi.
  change (Timestamp r :: (Timestamp <$> d)) with (Timestamp <$> r :: d) in Hlo, Hhi.
  apply list_elem_of_fmap in Hlo as (first & Efirst & Hfirst).
  apply list_elem_of_fmap in Hhi as (last & Elast & Hlast).
  set (lo := day (foldr Z.min (Timestamp r) (Timestamp <$> d))) in *.
  set (n := day (foldr Z.max (Timestamp r) (Timestamp <$> d)) - lo + 1) in *.
  rewrite <-!list_fmap_compose. split; [|split].
  - intros x Hx. apply list_elem_of_fmap. exists (day (Timestamp x)).
    split; [done|]. by apply Hdays.
  - intros i t1 t2 H1 H2. rewrite list_lookup_fmap in H1, H2.
    destruct (seqZ lo n !! i) as [d1|] eqn:E1; [|done].
    destruct (seqZ lo n !! S i) as [d2|] eqn:E2; [|done].
    apply lookup_seqZ in E1 as [-> _]. apply lookup_seqZ in E2 as [-> _].
    simpl in *. injection H1 as <-. injection H2 as <-. unfold ns_per_day. lia.
  - intros t v (dy & [= -> ->] & Hdy%elem_of_seqZ)%list_elem_of_fmap.
    exists dy, first, last. split; [done|]. split; [done|]. split; [done|].
    split; [subst lo n; rewrite <- Efirst, <- Elast; lia|]. split; [done|].
    intros Hnone. rewrite (filter_none_of (λ x, day (Timestamp x) = dy)); [done|].
    exact Hnone.
Qed.

Lemma hour_range t : 0 ≤ hour t < 24.
Proof. unfold hour. by apply Z.mod_pos_bound. Qed.

(** X4. When no building has two rows with the same timestamp, the peak table
    has exactly one row for each building of the table: the hour of the day,
    between 0 and 23, and the value of the first row of the building that
    holds its greatest value. *)
Theorem peak_table_one_row_per_building self w d :
  heap w !! df self = Some d →
  (∃ r, r ∈ d ∧ is_Some (Building r)) →
  (∀ k, NoDup (Timestamp <$> group_rows k d)) →
  ∃ peaks,
    peak_hours_by_building (calculate_time_trends self w).1.2 = Some peaks
    ∧ NoDup peaks.*1
    ∧ (∀ k, k ∈ peaks.*1 ↔ ∃ r, r ∈ d ∧ Building r = Some k)
    ∧ ∀ k ps, (k, ps) ∈ peaks →
        ∃ m, first_greatest (group_rows k d) m
             ∧ ps = [mkPeak (Some (hour (Timestamp m))) (kWh m)]
             ∧ 0 ≤ hour (Timestamp m) < 24.
Proof.
  intros Hd (r0 & Hr0 & _) Hnd. apply lookup_object in Hd. exists (peaks_of d).
  assert ((peaks_of d).*1 = group_keys d) as Hkeys.
  { unfold peaks_of, groupby_Building. rewrite group_keys_set_Hour, <-list_fmap_compose.
    induction (group_keys d) as [|k ks IH]; [done|]. csimpl. by rewrite IH. }
  split.
  { rewrite calculate_time_trends_run, Hd. destruct d; [by apply elem_of_nil in Hr0|done]. }
  rewrite Hkeys. split; [apply NoDup_group_keys|]. split; [apply elem_of_group_keys|].
  intros k ps Hin. unfold peaks_of, groupby_Building in Hin.
  rewrite <-list_fmap_compose in Hin. apply list_elem_of_fmap in Hin as (k' & E & Hk).
  simpl in E. injection E as <- ->. rewrite group_keys_set_Hour in Hk.
  rewrite group_rows_set_Hour.
  assert (group_rows k d ≠ []) as Hg.
  { intros E. apply (values_of_nonempty d k Hk). unfold values_of.
    unfold group_rows in E. by rewrite E. }
  destruct (peak_of_group_distinct_timestamps _ Hg (Hnd k)) as (m & Hm & ->).
  exists m. split; [done|]. split; [done|]. apply hour_range.
Qed.
End TrendInvariants.

(** * Facts about the reporting stage *)

Section ReportingFacts.
Import Energy Observe Reporting.

Lemma summary_of_nil : summary_of [] = [].
Proof. done. Qed.

Lemma summary_of_nonempty d :
  (∃ r, r ∈ d ∧ is_Some (Building r)) → summary_of d ≠ [].
Proof.
  intros (r & Hr & k & Hk) E.
  assert (k ∈ (summary_of d).*1) as Hin.
  { rewrite summary_of_keys. apply elem_of_group_keys. by exists r. }
  rewrite E in Hin. by apply elem_of_nil in Hin.
Qed.

Lemma summary_of_sorted d :
  StronglySorted (λ a b, (total_kWh b.2 ≤ total_kWh a.2)%Qc) (summary_of d).
Proof.
  eapply StronglySorted_impl;
    [|apply (isort_StronglySorted total_geb total_geb_total total_geb_trans)].
  intros a b. unfold total_geb. by rewrite bool_decide_eq_true.
Qed.

(** On a table sorted by descending total, the first greatest total is the
    one of the first row. *)
Lemma idxmax_total_head p rest :
  StronglySorted (λ a b, (total_kWh b.2 ≤ total_kWh a.2)%Qc) (p :: rest) →
  idxmax_total p rest = p.1.
Proof.
  intros Hs. apply StronglySorted_inv in Hs as [_ Hp]. unfold idxmax_total. f_equal.
  induction rest as [|x rest IH]; [done|]. simpl.
  apply Forall_cons in Hp as [Hx Hp].
  rewrite bool_decide_eq_false_2; [by apply IH|]. by apply Qcle_not_lt.
Qed.

Lemma headline_sorted b s rest :
  StronglySorted (λ a b, (total_kWh b.2 ≤ total_kWh a.2)%Qc) ((b, s) :: rest) →
  headline (b, s) rest
  = [TotalConsumption (total_consumption ((b, s) :: rest));
     HighestBuilding b (Some (total_kWh s))].
Proof.
  intros Hs. unfold headline. rewrite (idxmax_total_head _ _ Hs). simpl.
  by rewrite String.eqb_refl.
Qed.

(** What the head of the summary table is. *)
Lemma summary_of_head d b s rest :
  summary_of d = (b, s) :: rest →
  total_kWh s = series_sum (values_of b d)
  ∧ ∀ k s', (k, s') ∈ rest → (total_kWh s' ≤ total_kWh s)%Qc.
Proof.
  intros E. split.
  - assert ((b, s) ∈ summary_of d) as Hin by (rewrite E; left).
    by apply elem_of_summary_of in Hin as [_ ->].
  - pose proof (summary_of_sorted d) as Hs. rewrite E in Hs.
    apply StronglySorted_inv in Hs as [_ Hp]. rewrite Forall_forall in Hp.
    intros k s' Hin. by apply (Hp (k, s')).
Qed.


Lemma week_end_mono a b : a ≤ b → week_end a ≤ week_end b.
Proof. unfold week_end. intros. Z.to_euclidean_division_equations. lia. Qed.

Lemma resample_W_mean_nonempty (g : DataFrame) : g ≠ [] → resample_W_mean g ≠ [].
Proof.
  destruct g as [|r g]; [done|]. intros _. unfold resample_W_mean.
  change (Timestamp <$> r :: g) with (Timestamp r :: (Timestamp <$> g)). cbv zeta.
  set (lo := week_end (day (foldr Z.min (Timestamp r) (Timestamp <$> g)))).
  set (hi := week_end (day (foldr Z.max (Timestamp r) (Timestamp <$> g)))).
  assert (lo ≤ hi) as Hle.
  { apply week_end_mono, day_mono.
    transitivity (Timestamp r); [apply foldr_min_le; left|apply foldr_max_ge; left]. }
  assert (0 < (hi - lo) `div` 7 + 1) as Hpos.
  { assert (0 ≤ (hi - lo) `div` 7) by (apply Z.div_pos; lia). lia. }
  cbv iota beta. fold lo hi. by rewrite (seqZ_cons _ _ Hpos).
Qed.

Lemma weekly_of_not_empty d :
  (∃ r, r ∈ d ∧ is_Some (Building r)) → wide_empty (weekly_of d) = false.
Proof.
  intros (r & Hr & k & Hk).
  assert (k ∈ group_keys d) as Hin by (apply elem_of_group_keys; by exists r).
  unfold weekly_of, unstack, groupby_Building.
  set (W := (λ p : string * DataFrame, (p.1, resample_W_mean p.2))
              <$> ((λ k, (k, group_rows k d)) <$> group_keys d)).
  assert (W ≠ []) as HW.
  { unfold W. intros E. apply fmap_nil_inv, fmap_nil_inv in E.
    rewrite E in Hin. by apply elem_of_nil in Hin. }
  assert (∃ w, w ∈ isort Z.leb (remove_dups (mjoin ((λ p, p.2.*1) <$> W)))) as [w Hw].
  { assert (group_rows k d ≠ []) as Hg.
    { intros E. apply (values_of_nonempty d k Hin). unfold values_of.
      unfold group_rows in E. by rewrite E. }
    apply resample_W_mean_nonempty in Hg.
    destruct (resample_W_mean (group_rows k d)) as [|[w v] ws] eqn:E; [done|].
    exists w. rewrite elem_of_isort, elem_of_remove_dups, list_elem_of_join.
    exists ((w, v) :: ws).*1. split; [left|].
    apply list_elem_of_fmap. exists (k, (w, v) :: ws). split; [done|].
    unfold W. rewrite <-list_fmap_compose. apply list_elem_of_fmap. exists k.
    split; [by rewrite <-E|done]. }
  destruct (isort Z.leb (remove_dups (mjoin ((λ p, p.2.*1) <$> W)))) as [|w0 ws];
    [by apply elem_of_nil in Hw|].
  simpl. by destruct W.
Qed.

Lemma resample_D_sum_nonempty (d : DataFrame) : d ≠ [] → resample_D_sum d ≠ [].
Proof.
  destruct d as [|r d]; [done|]. intros _. unfold resample_D_sum.
  change (Timestamp <$> r :: d) with (Timestamp r :: (Timestamp <$> d)). cbv zeta iota beta.
  set (lo := day (foldr Z.min (Timestamp r) (Timestamp <$> d))).
  set (hi := day (foldr Z.max (Timestamp r) (Timestamp <$> d))).
  assert (lo ≤ hi) as Hle.
  { apply day_mono.
    transitivity (Timestamp r); [apply foldr_min_le; left|apply foldr_max_ge; left]. }
  assert (0 < hi - lo + 1) as Hpos by lia.
  by rewrite (seqZ_cons _ _ Hpos).
Qed.

Lemma peaks_of_nonempty d :
  (∃ r, r ∈ d ∧ is_Some (Building r)) → peaks_of d ≠ [].
Proof.
  intros (r & Hr & k & Hk) E.
  assert (k ∈ group_keys d) as Hin by (apply elem_of_group_keys; by exists r).
  unfold peaks_of, groupby_Building in E. apply fmap_nil_inv, fmap_nil_inv in E.
  rewrite group_keys_set_Hour in E. rewrite E in Hin. by apply elem_of_nil in Hin.
Qed.


Section Run.
Variable to_datetime : list cell → list (option Z).
Variable to_numeric : cell → option Qc.

(** The manager the pipeline leaves: the four results in terms of the
    ingested table. *)
Lemma pipeline_manager data_dir w :
  let D := ingested to_datetime to_numeric data_dir w in
  ∃ l w',
    pipeline to_datetime to_numeric data_dir w
    = (if D is [] then mkManager l (Some []) (Some []) (Some []) None
       else mkManager l (Some (summary_of D)) (Some (resample_D_sum D))
                      (Some (weekly_of D)) (Some (peaks_of D)),
       w').
Proof.
  destruct (ingest_data_shape to_datetime to_numeric data_dir) as [d Hd].
  destruct (Hd w) as [lg Hw]. unfold ingested. rewrite Hw. simpl.
  rewrite lookup_total_insert_eq.
  unfold pipeline, mbind, M_bind at 1. rewrite Hw.
  unfold M_bind at 1. rewrite init_run. simpl.
  rewrite lookup_total_insert_eq.
  unfold M_bind at 1. rewrite calculate_summary_statistics_run. simpl.
  rewrite lookup_total_insert_eq.
  unfold M_bind. rewrite calculate_time_trends_run. simpl.
  rewrite lookup_total_insert_eq.
  destruct d; by eexists _, _.
Qed.


(** X8. Lines 302-313 of [main] on a directory that gives no row: every panel is
    its placeholder text, the summary file is written without rows, and the
    console gets the fixed four lines under the title. *)
Theorem run_without_data data_dir e :
  ingested to_datetime to_numeric data_dir (world e) = [] → writable e = true →
  ∃ m e',
    run to_datetime to_numeric data_dir e = (Ok m, e')
    ∧ dashboard_png e'
      = Some (mkDashboard (Text "No Daily Data") (Text "No Weekly Data")
                (Text "No Peak Data") (Text "No summary available."))
    ∧ building_summary_csv e' = Some []
    ∧ console e'
      = console e ++ [ExecutiveSummary; NoDataAvailable; EnsureColumns; ReRun;
                      PlaceholdersNote].
Proof.
  intros HD Hw.
  destruct (pipeline_manager data_dir (world e)) as (l & w' & Hp). rewrite HD in Hp.
  unfold run, mbind, R_bind at 1, lift. rewrite Hp.
  unfold R_bind, generate_dashboard_plots, mbind, R_bind, savefig, info, export_results,
    mbind, R_bind, to_csv, print. simpl. rewrite Hw. simpl.
  by eexists _, _.
Qed.

End Run.
End ReportingFacts.

(** * More on the calorie tracker *)

Section TrackerMore.
Import Tracker TrackerObserve.
Variable int : string → option Z.
Variable float : string → option Qc.
Variables strip upper lower : string → string.

Lemma length_split_comma s : length (split_comma s) = S (commas s).
Proof.
  induction s as [|c s IH]; [done|]. simpl.
  destruct (Ascii.eqb c ","); simpl; [by rewrite IH|].
  destruct (split_comma s); simpl in *; [done|]. done.
Qed.

Lemma bind_Ok_inv {A B} (m : IO A) (k : A → IO B) s b s' :
  (m ≫= k) s = (Ok b, s') → ∃ a s1, m s = (Ok a, s1) ∧ k a s1 = (Ok b, s').
Proof.
  unfold mbind, IO_bind. destruct (m s) as [[a|e] s1]; [|done]. intros H. by exists a, s1.
Qed.

(** X10. One meal entry: a line is taken when it has exactly one comma and a
    number after it, and stops the script with [ValueError] otherwise. *)
Theorem meal_entry_needs_one_comma_and_a_number i range names cals s line rest :
  stdin s = line :: rest →
  let s1 := mkState rest (stdout s ++ [MealPrompt (i + 1)]) (calorie_log s) in
  (commas (strip line) ≠ 1%nat →
   meal_loop float strip upper (i :: range) names cals s = (Raise ValueError, s1))
  ∧ (commas (strip line) = 1%nat →
     ∃ meal cal,
       split_comma (strip line) = [meal; cal]
       ∧ meal_loop float strip upper (i :: range) names cals s
         = match float (strip cal) with
           | Some c =>
               meal_loop float strip upper range (names ++ [upper (strip meal)])
                 (cals ++ [c]) s1
           | None => (Raise ValueError, s1)
           end).
Proof.
  intros Hin s1. pose proof (length_split_comma (strip line)) as Hlen.
  assert (meal_loop float strip upper (i :: range) names cals s
          = match split_comma (strip line) with
            | [meal; cal] =>
                (c ← convert (float (strip cal));
                 meal_loop float strip upper range (names ++ [upper (strip meal)])
                   (cals ++ [c])) s1
            | _ => (Raise ValueError, s1)
            end) as ->.
  { cbn [meal_loop]. unfold mbind at 1, IO_bind at 1, input. rewrite Hin. fold s1.
    by destruct (split_comma (strip line)) as [|? [|? [|? ?]]]. }
  split; intros Hc.
  - destruct (split_comma (strip line)) as [|a [|b [|c l]]]; simpl in *; try done. lia.
  - rewrite Hc in Hlen.
    destruct (split_comma (strip line)) as [|meal [|cal [|c l]]]; simpl in *; try done.
    exists meal, cal. split; [done|].
    unfold mbind, IO_bind, convert. by destruct (float (strip cal)).
Qed.

(** What [report] does, case by case. *)
Lemma report_run names cals limit s :
  let rows := (λ p : nat * string * Qc, TableRow p.1.1 p.1.2 p.2) <$> table names cals in
  let total := py_sum cals in
  let avg := (total / len cals)%Qc in
  let over := bool_decide (limit < total)%Qc in
  let out := stdout s ++ [TableHeader; Rule] ++ rows ++ [Rule] in
  let out' := out ++ [Total total; Average avg; if over then Exceeded else Within;
                      Prompt "Do you want to save your report (yes/no)? "] in
  report strip lower names cals limit s
  = if cals is [] then (Raise ZeroDivisionError, mkState (stdin s) out (calorie_log s))
    else match stdin s with
         | [] => (Raise EOFError, mkState [] out' (calorie_log s))
         | answer :: rest =>
             if bool_decide (lower (strip answer) = "yes"%string)
             then (Ok tt, mkState rest (out' ++ [ReportSaved])
                            (Some (mkReport (table names cals) total avg limit over)))
             else (Ok tt, mkState rest (out' ++ [ReportNotSaved]) (calorie_log s))
         end.
Proof.
  intros rows total avg over out out'.
  unfold report, mbind, IO_bind at 1, print at 1. simpl.
  unfold IO_bind at 1, print at 1. simpl.
  unfold IO_bind at 1. rewrite print_rows_run. simpl.
  unfold IO_bind at 1, print at 1. simpl.
  unfold IO_bind at 1, truediv. fold total rows.
  destruct cals as [|c cals'].
  { rewrite bool_decide_eq_true_2 by (apply Qc_is_canon; reflexivity).
    unfold raise, out. by rewrite <-!(assoc_L (++)). }
  rewrite bool_decide_eq_false_2 by by apply len_nonzero.
  unfold mret, IO_ret at 1.
  unfold IO_bind at 1, print at 1. simpl.
  unfold IO_bind at 1, print at 1. simpl.
  unfold IO_bind at 1. fold avg over.
  assert (∀ st, (if over then print Exceeded else print Within) st
                = (Ok tt, mkState (stdin st)
                            (stdout st ++ [if over then Exceeded else Within])
                            (calorie_log st))) as -> by (intros; by destruct over).
  simpl. unfold IO_bind at 1, input. simpl.
  destruct (stdin s) as [|answer rest].
  { unfold out', out. by rewrite <-!(assoc_L (++)). }
  case_bool_decide; unfold IO_bind, write_report, print; simpl;
    unfold out', out; by rewrite <-!(assoc_L (++)).
Qed.

Lemma meal_loop_preserves range : ∀ names cals s r s',
  meal_loop float strip upper range names cals s = (r, s') →
  calorie_log s' = calorie_log s
  ∧ ∀ names' cals', r = Ok (names', cals') →
      length names' = (length names + length range)%nat
      ∧ length cals' = (length cals + length range)%nat.
Proof.
  induction range as [|i range IH]; intros names cals s r s' Hrun.
  - simpl in Hrun. injection Hrun as <- <-. split; [done|].
    intros names' cals' [= <- <-]. simpl. lia.
  - cbn [meal_loop] in Hrun. unfold mbind at 1, IO_bind at 1, input in Hrun.
    destruct (stdin s) as [|line rest]; [by injection Hrun as <- <-|].
    destruct (split_comma (strip line)) as [|meal [|cal [|? ?]]];
      try (by injection Hrun as <- <-).
    unfold mbind, IO_bind at 1, convert in Hrun.
    destruct (float (strip cal)) as [c|]; [|by injection Hrun as <- <-].
    simpl in Hrun. apply IH in Hrun as [Hlog Hlen]. split; [done|].
    intros names' cals' E. destruct (Hlen _ _ E) as [H1 H2].
    rewrite length_app in H1, H2. simpl in *. lia.
Qed.

Lemma read_meals_inv s r s' :
  read_meals int float strip upper s = (r, s') →
  calorie_log s' = calorie_log s
  ∧ ∀ names cals limit, r = Ok (names, cals, limit) →
      ∃ l1 l2 rest n,
        stdin s = l1 :: l2 :: rest ∧ int l1 = Some n ∧ float l2 = Some limit
        ∧ length names = Z.to_nat n ∧ length cals = Z.to_nat n.
Proof.
  unfold read_meals, mbind, IO_bind at 1, print at 1. simpl.
  unfold IO_bind at 1, input at 1. simpl.
  destruct (stdin s) as [|l1 rest1] eqn:E1; [by intros [= <- <-]|].
  unfold IO_bind at 1, convert at 1.
  destruct (int l1) as [n|] eqn:En; [|by intros [= <- <-]].
  unfold mret, IO_ret at 1. unfold IO_bind at 1, print at 1. simpl.
  unfold IO_bind at 1, input at 1. simpl.
  destruct rest1 as [|l2 rest2]; [by intros [= <- <-]|].
  unfold IO_bind at 1, convert at 1.
  destruct (float l2) as [limit|] eqn:El; [|by intros [= <- <-]].
  unfold IO_ret at 1. unfold IO_bind at 1, print at 1. simpl.
  unfold IO_bind at 1.
  destruct (meal_loop float strip upper (seq 0 (Z.to_nat n)) [] [] _) as [r0 s0] eqn:Eloop.
  apply meal_loop_preserves in Eloop as [Hlog Hlen]. simpl in Hlog.
  destruct r0 as [[names cals]|e]; intros [= <- <-]; (split; [done|]); [|done].
  intros names' cals' limit' [= <- <- <-].
  destruct (Hlen _ _ eq_refl) as [H1 H2]. rewrite length_seq in H1, H2. simpl in *.
  by exists l1, l2, rest2, n.
Qed.

(** X11. A run that stops with an error leaves the report file as it was; a run
    that completes ends with the message that tells whether the report was
    written, and has written it exactly in the first case. *)
Theorem report_written_only_at_the_end s :
  match script int float strip upper lower s with
  | (Raise _, s') => calorie_log s' = calorie_log s
  | (Ok _, s') =>
      (last (stdout s') = Some ReportSaved ∧ is_Some (calorie_log s'))
      ∨ (last (stdout s') = Some ReportNotSaved ∧ calorie_log s' = calorie_log s)
  end.
Proof.
  destruct (script int float strip upper lower s) as [r s'] eqn:E. revert E.
  unfold script, mbind, IO_bind.
  destruct (read_meals int float strip upper s) as [r0 s0] eqn:Eread.
  apply read_meals_inv in Eread as [Hlog _].
  destruct r0 as [[[names cals] limit]|e]; [|by intros [= <- <-]].
  simpl. rewrite report_run. cbv zeta.
  destruct cals as [|c cals]; [intros [= <- <-]; by simpl|].
  destruct (stdin s0) as [|answer rest]; [intros [= <- <-]; by simpl|].
  case_bool_decide; intros [= <- <-]; simpl.
  - left. by rewrite last_snoc.
  - right. by rewrite last_snoc.
Qed.

End TrackerMore.

(** * Facts about the functions of the gradebook *)

Section FloatFacts.
Import Marksheet MarksheetObserve.

Lemma Qclt_irreflexive (x : Qc) : ¬ (x < x)%Qc.
Proof. intros H. apply Qclt_not_le in H. apply H, Qcle_refl. Qed.

Lemma fle_trans a b c : fle a b = true → fle b c = true → fle a c = true.
Proof.
  destruct a, b, c; simpl; try done.
  rewrite !bool_decide_eq_true. apply Qcle_trans.
Qed.

Lemma fle_flt_trans a b c : fle a b = true → flt b c = true → flt a c = true.
Proof.
  destruct a, b, c; simpl; try done.
  rewrite !bool_decide_eq_true. apply Qcle_lt_trans.
Qed.

(** Two floats of which none is [nan] compare in exactly one way. *)
Lemma float_trichotomy a b :
  a ≠ NaN → b ≠ NaN →
  (flt a b = true ∧ feq a b = false ∧ fgt a b = false)
  ∨ (flt a b = false ∧ feq a b = true ∧ fgt a b = false ∧ a = b)
  ∨ (flt a b = false ∧ feq a b = false ∧ fgt a b = true).
Proof.
  intros Ha Hb. destruct a as [x| | |], b as [y| | |]; try done; unfold fgt; simpl;
    try (by left); try (by right; right);
    try (right; left; by rewrite ?bool_decide_eq_true_2).
  destruct (Qclt_le_dec x y) as [Hlt|Hle].
  - left. split; [by apply bool_decide_eq_true|].
    split; apply bool_decide_eq_false.
    + intros [= ->]. by apply Qclt_irreflexive in Hlt.
    + by apply Qcle_not_lt, Qclt_le_weak.
  - apply Qcle_lt_or_eq in Hle as [Hlt| ->].
    + right; right. split; [|split]; [apply bool_decide_eq_false..|by apply bool_decide_eq_true].
      * by apply Qcle_not_lt, Qclt_le_weak.
      * intros [= ->]. by apply Qclt_irreflexive in Hlt.
    + right; left. split; [|split; [|split]];
        [apply bool_decide_eq_false, Qclt_irreflexive|by apply bool_decide_eq_true
        |apply bool_decide_eq_false, Qclt_irreflexive|done].
Qed.

Lemma flt_fle a b : flt a b = true → fle a b = true.
Proof.
  destruct a, b; simpl; try done. rewrite !bool_decide_eq_true. apply Qclt_le_weak.
Qed.

Lemma feq_fle a b : feq a b = true → fle a b = true.
Proof.
  destruct a, b; simpl; try done. rewrite !bool_decide_eq_true.
  intros [= ->]. apply Qcle_refl.
Qed.

Lemma out_of_range_false score :
  out_of_range score = false ↔ score = NaN ∨ in_range score.
Proof.
  unfold out_of_range, in_range, fgt, of_int. destruct score as [q| | |]; simpl.
  - rewrite orb_false_iff, !bool_decide_eq_false, !bool_decide_eq_true. split.
    + intros [H1 H2]. right. split; by apply Qcnot_lt_le.
    + intros [?|[H1 H2]]; [done|]. split; by apply Qcle_not_lt.
  - split; [done|]. by intros [?|[? ?]].
  - split; [done|]. by intros [?|[? ?]].
  - split; [by left|done].
Qed.
End FloatFacts.

Section DictFacts.
Import Marksheet.
Context {V : Type}.
Implicit Types (d : list (string * V)) (k : string) (v : V).

Lemma dict_set_keys k v d :
  (dict_set k v d).*1 = if bool_decide (k ∈ d.*1) then d.*1 else d.*1 ++ [k].
Proof.
  induction d as [|[k' v'] d IH]; [done|]. cbn [dict_set].
  destruct (String.eqb_spec k k') as [->|Hne]; rewrite !fmap_cons; cbn [fst].
  - by rewrite bool_decide_eq_true_2 by left.
  - rewrite IH. destruct (decide (k ∈ d.*1)) as [Hin|Hin].
    + by rewrite !bool_decide_eq_true_2 by (try right; done).
    + rewrite (bool_decide_eq_false_2 (k ∈ d.*1)) by done.
      rewrite bool_decide_eq_false_2; [done|]. by intros [?|?]%elem_of_cons.
Qed.

Lemma dict_set_NoDup k v d : NoDup d.*1 → NoDup (dict_set k v d).*1.
Proof.
  intros Hnd. rewrite dict_set_keys. case_bool_decide as Hin; [done|].
  apply NoDup_app. split; [done|]. split; [|apply NoDup_singleton].
  intros x Hx ->%list_elem_of_singleton. done.
Qed.

Lemma elem_of_dict_set k v d k0 v0 :
  (k0, v0) ∈ dict_set k v d → (k0 = k ∧ v0 = v) ∨ (k0, v0) ∈ d.
Proof.
  induction d as [|[k' v'] d IH]; simpl.
  - intros [= -> ->]%list_elem_of_singleton. by left.
  - destruct (String.eqb_spec k k') as [->|Hne].
    + intros [[= -> ->]|Hin]%elem_of_cons; [by left|right; by right].
    + intros [[= -> ->]|Hin]%elem_of_cons; [right; left|].
      destruct (IH Hin) as [?|?]; [by left|right; by right].
Qed.

Lemma dict_get_set_eq k v d : dict_get k (dict_set k v d) = Some v.
Proof.
  induction d as [|[k' v'] d IH]; simpl; [by rewrite String.eqb_refl|].
  destruct (String.eqb_spec k k') as [->|Hne]; simpl.
  - by rewrite String.eqb_refl.
  - by destruct (String.eqb_spec k k').
Qed.

Lemma dict_get_set_ne k k0 v d : k0 ≠ k → dict_get k0 (dict_set k v d) = dict_get k0 d.
Proof.
  intros Hne. induction d as [|[k' v'] d IH]; simpl.
  - by destruct (String.eqb_spec k0 k).
  - destruct (String.eqb_spec k k') as [->|Hne']; simpl.
    + by destruct (String.eqb_spec k0 k').
    + by rewrite IH.
Qed.

Lemma dict_set_fresh k v d : k ∉ d.*1 → dict_set k v d = d ++ [(k, v)].
Proof.
  induction d as [|[k' v'] d IH]; [done|]. simpl. intros Hin.
  destruct (String.eqb_spec k k') as [->|Hne]; [destruct Hin; left|].
  rewrite IH; [done|]. intros ?. apply Hin. by right.
Qed.
End DictFacts.

Section ManualInput.
Import Gradebook Marksheet MarksheetObserve.
Variable float : string → option pyfloat.
Variables strip lower : string → string.

Lemma checked_weaken lines lines' marks :
  (∀ l, l ∈ lines → l ∈ lines') → checked strip lower lines marks → checked strip lower lines' marks.
Proof.
  intros Hsub [Hnd Hall]. split; [done|]. intros name score Hin.
  destruct (Hall _ _ Hin) as (? & ? & ? & line & ? & ?).
  repeat split; try done. exists line. split; [by apply Hsub|done].
Qed.

Lemma manual_loop_spec n : ∀ all lines marks out r rest out',
  (length lines ≤ n)%nat →
  (∀ l, l ∈ lines → l ∈ all) →
  checked strip lower all marks →
  manual_loop float strip lower lines marks out = (r, rest, out') →
  match r with
  | Ok marks' =>
      checked strip lower all marks'
      ∧ ∃ line, line ∈ all ∧ lower (strip line) = "done"%string
  | Raise e => e = EOFError ∧ rest = []
  end.
Proof.
  induction n as [|n IH]; intros all lines marks out r rest out' Hlen Hsub Hc Hrun.
  - destruct lines; [|simpl in Hlen; lia]. simpl in Hrun. by injection Hrun as <- <- <-.
  - destruct lines as [|line lines]; [simpl in Hrun; by injection Hrun as <- <- <-|].
    simpl in Hrun. case_bool_decide as Hdone.
    { injection Hrun as <- <- <-. split; [done|]. exists line. split; [apply Hsub; left|done]. }
    case_bool_decide as Hempty.
    { eapply IH in Hrun; [done|simpl in Hlen; lia| |done].
      intros l Hl. apply Hsub. by right. }
    destruct lines as [|line' lines']; [by injection Hrun as <- <- <-|].
    assert (∀ l, l ∈ lines' → l ∈ all) as Hsub'.
    { intros l Hl. apply Hsub. by do 2 right. }
    assert (length lines' ≤ n)%nat as Hlen' by (simpl in Hlen; lia).
    destruct (float (strip line')) as [score|] eqn:Ef.
    + destruct (out_of_range score) eqn:Er.
      * by eapply IH in Hrun.
      * eapply IH in Hrun; [done..|].
        destruct Hc as [Hnd Hall]. split; [by apply dict_set_NoDup|].
        intros name sc [[-> ->]|Hin]%elem_of_dict_set; [|by apply Hall].
        repeat split; try done; [by apply out_of_range_false|].
        exists line. split; [apply Hsub; left|done].
    + by eapply IH in Hrun.
Qed.

(** X13. [get_manual_input] returns only after a line that reads [done], or stops
    with [EOFError] when the input runs out.  The marks it returns have
    distinct, non-empty names, and every mark is a number between 0 and 100,
    or [nan], which the range check lets through. *)
Theorem manual_marks_are_checked s :
  match get_manual_input float strip lower s with
  | (Ok marks, _) =>
      (NoDup marks.*1
       ∧ ∀ name score, (name, score) ∈ marks →
           name ≠ ""%string ∧ lower name ≠ "done"%string
           ∧ (score = NaN ∨ in_range score)
           ∧ ∃ line, line ∈ stdin Files s ∧ name = strip line)
      ∧ ∃ line, line ∈ stdin Files s ∧ lower (strip line) = "done"%string
  | (Raise e, s') => e = EOFError ∧ stdin Files s' = []
  end.
Proof.
  unfold get_manual_input.
  destruct (manual_loop _ _ _ _ _ _) as [[r0 rest] out] eqn:E.
  eapply (manual_loop_spec _ (stdin Files s)) in E; [exact E|done..|].
  split; [constructor|]. by intros name score Hin%elem_of_nil.
Qed.
End ManualInput.

Section GradeFacts.
Import Marksheet MarksheetObserve.

Lemma grade_of_letters score : grade_of score ∈ letters.
Proof. unfold grade_of, letters. repeat case_match; set_solver. Qed.

Lemma thresholds_ordered :
  fle (of_int 60) (of_int 70) = true ∧ fle (of_int 70) (of_int 80) = true
  ∧ fle (of_int 80) (of_int 90) = true ∧ flt (of_int 40) (of_int 60) = true.
Proof. repeat split; by vm_compute. Qed.

(** X21. A higher mark never gets a lower grade. *)
Theorem grade_follows_the_mark a b :
  fle a b = true → (rank (grade_of a) ≤ rank (grade_of b))%nat.
Proof.
  intros Hab. destruct thresholds_ordered as (H67 & H78 & H89 & _).
  unfold grade_of, fge.
  destruct (fle (of_int 90) a) eqn:A9.
  { by rewrite (fle_trans _ _ _ A9 Hab). }
  destruct (fle (of_int 90) b) eqn:B9; [repeat case_match; unfold rank; simpl; lia|].
  destruct (fle (of_int 80) a) eqn:A8.
  { by rewrite (fle_trans _ _ _ A8 Hab). }
  destruct (fle (of_int 80) b) eqn:B8; [repeat case_match; unfold rank; simpl; lia|].
  destruct (fle (of_int 70) a) eqn:A7.
  { by rewrite (fle_trans _ _ _ A7 Hab). }
  destruct (fle (of_int 70) b) eqn:B7; [repeat case_match; unfold rank; simpl; lia|].
  destruct (fle (of_int 60) a) eqn:A6.
  { by rewrite (fle_trans _ _ _ A6 Hab). }
  destruct (fle (of_int 60) b) eqn:B6; unfold rank; simpl; lia.
Qed.

Lemma flt_not_fle a b : flt a b = true → fle b a = false.
Proof.
  destruct a, b; simpl; try done.
  rewrite bool_decide_eq_true, bool_decide_eq_false. apply Qclt_not_le.
Qed.

Lemma grade_F_iff score :
  grade_of score = "F"%string ↔ fle (of_int 60) score = false.
Proof.
  destruct thresholds_ordered as (H67 & H78 & H89 & _).
  unfold grade_of, fge. split.
  - repeat case_match; try done.
  - intros H6.
    assert (∀ t, fle (of_int 60) t = true → fle t score = false) as Hno.
    { intros t Ht. destruct (fle t score) eqn:E; [|done].
      by rewrite (fle_trans _ _ _ Ht E) in H6. }
    rewrite (Hno (of_int 90)), (Hno (of_int 80)), (Hno (of_int 70)), H6; [done|..].
    + done.
    + by eapply fle_trans.
    + eapply fle_trans; [done|]. by eapply fle_trans.
Qed.
End GradeFacts.

Section AssignGrades.
Import Marksheet MarksheetObserve.

Lemma graded_cons p m g :
  graded g (p :: m) = ((if bool_decide (grade_of p.2 = g) then 1 else 0) + graded g m)%nat.
Proof.
  unfold graded. rewrite filter_cons. case_bool_decide.
  - by rewrite decide_True.
  - by rewrite decide_False.
Qed.

Lemma grade_loop_distribution m : ∀ gs a b c d f,
  (foldl grade_step
     (gs, [("A", a); ("B", b); ("C", c); ("D", d); ("F", f)]%string) m).2
  = [("A", a + graded "A" m); ("B", b + graded "B" m); ("C", c + graded "C" m);
     ("D", d + graded "D" m); ("F", f + graded "F" m)]%string%nat.
Proof.
  induction m as [|p m IH]; intros gs a b c d f.
  - unfold graded. simpl. by rewrite !Nat.add_0_r.
  - rewrite !graded_cons. cbn [foldl]. unfold grade_step at 2. cbn [fst snd].
    pose proof (grade_of_letters p.2) as Hg. unfold letters in Hg.
    rewrite !elem_of_cons, elem_of_nil in Hg.
    destruct Hg as [Hg|[Hg|[Hg|[Hg|[Hg|[]]]]]]; rewrite Hg; simpl;
      rewrite IH; repeat (f_equal; try lia).
Qed.

Lemma grade_loop_grades m : ∀ (gs : list (string * string)) dist,
  NoDup (gs.*1 ++ m.*1) →
  (foldl grade_step (gs, dist) m).1 = gs ++ ((λ p, (p.1, grade_of p.2)) <$> m).
Proof.
  induction m as [|p m IH]; intros gs dist Hnd.
  - simpl. by rewrite app_nil_r.
  - cbn [foldl]. unfold grade_step at 2. cbn [fst snd].
    rewrite fmap_cons in Hnd.
    assert (p.1 ∉ gs.*1) as Hfresh.
    { apply NoDup_app in Hnd as (_ & Hdis & _). intros Hin.
      apply (Hdis _ Hin). left. }
    rewrite IH; rewrite dict_set_fresh by done.
    + by rewrite fmap_cons, <- app_assoc.
    + by rewrite fmap_app, <- app_assoc.
Qed.

Lemma graded_total m :
  (graded "A" m + graded "B" m + graded "C" m + graded "D" m + graded "F" m)%nat
  = length m.
Proof.
  induction m as [|p m IH]; [done|]. rewrite !graded_cons. simpl. rewrite <- IH.
  pose proof (grade_of_letters p.2) as Hg. unfold letters in Hg.
  rewrite !elem_of_cons, elem_of_nil in Hg.
  destruct Hg as [Hg|[Hg|[Hg|[Hg|[Hg|[]]]]]]; rewrite Hg; simpl; lia.
Qed.

Lemma assign_grades_eq student_scores :
  NoDup student_scores.*1 →
  assign_grades student_scores
  = ((λ p, (p.1, grade_of p.2)) <$> student_scores,
     (λ g, (g, graded g student_scores)) <$> letters).
Proof.
  intros Hnd. unfold assign_grades.
  pose proof (grade_loop_distribution student_scores [] 0 0 0 0 0)%nat as Hd.
  pose proof (grade_loop_grades student_scores []
    [("A", 0); ("B", 0); ("C", 0); ("D", 0); ("F", 0)]%string%nat Hnd) as Hg.
  simpl in Hd, Hg. apply injective_projections; [exact Hg|exact Hd].
Qed.

(** X22. [assign_grades] gives every student the grade of their mark, in the order
    of the table, and counts under each of the five letters the students who
    got it; the five counts add up to the number of students. *)
Theorem grades_and_counts student_scores :
  NoDup student_scores.*1 →
  assign_grades student_scores
  = ((λ p, (p.1, grade_of p.2)) <$> student_scores,
     (λ g, (g, graded g student_scores)) <$> letters)
  ∧ foldr Nat.add 0%nat (assign_grades student_scores).2.*2 = length student_scores.
Proof.
  intros Hnd. rewrite (assign_grades_eq _ Hnd). split; [done|].
  simpl. rewrite <- (graded_total student_scores). lia.
Qed.
End AssignGrades.

Section Extremes.
Import Gradebook Marksheet MarksheetObserve.
Variable str : pyfloat → string.

Lemma fle_refl a : a ≠ NaN → fle a a = true.
Proof. destruct a; simpl; try done. intros _. apply bool_decide_eq_true, Qcle_refl. Qed.

Lemma flt_irrefl a : flt a a = false.
Proof. destruct a; simpl; try done. apply bool_decide_eq_false, Qclt_irreflexive. Qed.

Lemma holders_snoc score l (x : string * pyfloat) :
  holders score (l ++ [x])
  = holders score l ++ (if bool_decide (x.2 = score) then [x.1] else []).
Proof.
  unfold holders. rewrite filter_app, fmap_app. f_equal.
  rewrite filter_cons, filter_nil. case_bool_decide.
  - by rewrite decide_True.
  - by rewrite decide_False.
Qed.

Lemma holders_none score (l : Marks) :
  (∀ p, p ∈ l → p.2 ≠ score) → holders score l = [].
Proof.
  intros Hl. unfold holders. induction l as [|p l IH]; [done|].
  rewrite filter_cons, decide_False; [|apply Hl; left].
  apply IH. intros q Hq. apply Hl. by right.
Qed.

Lemma max_scan_spec m :
  m ≠ [] → (∀ p, p ∈ m → p.2 ≠ NaN) →
  ∃ hi, max_scan m = (Some hi, holders hi m) ∧ hi ∈ m.*2
        ∧ ∀ x, x ∈ m.*2 → fle x hi = true.
Proof.
  induction m as [|x l IH] using rev_ind; [done|]. intros _ Hnan.
  assert (x.2 ≠ NaN) as Hx by (apply Hnan, elem_of_app; right; left).
  unfold max_scan. rewrite foldl_app. cbn [foldl].
  destruct (decide (l = [])) as [->|Hne].
  { exists x.2. simpl. unfold holders. rewrite filter_cons, decide_True by done.
    split; [done|]. split; [left|].
    intros y ->%list_elem_of_singleton. by apply fle_refl. }
  destruct (IH Hne) as (hi & Hscan & Hin & Hle).
  { intros p Hp. apply Hnan, elem_of_app. by left. }
  fold (max_scan l). rewrite Hscan. unfold max_step. cbn [fst snd].
  assert (hi ≠ NaN) as Hhi.
  { apply list_elem_of_fmap in Hin as (p & -> & Hp).
    apply Hnan, elem_of_app. by left. }
  destruct (float_trichotomy x.2 hi Hx Hhi)
    as [(Hlt & Heq & Hgt)|[(Hlt & Heq & Hgt & Hsame)|(Hlt & Heq & Hgt)]];
    rewrite Hgt, ?Heq.
  - exists hi. rewrite holders_snoc, bool_decide_eq_false_2, app_nil_r.
    + split; [done|]. rewrite fmap_app. split; [apply elem_of_app; by left|].
      intros y [Hy|Hy%list_elem_of_singleton]%elem_of_app; [by apply Hle|].
      subst y. by apply flt_fle.
    + intros Hsame. rewrite Hsame, flt_irrefl in Hlt. done.
  - exists hi. rewrite holders_snoc, bool_decide_eq_true_2 by done.
    split; [done|]. rewrite fmap_app. split; [apply elem_of_app; by left|].
    intros y [Hy|Hy%list_elem_of_singleton]%elem_of_app; [by apply Hle|].
    subst y. rewrite Hsame. by apply fle_refl.
  - exists x.2. rewrite holders_snoc, bool_decide_eq_true_2 by done.
    rewrite holders_none.
    + split; [done|]. rewrite fmap_app. split; [apply elem_of_app; right; left|].
      intros y [Hy|Hy%list_elem_of_singleton]%elem_of_app.
      * eapply fle_trans; [by apply Hle|]. by apply flt_fle.
      * subst y. by apply fle_refl.
    + intros p Hp Hsame.
      assert (fle x.2 hi = true) as Hc.
      { rewrite <- Hsame. apply Hle, list_elem_of_fmap. by exists p. }
      unfold fgt in Hgt. by rewrite (flt_not_fle _ _ Hgt) in Hc.
Qed.

Lemma min_scan_spec m :
  m ≠ [] → (∀ p, p ∈ m → p.2 ≠ NaN) →
  ∃ lo, min_scan m = (Some lo, holders lo m) ∧ lo ∈ m.*2
        ∧ ∀ x, x ∈ m.*2 → fle lo x = true.
Proof.
  induction m as [|x l IH] using rev_ind; [done|]. intros _ Hnan.
  assert (x.2 ≠ NaN) as Hx by (apply Hnan, elem_of_app; right; left).
  unfold min_scan. rewrite foldl_app. cbn [foldl].
  destruct (decide (l = [])) as [->|Hne].
  { exists x.2. simpl. unfold holders. rewrite filter_cons, decide_True by done.
    split; [done|]. split; [left|].
    intros y ->%list_elem_of_singleton. by apply fle_refl. }
  destruct (IH Hne) as (lo & Hscan & Hin & Hle).
  { intros p Hp. apply Hnan, elem_of_app. by left. }
  fold (min_scan l). rewrite Hscan. unfold min_step. cbn [fst snd].
  assert (lo ≠ NaN) as Hlo.
  { apply list_elem_of_fmap in Hin as (p & -> & Hp).
    apply Hnan, elem_of_app. by left. }
  destruct (float_trichotomy x.2 lo Hx Hlo)
    as [(Hlt & Heq & Hgt)|[(Hlt & Heq & Hgt & Hsame)|(Hlt & Heq & Hgt)]];
    rewrite Hlt, ?Heq.
  - exists x.2. rewrite holders_snoc, bool_decide_eq_true_2 by done.
    rewrite holders_none.
    + split; [done|]. rewrite fmap_app. split; [apply elem_of_app; right; left|].
      intros y [Hy|Hy%list_elem_of_singleton]%elem_of_app.
      * eapply fle_trans; [by apply flt_fle|]. by apply Hle.
      * subst y. by apply fle_refl.
    + intros p Hp Hsame.
      assert (fle lo x.2 = true) as Hc.
      { rewrite <- Hsame. apply Hle, list_elem_of_fmap. by exists p. }
      by rewrite (flt_not_fle _ _ Hlt) in Hc.
  - exists lo. rewrite holders_snoc, bool_decide_eq_true_2 by done.
    split; [done|]. rewrite fmap_app. split; [apply elem_of_app; by left|].
    intros y [Hy|Hy%list_elem_of_singleton]%elem_of_app; [by apply Hle|].
    subst y. rewrite Hsame. by apply fle_refl.
  - exists lo. rewrite holders_snoc, bool_decide_eq_false_2, app_nil_r.
    + split; [done|]. rewrite fmap_app. split; [apply elem_of_app; by left|].
      intros y [Hy|Hy%list_elem_of_singleton]%elem_of_app; [by apply Hle|].
      subst y. by apply flt_fle.
    + intros Hsame. unfold fgt in Hgt. rewrite Hsame, flt_irrefl in Hgt. done.
Qed.

(** X18. For a table that is not empty and holds no [nan], [find_max_score]
    prints a mark of the table that no mark exceeds, with every student who
    has exactly that mark, in the table's order. *)
Theorem highest_score_report student_scores s :
  student_scores ≠ [] → (∀ p, p ∈ student_scores → p.2 ≠ NaN) →
  ∃ hi, hi ∈ student_scores.*2
    ∧ (∀ x, x ∈ student_scores.*2 → fle x hi = true)
    ∧ find_max_score str student_scores s
      = print Files ("HIGHEST SCORE: " +:+ str hi +:+ " by "
                       +:+ join_names (holders hi student_scores)) s.
Proof.
  intros Hne Hnan. destruct (max_scan_spec _ Hne Hnan) as (hi & Hscan & Hin & Hle).
  exists hi. repeat split; [done..|]. unfold find_max_score. by rewrite Hscan.
Qed.

(** X19. For a table that is not empty and holds no [nan], [find_min_score]
    prints a mark of the table that no mark is below, with every student who
    has exactly that mark, in the table's order. *)
Theorem lowest_score_report student_scores s :
  student_scores ≠ [] → (∀ p, p ∈ student_scores → p.2 ≠ NaN) →
  ∃ lo, lo ∈ student_scores.*2
    ∧ (∀ x, x ∈ student_scores.*2 → fle lo x = true)
    ∧ find_min_score str student_scores s
      = print Files ("LOWEST SCORE:  " +:+ str lo +:+ " by "
                       +:+ join_names (holders lo student_scores)) s.
Proof.
  intros Hne Hnan. destruct (min_scan_spec _ Hne Hnan) as (lo & Hscan & Hin & Hle).
  exists lo. repeat split; [done..|]. unfold find_min_score. by rewrite Hscan.
Qed.

Lemma scan_stuck_on_nan step rest :
  (step = max_step ∨ step = min_step) →
  ∀ names, foldl step (Some NaN, names) rest = (Some NaN, names).
Proof.
  intros Hstep. induction rest as [|p rest IH]; [done|]. intros names.
  cbn [foldl]. rewrite <- (IH names) at 2. f_equal.
  destruct Hstep as [-> | ->]; unfold max_step, min_step, fgt; cbn [fst snd];
    by destruct p.2.
Qed.

(** X20. When the first mark of the table is [nan], both [find_max_score] and
    [find_min_score] report [nan] and the first student alone, whatever the
    other marks are: no comparison with [nan] holds. *)
Theorem nan_first_is_highest_and_lowest name rest s :
  find_max_score str ((name, NaN) :: rest) s
  = print Files ("HIGHEST SCORE: " +:+ str NaN +:+ " by " +:+ name) s
  ∧ find_min_score str ((name, NaN) :: rest) s
    = print Files ("LOWEST SCORE:  " +:+ str NaN +:+ " by " +:+ name) s.
Proof.
  unfold find_max_score, find_min_score, max_scan, min_scan. cbn [foldl].
  unfold max_step at 2, min_step at 2. cbn [fst snd].
  rewrite !scan_stuck_on_nan by auto. done.
Qed.
End Extremes.

Section PassFail.
Import Gradebook Marksheet MarksheetObserve.

Lemma pass_or_fail score :
  (fge score PASS_MARK = true ∧ flt score PASS_MARK = false ∧ score ≠ NaN)
  ∨ (fge score PASS_MARK = false ∧ flt score PASS_MARK = true ∧ score ≠ NaN)
  ∨ (fge score PASS_MARK = false ∧ flt score PASS_MARK = false ∧ score = NaN).
Proof.
  destruct (decide (score = NaN)) as [->|Hn]; [by right; right|].
  assert (PASS_MARK ≠ NaN) as Hp by done.
  destruct (float_trichotomy score PASS_MARK Hn Hp)
    as [(Hlt & Heq & Hgt)|[(Hlt & Heq & Hgt & Hsame)|(Hlt & Heq & Hgt)]].
  - right; left. unfold fge. by rewrite (flt_not_fle _ _ Hlt).
  - left. unfold fge. rewrite <- Hsame at 1. by rewrite fle_refl.
  - left. unfold fge. unfold fgt in Hgt. by rewrite (flt_fle _ _ Hgt).
Qed.

(** X23. The students counted as passed and those counted as failed add up to
    the students of the table, less those whose mark is [nan], who are
    counted as neither; and no mark counts as both. *)
Theorem passed_failed_partition student_scores :
  (length (passed student_scores) + length (failed student_scores)
   + length (holders NaN student_scores))%nat = length student_scores
  ∧ ∀ score, ¬ (fge score PASS_MARK = true ∧ flt score PASS_MARK = true).
Proof.
  split.
  - unfold passed, failed, holders. rewrite !length_fmap.
    induction student_scores as [|p m IH]; [done|].
    rewrite !filter_cons. cbn [length]. rewrite <- IH.
    destruct (pass_or_fail p.2) as [(H1 & H2 & H3)|[(H1 & H2 & H3)|(H1 & H2 & H3)]].
    + rewrite decide_True, decide_False, decide_False by (by rewrite ?H2). simpl. lia.
    + rewrite decide_False, decide_True, decide_False by (by rewrite ?H1). simpl. lia.
    + rewrite decide_False, decide_False, decide_True by (by rewrite ?H1, ?H2). simpl. lia.
  - intros score [Hp Hf].
    destruct (pass_or_fail score) as [(H1 & H2 & H3)|[(H1 & H2 & H3)|(H1 & H2 & H3)]];
      congruence.
Qed.

Lemma dict_get_fmap {V W} (g : string * V → W) (m : list (string * V)) name v :
  NoDup m.*1 → (name, v) ∈ m →
  dict_get name ((λ p, (p.1, g p)) <$> m) = Some (g (name, v)).
Proof.
  induction m as [|[k w] m IH]; intros Hnd Hin; [by apply elem_of_nil in Hin|].
  rewrite fmap_cons in Hnd. apply NoDup_cons in Hnd as [Hk Hnd]. csimpl.
  destruct (String.eqb_spec name k) as [->|Hne].
  - apply elem_of_cons in Hin as [[= ->]|Hin]; [done|].
    destruct Hk. apply list_elem_of_fmap. by exists (k, v).
  - apply elem_of_cons in Hin as [[= -> ->]|Hin]; [done|]. by apply IH.
Qed.

(** X24. A student counted as failed gets the grade F from [assign_grades]. *)
Theorem failed_students_get_F student_scores name :
  NoDup student_scores.*1 → name ∈ failed student_scores →
  dict_get name (assign_grades student_scores).1 = Some "F"%string.
Proof.
  intros Hnd Hin. rewrite (assign_grades_eq _ Hnd). cbn [fst].
  unfold failed in Hin. apply list_elem_of_fmap in Hin as ([n sc] & -> & Hin).
  apply list_elem_of_filter in Hin as [Hlt Hin]. cbn [fst snd] in *.
  rewrite (dict_get_fmap (λ p, grade_of p.2) _ n sc Hnd Hin). cbn [snd]. f_equal.
  apply grade_F_iff.
  destruct thresholds_ordered as (_ & _ & _ & H46).
  apply flt_not_fle. eapply fle_flt_trans; [|exact H46]. by apply flt_fle.
Qed.
End PassFail.

Section Average.
Import Gradebook Marksheet MarksheetObserve.

Lemma foldl_fadd_NaN (l : list pyfloat) : foldl fadd NaN l = NaN.
Proof. induction l as [|x l IH]; [done|]. by simpl. Qed.

Lemma fadd_NaN_r a : fadd a NaN = NaN.
Proof. by destruct a. Qed.

Lemma foldl_fadd_with_NaN (l : list pyfloat) : NaN ∈ l → ∀ a, foldl fadd a l = NaN.
Proof.
  induction l as [|x l IH]; intros Hin a; [by apply elem_of_nil in Hin|].
  apply elem_of_cons in Hin as [<-|Hin]; simpl.
  - by rewrite fadd_NaN_r, foldl_fadd_NaN.
  - by apply IH.
Qed.

(** X17. One [nan] among the marks makes the average of the whole table [nan]. *)
Theorem nan_mark_spoils_average marks_dict name :
  (name, NaN) ∈ marks_dict → calculate_average marks_dict = NaN.
Proof.
  intros Hin. unfold calculate_average.
  destruct marks_dict as [|p m] eqn:E; [by apply elem_of_nil in Hin|].
  rewrite <- E in *. rewrite foldl_fadd_with_NaN; [done|].
  apply list_elem_of_fmap. by exists (name, NaN).
Qed.
End Average.

Section CsvFacts.
Import Gradebook Marksheet MarksheetObserve.
Variable float : string → option pyfloat.
Variable strip : string → string.
Variable str : pyfloat → string.

Lemma load_row_keys marks row :
  NoDup marks.*1 → (∀ name, name ∈ marks.*1 → name ≠ ""%string) →
  NoDup (load_row float strip marks row).*1
  ∧ ∀ name, name ∈ (load_row float strip marks row).*1 → name ≠ ""%string.
Proof.
  intros Hnd Hne. unfold load_row.
  destruct row as [|name [|score row]]; [done..|].
  case_bool_decide as Hempty; [done|].
  destruct (float (strip score)) as [sc|]; [|done].
  split; [by apply dict_set_NoDup|].
  intros k. rewrite dict_set_keys. case_bool_decide; [apply Hne|].
  intros [Hk|Hk%list_elem_of_singleton]%elem_of_app; [by apply Hne|by subst].
Qed.

Lemma load_rows_keys rows : ∀ marks,
  NoDup marks.*1 → (∀ name, name ∈ marks.*1 → name ≠ ""%string) →
  NoDup (foldl (load_row float strip) marks rows).*1
  ∧ ∀ name, name ∈ (foldl (load_row float strip) marks rows).*1 → name ≠ ""%string.
Proof.
  induction rows as [|row rows IH]; intros marks Hnd Hne; [done|].
  simpl. destruct (load_row_keys marks row Hnd Hne). by apply IH.
Qed.

(** X14. [load_csv_data] always returns: it reads no input, leaves every file as
    it is, and only prints.  The names it returns are distinct and not
    empty.  For a file that is missing or cannot be read it returns no
    marks. *)
Theorem load_only_reads filename s :
  ∃ marks out,
    load_csv_data float strip filename s
    = (Ok marks, mkState Files (stdin Files s) (stdout Files s ++ out) (files Files s))
    ∧ NoDup marks.*1
    ∧ (∀ name, name ∈ marks.*1 → name ≠ ""%string)
    ∧ ((∀ rows, disk (files Files s) !! filename ≠ Some (Rows rows)) →
       marks = [] ∧ length out = 1%nat).
Proof.
  unfold load_csv_data.
  destruct (disk (files Files s) !! filename) as [[rows|error]|] eqn:E.
  - destruct rows as [|row rows].
    + exists [], []. rewrite app_nil_r. destruct s.
      split; [reflexivity|]. split; [constructor|].
      split; [by intros ? ?%elem_of_nil|]. intros H. by destruct (H []).
    + eexists _, [_]. split; [reflexivity|].
      destruct (load_rows_keys (drop (start_index float (row :: rows)) (row :: rows)) [])
        as [Hnd Hne]; [constructor|by intros ? ?%elem_of_nil|].
      split; [exact Hnd|]. split; [exact Hne|]. intros H. by destruct (H (row :: rows)).
  - eexists [], [_]. split; [reflexivity|]. split; [constructor|].
    split; [by intros ? ?%elem_of_nil|done].
  - eexists [], [_]. split; [reflexivity|]. split; [constructor|].
    split; [by intros ? ?%elem_of_nil|done].
Qed.

Lemma start_index_app row rows more :
  start_index float ((row :: rows) ++ more) = start_index float (row :: rows).
Proof. done. Qed.

Lemma start_index_le rows : (start_index float rows ≤ 1)%nat.
Proof.
  unfold start_index. destruct rows as [|[|? [|second ?]] ?]; try lia.
  destruct (float second); simpl; lia.
Qed.

Lemma load_rows_snoc row rows more :
  load_rows float strip ((row :: rows) ++ [more])
  = load_row float strip (load_rows float strip (row :: rows)) more.
Proof.
  unfold load_rows. rewrite start_index_app.
  pose proof (start_index_le (row :: rows)) as Hle.
  rewrite drop_app_le by (cbn [length]; lia). by rewrite foldl_app.
Qed.

Lemma append_student_record_run filename s name_line mark_line rest score :
  stdin Files s = name_line :: mark_line :: rest →
  strip name_line ≠ ""%string →
  float (strip mark_line) = Some score →
  out_of_range score = false →
  append_student_record float strip str filename s
  = append_row str filename (strip name_line) score
      (mkState Files rest
         (stdout Files s ++ ["Enter new student name: "; "Enter marks (0-100): "]%string)
         (files Files s)).
Proof.
  intros Hin Hname Hscore Hrange. unfold append_student_record.
  unfold mbind, IO_bind, input. rewrite Hin. cbn [stdin stdout files].
  rewrite bool_decide_eq_false_2 by done. cbn [stdin stdout files].
  rewrite Hscore, Hrange. by rewrite <- app_assoc.
Qed.

(** X15. A record added with [append_student_record] is there when the file is
    loaded afterwards: loading gives the marks loaded before, with the new
    student's mark set.  This needs a file that can be opened and read and
    that ends with a line end, and a name and a mark that the function
    accepts. *)
Theorem appended_record_is_loaded filename s name_line mark_line rest score :
  stdin Files s = name_line :: mark_line :: rest →
  strip name_line ≠ ""%string →
  float (strip mark_line) = Some score →
  out_of_range score = false →
  denied (files Files s) !! filename = None →
  (∀ error, disk (files Files s) !! filename ≠ Some (Unreadable error)) →
  strip (strip name_line) = strip name_line →
  float (str score) = Some score →
  float (strip (str score)) = Some score →
  float "Marks" = None →
  ∃ before,
    (load_csv_data float strip filename s).1 = Ok before
    ∧ (load_csv_data float strip filename
         (append_student_record float strip str filename s).2).1
      = Ok (dict_set (strip name_line) score before).
Proof.
  intros Hin Hname Hscore Hrange Hden Hread Hstrip Hstr Hstr' Hhead.
  rewrite (append_student_record_run filename s _ _ _ _ Hin Hname Hscore Hrange).
  unfold append_row. cbn [files]. rewrite Hden.
  destruct (disk (files Files s) !! filename) as [[rows|error]|] eqn:E;
    unfold load_csv_data, print; cbn [snd files disk]; rewrite ?E, lookup_insert_eq.
  - destruct rows as [|row rows].
    + exists []. split; [done|]. simpl.
      unfold load_rows, start_index. rewrite Hstr. simpl.
      by rewrite Hstrip, bool_decide_eq_false_2, Hstr'.
    + eexists. split; [reflexivity|].
      change ((row :: rows) ++ [[strip name_line; str score]])
        with (row :: (rows ++ [[strip name_line; str score]])).
      cbn [fst mbind IO_bind mret IO_ret print].
      change (row :: (rows ++ [[strip name_line; str score]]))
        with ((row :: rows) ++ [[strip name_line; str score]]).
      rewrite load_rows_snoc. unfold load_row at 1.
      by rewrite Hstrip, bool_decide_eq_false_2, Hstr'.
  - by destruct (Hread error).
  - exists []. split; [done|]. simpl.
    unfold load_rows, start_index. rewrite Hhead. simpl.
    by rewrite Hstrip, bool_decide_eq_false_2, Hstr'.
Qed.

End CsvFacts.

Section Summary.
Import Gradebook Marksheet MarksheetObserve.
Variables str format_2f format_6_1f : pyfloat → string.
Variable str_dict : list (string * nat) → string.
Variables ljust rjust : nat → string → string.

Lemma print_table_run grades items : ∀ s,
  print_table format_6_1f ljust rjust items grades s
  = (Ok tt,
     mkState Files (stdin Files s)
       (stdout Files s
          ++ ((λ p : string * pyfloat,
                 ljust 25 p.1 +:+ " | " +:+ format_6_1f p.2 +:+ " | "
                   +:+ rjust 5 (default "N/A"%string (dict_get p.1 grades))) <$> items))
       (files Files s)).
Proof.
  induction items as [|[name score] items IH]; intros s.
  - simpl. rewrite app_nil_r. by destruct s.
  - cbn [print_table]. unfold mbind, IO_bind, print at 1. rewrite IH.
    cbn [stdin stdout files]. by rewrite <- app_assoc.
Qed.

Lemma scan_finds_a_score step (m : Marks) :
  (step = max_step ∨ step = min_step) → m ≠ [] →
  ∃ score names, foldl step (None, []) m = (Some score, names).
Proof.
  intros Hstep Hne. destruct m as [|p m]; [done|]. cbn [foldl].
  assert (∃ score names, step (None, []) p = (Some score, names)) as (sc & ns & ->).
  { destruct Hstep as [-> | ->]; by eexists _, _. }
  clear Hne. revert sc ns. induction m as [|q m IH]; intros sc ns; [by eexists _, _|].
  cbn [foldl].
  assert (∃ score names, step (Some sc, ns) q = (Some score, names)) as (sc' & ns' & ->).
  { destruct Hstep as [-> | ->]; unfold max_step, min_step; cbn [fst snd];
      repeat case_match; by eexists _, _. }
  apply IH.
Qed.

(** X25. [print_summary] on a table that is not empty never fails, reads no input
    and touches no file.  It prints ten lines of statistics and headings,
    then one line per student in the order of the table, with the grade the
    given dict holds for the student, or [N/A] when it holds none, and a
    closing rule. *)
Theorem summary_lists_every_student student_scores grades s :
  student_scores ≠ [] →
  ∃ head,
    length head = 10%nat
    ∧ print_summary str format_2f format_6_1f str_dict ljust rjust student_scores grades s
      = (Ok tt,
         mkState Files (stdin Files s)
           (stdout Files s ++ head
              ++ ((λ p : string * pyfloat,
                     ljust 25 p.1 +:+ " | " +:+ format_6_1f p.2 +:+ " | "
                       +:+ rjust 5 (default "N/A"%string (dict_get p.1 grades)))
                    <$> student_scores)
              ++ [rule "="])
           (files Files s)).
Proof.
  intros Hne.
  destruct (scan_finds_a_score max_step student_scores) as (hi & his & Hmax); [auto|done|].
  destruct (scan_finds_a_score min_step student_scores) as (lo & los & Hmin); [auto|done|].
  unfold print_summary. destruct student_scores as [|p m] eqn:E; [done|]. rewrite <- E in *.
  unfold find_max_score, find_min_score, max_scan, min_scan. rewrite Hmax, Hmin.
  unfold mbind, IO_bind, print. cbn [stdin stdout files].
  rewrite print_table_run. cbn [stdin stdout files].
  eexists [_; _; _; _; _; _; _; _; _; _]. split; [done|].
  by rewrite <- !app_assoc.
Qed.
End Summary.


(** * Worked instances

    The statements above at concrete inputs. *)

Section Instances.
Import Energy Observe.


Lemma summary_statistics_by_building_witness :
  let w := mkWorld {[ 0%nat := Sample.two_buildings ]} [] in
  let self := mkManager 0%nat None None None None in
  let r := calculate_summary_statistics self w in
  (heap w !! df self = Some Sample.two_buildings ∧ Sample.two_buildings ≠ []
   ∧ calculate_summary_statistics self w = ((r.1.1, r.1.2), r.2))
  ∧ summary_stats r.1.2 = Some r.1.1
  ∧ StronglySorted (λ a b, (total_kWh b.2 ≤ total_kWh a.2)%Qc) r.1.1
  ∧ r.1.1 = [("A"%string, mkStats (Some (Q2Qc 15)) (Some (Q2Qc 10)) (Some (Q2Qc 20)) (Q2Qc 30));
             ("B"%string, mkStats (Some (Q2Qc 5)) (Some (Q2Qc 5)) (Some (Q2Qc 5)) (Q2Qc 5))].
Proof.
  intros w self r.
  assert (heap w !! df self = Some Sample.two_buildings) as Hd by reflexivity.
  assert (Sample.two_buildings ≠ []) as Hne by discriminate.
  assert (calculate_summary_statistics self w = ((r.1.1, r.1.2), r.2)) as Hrun by reflexivity.
  split; [by repeat split|].
  destruct (proj1 summary_statistics_by_building self w _ _ _ _ Hd Hne Hrun)
    as (H1 & _ & _ & _ & H5).
  split; [exact H1|]. split; [exact H5|].
  exact (proj2 summary_statistics_by_building self w _ _ _ Hd).
Defined.

Lemma ingest_keeps_exactly_the_clean_rows_witness :
  mkRow ns_per_hour (Some "A"%string) (Q2Qc 10) None
  ∈ ingested Sample.to_datetime Sample.to_numeric Sample.data_dir Sample.empty_world.
Proof.
  destruct (ingest_keeps_exactly_the_clean_rows Sample.to_datetime Sample.to_numeric
              [("hostel.csv", Returns Sample.hostel_csv);
               ("library.csv", Returns Sample.library_csv);
               ("engineering.csv", Raises OtherError)]%string Sample.empty_world)
    as (df_combined & _ & _ & H).
  apply H.
  exists "library.csv"%string, Sample.library_csv, 0%nat,
    (mkRaw (Some "1") (Some "A") (Some "10"))%string, ns_per_hour, (Q2Qc 10).
  split; [right; left|]. split; [reflexivity|].
  split; [repeat split; repeat constructor|].
  split; [reflexivity|]. split; [reflexivity|]. split; [|reflexivity].
  vm_compute. reflexivity.
Defined.

Lemma ingest_survives_bad_location_witness :
  let entries := [("notes.txt"%string, Raises FileNotFoundError)] in
  (glob_csv entries = []
   ∧ ingested Sample.to_datetime Sample.to_numeric (Directory entries) Sample.empty_world = []
   ∧ ingest_log Sample.to_datetime Sample.to_numeric (Directory entries) Sample.empty_world
     = [(WARNING, NoCsvFiles); (WARNING, NoValidData)])
  ∧ mkRow ns_per_hour (Some "A"%string) (Q2Qc 10) None
    ∈ ingested Sample.to_datetime Sample.to_numeric
        (Directory ([("hostel.csv", Returns Sample.hostel_csv);
                     ("library.csv", Returns Sample.library_csv)]
                    ++ ("engineering.csv", Raises OtherError) :: []))%string
        Sample.empty_world
  ∧ (ERROR, ErrorReading "engineering.csv")
    ∈ ingest_log Sample.to_datetime Sample.to_numeric
        (Directory ([("hostel.csv", Returns Sample.hostel_csv);
                     ("library.csv", Returns Sample.library_csv)]
                    ++ ("engineering.csv", Raises OtherError) :: []))%string
        Sample.empty_world.
Proof.
  intros entries.
  assert (glob_csv entries = []) as Hglob by reflexivity.
  destruct (ingest_survives_bad_location Sample.to_datetime Sample.to_numeric)
    as (_ & _ & _ & Hnone & Hskip).
  split; [split; [exact Hglob|exact (Hnone entries Sample.empty_world Hglob)]|].
  destruct (Hskip [("hostel.csv", Returns Sample.hostel_csv);
                   ("library.csv", Returns Sample.library_csv)]%string
              "engineering.csv"%string OtherError [] Sample.empty_world)
    as (Hrows & _ & Hlog).
  split; [|apply Hlog; reflexivity].
  apply Hrows.
  exists "library.csv"%string, Sample.library_csv, 0%nat,
    (mkRaw (Some "1") (Some "A") (Some "10"))%string, ns_per_hour, (Q2Qc 10).
  split; [right; left|]. split; [reflexivity|].
  split; [repeat split; repeat constructor|].
  split; [reflexivity|]. split; [reflexivity|]. split; [|reflexivity].
  vm_compute. reflexivity.
Defined.

Lemma ingest_skips_file_without_columns_witness :
  let data_dir :=
    Directory ([] ++ ("hostel.csv"%string, Returns Sample.hostel_csv)
                 :: [("library.csv"%string, Returns Sample.library_csv);
                     ("engineering.csv"%string, Raises OtherError)]) in
  ¬ has_required_columns Sample.hostel_csv
  ∧ mkRow ns_per_hour (Some "A"%string) (Q2Qc 10) None
    ∈ ingested Sample.to_datetime Sample.to_numeric data_dir Sample.empty_world
  ∧ (mkRow (3 * ns_per_hour) None (Q2Qc 7) None
     ∉ ingested Sample.to_datetime Sample.to_numeric data_dir Sample.empty_world)
  ∧ ∃ c, (WARNING, MissingColumn c "hostel.csv")
         ∈ ingest_log Sample.to_datetime Sample.to_numeric data_dir Sample.empty_world.
Proof.
  intros data_dir.
  assert (¬ has_required_columns Sample.hostel_csv) as Hno.
  { apply (bool_decide_eq_false_1 (has_required_columns Sample.hostel_csv)). reflexivity. }
  split; [exact Hno|].
  destruct (ingest_skips_file_without_columns Sample.to_datetime Sample.to_numeric
              [] "hostel.csv" Sample.hostel_csv
              [("library.csv"%string, Returns Sample.library_csv);
               ("engineering.csv"%string, Raises OtherError)]
              Sample.empty_world Hno) as (Hrows & _ & Hlog).
  split; [|split].
  - apply Hrows.
    exists "library.csv"%string, Sample.library_csv, 0%nat,
      (mkRaw (Some "1") (Some "A") (Some "10"))%string, ns_per_hour, (Q2Qc 10).
    split; [left|]. split; [reflexivity|].
    split; [repeat split; repeat constructor|].
    split; [reflexivity|]. split; [reflexivity|]. split; [|reflexivity].
    vm_compute. reflexivity.
  - intros Hin. apply Hrows in Hin
      as (name' & t' & i & r & ts & v & Hfile & _ & _ & Hr & _ & _ & Hc).
    simpl in Hfile.
    apply elem_of_cons in Hfile as [Hfile|Hfile%list_elem_of_singleton]; [|discriminate Hfile].
    injection Hfile as -> ->.
    destruct i as [|[|[|i]]]; simpl in Hr; [| | |discriminate Hr];
      injection Hr as <-; discriminate Hc.
  - destruct (Hlog eq_refl) as (c & _ & _ & Hc). by exists c.
Defined.

Lemma time_trends_on_empty_table_witness :
  let w := mkWorld {[ 0%nat := [] ]} [] in
  let self := mkManager 0%nat None None None None in
  heap w !! df self = Some []
  ∧ ∃ self' w',
      calculate_time_trends self w = ((([], []), self'), w')
      ∧ daily_totals self' = Some []
      ∧ weekly_avg_by_building self' = Some []
      ∧ peak_hours_by_building self' = None.
Proof.
  intros w self.
  assert (heap w !! df self = Some []) as Hd by reflexivity.
  split; [exact Hd|].
  destruct (proj1 time_trends_on_empty_table self w Hd)
    as (self' & w' & H1 & H2 & H3 & H4 & _).
  exists self', w'. repeat split; assumption.
Defined.

Lemma pipeline_twice_same_results_witness :
  let r1 := pipeline Sample.to_datetime Sample.to_numeric Sample.data_dir Sample.empty_world in
  let r2 := pipeline Sample.to_datetime Sample.to_numeric Sample.data_dir r1.2 in
  results r1.1 = results r2.1.
Proof.
  exact (pipeline_twice_same_results Sample.to_datetime Sample.to_numeric
           Sample.data_dir Sample.empty_world).
Defined.

Lemma aggregation_leaves_tables_unchanged_witness :
  let w := mkWorld {[ 0%nat := Sample.two_buildings ]} [] in
  let m := init 0%nat w in
  let r := calculate_time_trends m.1 m.2 in
  heap w !! 0%nat = Some Sample.two_buildings
  ∧ df m.1 ≠ 0%nat
  ∧ heap r.2 !! 0%nat = Some Sample.two_buildings
  ∧ heap r.2 !! df m.1 = Some Sample.two_buildings.
Proof.
  intros w m r.
  assert (heap w !! 0%nat = Some Sample.two_buildings) as Hd by reflexivity.
  destruct (proj1 aggregation_leaves_tables_unchanged 0%nat w _ Hd) as (Hne & Hcopy & Hold).
  destruct (proj2 (proj2 aggregation_leaves_tables_unchanged) m.1 m.2) as [_ Hkeep].
  split; [exact Hd|]. split; [exact Hne|].
  split; [exact (Hkeep _ _ (Hold _ _ Hd))|exact (Hkeep _ _ Hcopy)].
Defined.
End Instances.

Section TrackerInstances.
Import Tracker.

Lemma average_is_total_over_count_witness :
  let run := script Sample.number Sample.float id id id in
  let s := mkState ["2"; "2000"; "rice,300"; "dal,100"; "no"]%string [] None in
  let s0 := mkState ["0"; "2000"]%string [] None in
  Average (Q2Qc 200) ∈ stdout (run s).2
  ∧ (run s0).1 = Raise ZeroDivisionError.
Proof.
  intros run s s0. split.
  - destruct (proj1 (average_is_total_over_count Sample.number Sample.float id id id)
                s ["rice"; "dal"]%string [Q2Qc 300; Q2Qc 100] (Q2Qc 2000)
                (mkState ["no"%string]
                   [Banner; Prompt "ENTER HOW MANY MEALS YOU WANT TO ADD: "; Blank;
                    Prompt "ENTER YOUR DAILY CALORIE LIMIT: "; Blank;
                    MealPrompt 1; MealPrompt 2] None))
      as (r & s2 & Hrun & _ & Havg).
    + vm_compute. reflexivity.
    + discriminate.
    + unfold run. rewrite Hrun. simpl.
      replace (Q2Qc 200) with (py_sum [Q2Qc 300; Q2Qc 100] / len [Q2Qc 300; Q2Qc 100])%Qc
        by (apply Qc_is_canon; reflexivity).
      exact Havg.
  - unfold run.
    rewrite (proj2 (average_is_total_over_count Sample.number Sample.float id id id)
               s0 "0"%string "2000"%string [] 0 (Q2Qc 2000)); [reflexivity..| |].
    + lia.
    + vm_compute. reflexivity.
Defined.
End TrackerInstances.

Section EnergyInstances.
Import Energy Observe Reporting.

Lemma ingest_ignores_listing_order_witness :
  let a := ("library.csv"%string, Returns Sample.library_csv) in
  let b := ("hostel.csv"%string, Returns Sample.hostel_csv) in
  ingested Sample.to_datetime Sample.to_numeric (Directory [a; b]) Sample.empty_world
  = ingested Sample.to_datetime Sample.to_numeric (Directory [b; a]) Sample.empty_world.
Proof.
  intros a b.
  apply (ingest_ignores_listing_order Sample.to_datetime Sample.to_numeric [a; b] [b; a]).
  - apply perm_swap.
  - apply NoDup_cons. split; [|apply NoDup_singleton].
    intros [=]%list_elem_of_singleton.
Defined.

Lemma daily_buckets_cover_the_span_witness :
  let w := world Fixture.env in
  let daily := (calculate_time_trends Fixture.new_manager w).1.1.1 in
  heap w !! df Fixture.new_manager = Some Sample.two_buildings
  ∧ (∀ r, r ∈ Sample.two_buildings → day (Timestamp r) * ns_per_day ∈ daily.*1).
Proof.
  intros w daily.
  assert (heap w !! df Fixture.new_manager = Some Sample.two_buildings) as Hd by reflexivity.
  split; [exact Hd|].
  exact (proj1 (daily_buckets_cover_the_span Fixture.new_manager w _ Hd)).
Defined.

Lemma peak_table_one_row_per_building_witness :
  let w := world Fixture.env in
  ∃ peaks,
    peak_hours_by_building (calculate_time_trends Fixture.new_manager w).1.2 = Some peaks
    ∧ NoDup peaks.*1.
Proof.
  intros w.
  destruct (peak_table_one_row_per_building Fixture.new_manager w Sample.two_buildings)
    as (peaks & Hp & Hnd & _).
  - reflexivity.
  - eexists. split; [left|]. by eexists.
  - intros k. unfold group_rows, Sample.two_buildings. rewrite !filter_cons, filter_nil.
    cbn [Building Timestamp].
    repeat (destruct (decide _)); try congruence; csimpl;
      apply (bool_decide_unpack (NoDup _)); vm_compute; exact I.
  - exists peaks. split; [exact Hp|exact Hnd].
Defined.




Lemma run_without_data_witness :
  ∃ m e',
    run Sample.to_datetime Sample.to_numeric NoSuchPath Fixture.env = (Ok m, e')
    ∧ building_summary_csv e' = Some [].
Proof.
  destruct (run_without_data Sample.to_datetime Sample.to_numeric NoSuchPath Fixture.env)
    as (m & e' & H1 & _ & H3 & _).
  - reflexivity.
  - reflexivity.
  - exists m, e'. split; [exact H1|exact H3].
Defined.

End EnergyInstances.

Section TrackerMoreInstances.
Import Tracker TrackerObserve.

Lemma meal_entry_needs_one_comma_and_a_number_witness :
  let s := mkState ["rice"%string] [] None in
  meal_loop Sample.float Fixture.unchanged Fixture.unchanged [0%nat] [] [] s
  = (Raise ValueError, mkState [] [MealPrompt 1] None).
Proof.
  intros s.
  apply (proj1 (meal_entry_needs_one_comma_and_a_number Sample.float Fixture.unchanged
                  Fixture.unchanged 0%nat [] [] [] s "rice"%string [] eq_refl)).
  vm_compute. discriminate.
Defined.

End TrackerMoreInstances.

Section GradebookInstances.
Import Gradebook Marksheet MarksheetObserve.

Lemma grade_follows_the_mark_witness :
  (rank (grade_of (of_int 55)) ≤ rank (grade_of (of_int 85)))%nat.
Proof. apply grade_follows_the_mark. reflexivity. Defined.

Lemma grades_and_counts_witness :
  (assign_grades Fixture.marks).2
  = (λ g, (g, graded g Fixture.marks)) <$> letters.
Proof.
  destruct (grades_and_counts Fixture.marks) as [-> _]; [|done].
  apply (bool_decide_unpack (NoDup _)). vm_compute. exact I.
Defined.

Lemma highest_score_report_witness :
  ∃ hi, find_max_score Fixture.str Fixture.marks (Fixture.typing [])
        = print Files ("HIGHEST SCORE: " +:+ Fixture.str hi +:+ " by "
                         +:+ join_names (holders hi Fixture.marks))
            (Fixture.typing []).
Proof.
  destruct (highest_score_report Fixture.str Fixture.marks (Fixture.typing []))
    as (hi & _ & _ & H).
  - discriminate.
  - intros p Hp. unfold Fixture.marks in Hp.
    repeat (apply elem_of_cons in Hp as [->|Hp]; [discriminate|]).
    by apply elem_of_nil in Hp.
  - by exists hi.
Defined.

Lemma lowest_score_report_witness :
  ∃ lo, find_min_score Fixture.str Fixture.marks (Fixture.typing [])
        = print Files ("LOWEST SCORE:  " +:+ Fixture.str lo +:+ " by "
                         +:+ join_names (holders lo Fixture.marks))
            (Fixture.typing []).
Proof.
  destruct (lowest_score_report Fixture.str Fixture.marks (Fixture.typing []))
    as (lo & _ & _ & H).
  - discriminate.
  - intros p Hp. unfold Fixture.marks in Hp.
    repeat (apply elem_of_cons in Hp as [->|Hp]; [discriminate|]).
    by apply elem_of_nil in Hp.
  - by exists lo.
Defined.

Lemma failed_students_get_F_witness :
  dict_get "ravi" (assign_grades Fixture.marks).1 = Some "F"%string.
Proof.
  apply failed_students_get_F.
  - apply (bool_decide_unpack (NoDup _)). vm_compute. exact I.
  - vm_compute. left.
Defined.

Lemma nan_mark_spoils_average_witness :
  calculate_average [("asha"%string, of_int 85); ("ravi"%string, NaN)] = NaN.
Proof. apply (nan_mark_spoils_average _ "ravi"%string). right. left. Defined.

Lemma summary_lists_every_student_witness :
  ∃ out,
    print_summary Fixture.str Fixture.str Fixture.str (λ _, ""%string)
      (λ _ s, s) (λ _ s, s) Fixture.marks [] (Fixture.typing [])
    = (Ok tt, mkState Files [] out Fixture.one_file)
    ∧ length out = 14%nat.
Proof.
  destruct (summary_lists_every_student Fixture.str Fixture.str Fixture.str
              (λ _, ""%string) (λ _ s, s) (λ _ s, s) Fixture.marks []
              (Fixture.typing [])) as (head & Hlen & H); [discriminate|].
  eexists. split; [exact H|].
  rewrite !length_app, length_fmap, Hlen. reflexivity.
Defined.

Lemma appended_record_is_loaded_witness :
  let s := Fixture.typing ["ravi"; "35"]%string in
  (load_csv_data Fixture.float Fixture.unchanged "marks.csv"
     (append_student_record Fixture.float Fixture.unchanged Fixture.str "marks.csv" s).2).1
  = Ok [("asha"%string, of_int 85); ("ravi"%string, of_int 35)].
Proof.
  intros s.
  assert (Fixture.unchanged "ravi" ≠ ""%string) as Hname by discriminate.
  assert (∀ error, disk (files Files s) !! "marks.csv"%string ≠ Some (Unreadable error))
    as Hread by (intros error; vm_compute; discriminate).
  destruct (appended_record_is_loaded Fixture.float Fixture.unchanged Fixture.str
              "marks.csv" s "ravi" "35" [] (of_int 35)
              eq_refl Hname eq_refl eq_refl eq_refl Hread eq_refl eq_refl eq_refl eq_refl)
    as (before & Hbefore & Hafter).
  rewrite Hafter. vm_compute in Hbefore. injection Hbefore as <-. reflexivity.
Defined.
End GradebookInstances.
